(** * Fleet control plane of the Voice AI Systems Guide (chapter 10 examples)

  A shallow embedding of
  - [chapters/chapter10/examples/autoscaling_config.py]
    ([VoiceAIMetricsCollector], [VoiceAIAutoScaler]) and
  - [chapters/chapter10/examples/load_balancing.py]
    ([SessionManager], [GlobalLoadBalancer]),
  with the properties the specification states about them.

  Conventions of the embedding.
  - Python [int] is [Z]; [str] is [string]; a [datetime] is the number of
    microseconds since the epoch, a [timedelta] a number of microseconds.
  - Python [float] is an abstract type [F] with the operations the code
    applies to it (class [PyFloat]); every general theorem holds for any
    interpretation of these operations.  The rational numbers give one
    executable interpretation ([QFloat]), used to run the code on concrete
    inputs.
  - A raised exception is a value of [exn]; a method that can raise returns
    a [result].  A method that mutates its object returns the new object
    next to its result, also when it raises: Python keeps the mutations
    made before the exception.
  - Every clock reading ([datetime.utcnow()], [time.time()]) is an input.
    Readings that no [await] separates are taken at one instant.
  - An [async] method runs without interruption between two [await]s.
    [route_call] has one [await]: it is given as a whole, with the readings
    taken before and after the [await], and in two halves that other calls
    can come between. *)

From Stdlib Require Import ZArith QArith Qround Lia Bool.
From stdpp Require Import base option list strings gmap.

Open Scope Z_scope.

(** ** Python values, exceptions and floats *)

Module Py.

Inductive exn : Type :=
| TypeError (msg : string)
| KeyError (key : string)
| ZeroDivisionError
| OverflowError
| ValueError
| Exception (msg : string).

Inductive result (A : Type) : Type :=
| Ok (a : A)
| Raise (e : exn).
Arguments Ok {A} a.
Arguments Raise {A} e.

Definition bind {A B : Type} (r : result A) (k : A -> result B) : result B :=
  match r with
  | Ok a => k a
  | Raise e => Raise e
  end.

(** [str(e)]: the message of the exception; for a [KeyError] the [repr] of
    the key (a key without quotes or escapes is printed between single
    quotes). *)
Definition str_exn (e : exn) : string :=
  match e with
  | TypeError msg => msg
  | KeyError key => "'" +:+ key +:+ "'"
  | ZeroDivisionError => "float division by zero"
  | OverflowError => "cannot convert float infinity to integer"
  | ValueError => "cannot convert float NaN to integer"
  | Exception msg => msg
  end.

(** The operations of Python floats that the two modules use.  [of_Z] is
    the conversion Python applies to an [int] operand of a mixed
    operation, [of_Q] reads a decimal literal.  [fdiv] is the quotient for
    a divisor that is not zero; [fis_zero] is the test that makes [/] raise
    [ZeroDivisionError].  [fceil] is [math.ceil], which raises on an
    infinity or a NaN. *)
Class PyFloat (F : Type) : Type := {
  of_Z : Z -> F;
  of_Q : Q -> F;
  fgt : F -> F -> bool;
  flt : F -> F -> bool;
  fle : F -> F -> bool;
  fis_zero : F -> bool;
  fadd : F -> F -> F;
  fmul : F -> F -> F;
  fdiv : F -> F -> F;
  fceil : F -> result Z
}.

(** Exact rational arithmetic: the floats without rounding, infinities and
    NaN. *)
#[export] Instance QFloat : PyFloat Q := {
  of_Z := inject_Z;
  of_Q := fun q => q;
  fgt := fun x y => negb (Qle_bool x y);
  flt := fun x y => negb (Qle_bool y x);
  fle := Qle_bool;
  fis_zero := fun x => Qeq_bool x 0;
  fadd := Qplus;
  fmul := Qmult;
  fdiv := Qdiv;
  fceil := fun x => Ok (Qceiling x)
}.

Section Ops.
Context {F : Type} `{PyFloat F}.

(** [x / y] on two floats. *)
Definition truediv (x y : F) : result F :=
  if fis_zero y then Raise ZeroDivisionError else Ok (fdiv x y).

(** [x / n] for a float [x] and an int [n]. *)
Definition truediv_int (x : F) (n : Z) : result F :=
  if n =? 0 then Raise ZeroDivisionError else Ok (fdiv x (of_Z n)).

(** [a / b] on two ints: true division, a float. *)
Definition int_truediv (a b : Z) : result F :=
  if b =? 0 then Raise ZeroDivisionError else Ok (fdiv (of_Z a) (of_Z b)).

(** [max(x :: xs)]: the first of the largest items; an item replaces the
    running maximum only when it is [>] it. *)
Definition pymax (x : F) (xs : list F) : F :=
  fold_left (fun best y => if fgt y best then y else best) xs x.

(** [min(a, b)] on floats: [b] only when [b < a]. *)
Definition pymin2 (a b : F) : F := if flt b a then b else a.
End Ops.

(** The truth value of a list: [not l] is [negb (nonempty l)]. *)
Definition nonempty {A : Type} (l : list A) : bool :=
  match l with [] => false | _ :: _ => true end.

End Py.
Import Py.

Notation "x <- c1 ;; c2" := (Py.bind c1 (fun x => c2))
(at level 100, c1 at next level, right associativity).

(** [timedelta(minutes=m)] and [timedelta(seconds=s)], in microseconds. *)
Definition timedelta_minutes (m : Z) : Z := m * 60000000.
Definition timedelta_seconds (s : Z) : Z := s * 1000000.

(** ** The auto-scaler ([autoscaling_config.py]) *)

Module AutoScaling.
Section WithFloat.
Context {F : Type} `{PyFloat F}.

Record ScalingMetrics : Type := {
  cpu_utilization : F;
  memory_utilization : F;
  concurrent_calls : Z;
  stt_latency_ms : F;
  tts_latency_ms : F;
  error_rate : F;
  timestamp : Z
}.

(** One entry of a trigger list.  The source appends a formatted sentence
    per check that fires; the embedding records which check it was. *)
Inductive Trigger : Type :=
| CpuTrigger | MemoryTrigger | CallsTrigger
| SttTrigger | TtsTrigger | ErrorRateTrigger.

(** [reason]: the triggers joined with "; ", or a fixed sentence. *)
Inductive Reason : Type :=
| Joined (triggers : list Trigger)
| Sentence (text : string).

Record ScalingDecision : Type := {
  action : string;
  reason : Reason;
  d_current_replicas : Z;
  target_replicas : Z;
  metrics : ScalingMetrics;
  d_timestamp : Z
}.

(** The dictionaries [scale_up_thresholds] and [scale_down_thresholds];
    the latency thresholds are ints in the source. *)
Record Thresholds : Type := {
  th_cpu_utilization : F;
  th_memory_utilization : F;
  th_concurrent_calls : Z;
  th_stt_latency_ms : Z;
  th_tts_latency_ms : Z;
  th_error_rate : F
}.

Record VoiceAIMetricsCollector : Type := {
  metrics_history : list ScalingMetrics;
  current_metrics : ScalingMetrics;
  max_history_size : Z
}.

Record VoiceAIAutoScaler : Type := {
  service_name : string;
  metrics_collector : VoiceAIMetricsCollector;
  current_replicas : Z;
  min_replicas : Z;
  max_replicas : Z;
  target_cpu_utilization : F;
  target_memory_utilization : F;
  max_concurrent_calls_per_replica : Z;
  max_latency_ms : Z;
  max_error_rate : F;
  scale_up_thresholds : Thresholds;
  scale_down_thresholds : Thresholds;
  scaling_history : list ScalingDecision;
  last_scale_time : Z;
  scale_cooldown_minutes : Z
}.

(** [VoiceAIMetricsCollector.__init__] and [VoiceAIAutoScaler.__init__],
    run at the instant [now]. *)
Definition new_collector (now : Z) : VoiceAIMetricsCollector :=
  {| metrics_history := [];
     current_metrics :=
       {| cpu_utilization := of_Q 0; memory_utilization := of_Q 0;
          concurrent_calls := 0; stt_latency_ms := of_Q 0;
          tts_latency_ms := of_Q 0; error_rate := of_Q 0;
          timestamp := now |};
     max_history_size := 1000 |}.

Definition new_autoscaler (name : string) (now : Z) : VoiceAIAutoScaler :=
  {| service_name := name;
     metrics_collector := new_collector now;
     current_replicas := 2;
     min_replicas := 2;
     max_replicas := 20;
     target_cpu_utilization := of_Q 70;
     target_memory_utilization := of_Q 80;
     max_concurrent_calls_per_replica := 50;
     max_latency_ms := 500;
     max_error_rate := of_Q (5 # 100);
     scale_up_thresholds :=
       {| th_cpu_utilization := of_Q 80; th_memory_utilization := of_Q 85;
          th_concurrent_calls := 45; th_stt_latency_ms := 400;
          th_tts_latency_ms := 400; th_error_rate := of_Q (3 # 100) |};
     scale_down_thresholds :=
       {| th_cpu_utilization := of_Q 30; th_memory_utilization := of_Q 40;
          th_concurrent_calls := 10; th_stt_latency_ms := 200;
          th_tts_latency_ms := 200; th_error_rate := of_Q (1 # 100) |};
     scaling_history := [];
     last_scale_time := now;
     scale_cooldown_minutes := 5 |}.

(** [update_metrics]: remember the sample, drop the oldest one beyond
    [max_history_size]. *)
Definition update_metrics (c : VoiceAIMetricsCollector) (m : ScalingMetrics)
  : VoiceAIMetricsCollector :=
  let history := metrics_history c ++ [m] in
  {| metrics_history :=
       if max_history_size c <? Z.of_nat (length history)
       then tail history else history;
     current_metrics := m;
     max_history_size := max_history_size c |}.

Definition with_collector (a : VoiceAIAutoScaler) (c : VoiceAIMetricsCollector)
  : VoiceAIAutoScaler :=
  {| service_name := service_name a;
     metrics_collector := c;
     current_replicas := current_replicas a;
     min_replicas := min_replicas a;
     max_replicas := max_replicas a;
     target_cpu_utilization := target_cpu_utilization a;
     target_memory_utilization := target_memory_utilization a;
     max_concurrent_calls_per_replica := max_concurrent_calls_per_replica a;
     max_latency_ms := max_latency_ms a;
     max_error_rate := max_error_rate a;
     scale_up_thresholds := scale_up_thresholds a;
     scale_down_thresholds := scale_down_thresholds a;
     scaling_history := scaling_history a;
     last_scale_time := last_scale_time a;
     scale_cooldown_minutes := scale_cooldown_minutes a |}.

(** The three assignments that follow a scaling decision:
    [current_replicas = target_replicas], [last_scale_time = utcnow()],
    [scaling_history.append(decision)]. *)
Definition record_scaling (a : VoiceAIAutoScaler) (d : ScalingDecision) (now : Z)
  : VoiceAIAutoScaler :=
  {| service_name := service_name a;
     metrics_collector := metrics_collector a;
     current_replicas := target_replicas d;
     min_replicas := min_replicas a;
     max_replicas := max_replicas a;
     target_cpu_utilization := target_cpu_utilization a;
     target_memory_utilization := target_memory_utilization a;
     max_concurrent_calls_per_replica := max_concurrent_calls_per_replica a;
     max_latency_ms := max_latency_ms a;
     max_error_rate := max_error_rate a;
     scale_up_thresholds := scale_up_thresholds a;
     scale_down_thresholds := scale_down_thresholds a;
     scaling_history := scaling_history a ++ [d];
     last_scale_time := now;
     scale_cooldown_minutes := scale_cooldown_minutes a |}.

(** What [should_scale_up] and [should_scale_down] return: the bare
    [False] of the two early returns, or the pair
    [(len(triggers) > 0, triggers)] of the last line. *)
Inductive ShouldScale : Type :=
| BareFalse
| Pair (flag : bool) (triggers : list Trigger).

(** [flag, triggers = r]: unpacking works on the pair only. *)
Definition unpack (r : ShouldScale) : result (bool * list Trigger) :=
  match r with
  | BareFalse => Raise (TypeError "cannot unpack non-iterable bool object")
  | Pair flag triggers => Ok (flag, triggers)
  end.

Definition in_cooldown (a : VoiceAIAutoScaler) (now : Z) : bool :=
  now - last_scale_time a <? timedelta_minutes (scale_cooldown_minutes a).

Definition when (b : bool) (t : Trigger) : list Trigger :=
  if b then [t] else [].

Definition up_triggers (a : VoiceAIAutoScaler) (m : ScalingMetrics) : list Trigger :=
  let th := scale_up_thresholds a in
  when (fgt (cpu_utilization m) (th_cpu_utilization th)) CpuTrigger
  ++ when (fgt (memory_utilization m) (th_memory_utilization th)) MemoryTrigger
  ++ when (th_concurrent_calls th <? concurrent_calls m) CallsTrigger
  ++ when (fgt (stt_latency_ms m) (of_Z (th_stt_latency_ms th))) SttTrigger
  ++ when (fgt (tts_latency_ms m) (of_Z (th_tts_latency_ms th))) TtsTrigger
  ++ when (fgt (error_rate m) (th_error_rate th)) ErrorRateTrigger.

Definition down_triggers (a : VoiceAIAutoScaler) (m : ScalingMetrics) : list Trigger :=
  let th := scale_down_thresholds a in
  when (flt (cpu_utilization m) (th_cpu_utilization th)) CpuTrigger
  ++ when (flt (memory_utilization m) (th_memory_utilization th)) MemoryTrigger
  ++ when (concurrent_calls m <? th_concurrent_calls th) CallsTrigger
  ++ when (flt (stt_latency_ms m) (of_Z (th_stt_latency_ms th))) SttTrigger
  ++ when (flt (tts_latency_ms m) (of_Z (th_tts_latency_ms th))) TtsTrigger
  ++ when (flt (error_rate m) (th_error_rate th)) ErrorRateTrigger.

Definition should_scale_up (a : VoiceAIAutoScaler) (m : ScalingMetrics) (now : Z)
  : ShouldScale :=
  if in_cooldown a now then BareFalse
  else if max_replicas a <=? current_replicas a then BareFalse
  else let triggers := up_triggers a m in Pair (nonempty triggers) triggers.

Definition should_scale_down (a : VoiceAIAutoScaler) (m : ScalingMetrics) (now : Z)
  : ShouldScale :=
  if in_cooldown a now then BareFalse
  else if current_replicas a <=? min_replicas a then BareFalse
  else let triggers := down_triggers a m in Pair (nonempty triggers) triggers.

(** One [if metric > target: scale_factors.append(metric / target)]. *)
Definition append_factor (exceeds : bool) (factor : result F) (scale_factors : list F)
  : result (list F) :=
  if exceeds then (f <- factor ;; Ok (scale_factors ++ [f]))
  else Ok scale_factors.

Definition calculate_target_replicas
    (a : VoiceAIAutoScaler) (m : ScalingMetrics) (act : string) : result Z :=
  target <-
    (if String.eqb act "scale_up" then
       sf <- append_factor
               (fgt (cpu_utilization m) (target_cpu_utilization a))
               (truediv (cpu_utilization m) (target_cpu_utilization a)) [] ;;
       sf <- append_factor
               (fgt (memory_utilization m) (target_memory_utilization a))
               (truediv (memory_utilization m) (target_memory_utilization a)) sf ;;
       sf <- append_factor
               (max_concurrent_calls_per_replica a <? concurrent_calls m)
               (int_truediv (concurrent_calls m) (max_concurrent_calls_per_replica a)) sf ;;
       sf <- append_factor
               (fgt (stt_latency_ms m) (of_Z (max_latency_ms a)))
               (truediv_int (stt_latency_ms m) (max_latency_ms a)) sf ;;
       match sf with
       | x :: xs => fceil (fmul (of_Z (current_replicas a)) (pymax x xs))
       | [] => Ok (current_replicas a + 1)
       end
     else Ok (Z.max (min_replicas a) (current_replicas a - 1))) ;;
  Ok (Z.max (min_replicas a) (Z.min (max_replicas a) target)).

Definition decide_scaling (a : VoiceAIAutoScaler) (m : ScalingMetrics) (now : Z)
    (act : string) (triggers : list Trigger)
  : result ScalingDecision * VoiceAIAutoScaler :=
  match calculate_target_replicas a m act with
  | Raise e => (Raise e, a)
  | Ok target =>
      let decision :=
        {| action := act; reason := Joined triggers;
           d_current_replicas := current_replicas a;
           target_replicas := target; metrics := m; d_timestamp := now |} in
      (Ok decision, record_scaling a decision now)
  end.

(** [evaluate_scaling]: the decision, or the exception that escapes, with
    the scaler as the call leaves it. *)
Definition evaluate_scaling (a0 : VoiceAIAutoScaler) (m : ScalingMetrics) (now : Z)
  : result ScalingDecision * VoiceAIAutoScaler :=
  let a := with_collector a0 (update_metrics (metrics_collector a0) m) in
  match unpack (should_scale_up a m now) with
  | Raise e => (Raise e, a)
  | Ok (true, triggers) => decide_scaling a m now "scale_up" triggers
  | Ok (false, _) =>
      match unpack (should_scale_down a m now) with
      | Raise e => (Raise e, a)
      | Ok (true, triggers) => decide_scaling a m now "scale_down" triggers
      | Ok (false, _) =>
          (Ok {| action := "maintain";
                 reason := Sentence "All metrics within acceptable ranges";
                 d_current_replicas := current_replicas a;
                 target_replicas := current_replicas a;
                 metrics := m; d_timestamp := now |}, a)
      end
  end.

(** The scaler after a sequence of [evaluate_scaling] calls, each with its
    sample and its clock reading; a call that raises leaves the scaler as
    the exception found it and the caller goes on. *)
Definition run_evaluations (a : VoiceAIAutoScaler)
    (calls : list (ScalingMetrics * Z)) : VoiceAIAutoScaler :=
  fold_left (fun a' c => snd (evaluate_scaling a' (fst c) (snd c))) calls a.

Definition replicas_in_bounds (a : VoiceAIAutoScaler) : Prop :=
  min_replicas a <= current_replicas a <= max_replicas a.

(** *** The target replica count in the words of the specification

    These definitions follow the specification, not the source; the
    properties compare them with [calculate_target_replicas].  They are
    written with the operations of the floats themselves and use none of
    the definitions that embed the code. *)

(** The ratios that are computed: cpu/targetCpu, memory/targetMemory,
    concurrentCalls/maxConcurrentCallsPerReplica and sttLatency/maxLatency,
    each one only if the raw metric exceeds its target or limit. *)
Definition spec_ratios (a : VoiceAIAutoScaler) (m : ScalingMetrics) : list F :=
  (if fgt (cpu_utilization m) (target_cpu_utilization a)
   then [fdiv (cpu_utilization m) (target_cpu_utilization a)] else [])
  ++ (if fgt (memory_utilization m) (target_memory_utilization a)
      then [fdiv (memory_utilization m) (target_memory_utilization a)] else [])
  ++ (if max_concurrent_calls_per_replica a <? concurrent_calls m
      then [fdiv (of_Z (concurrent_calls m))
                 (of_Z (max_concurrent_calls_per_replica a))] else [])
  ++ (if fgt (stt_latency_ms m) (of_Z (max_latency_ms a))
      then [fdiv (stt_latency_ms m) (of_Z (max_latency_ms a))] else []).

(** [r] is [max(ratios)]: one of the ratios, and no ratio is greater. *)
Definition spec_max_ratio (r : F) (ratios : list F) : Prop :=
  In r ratios /\ Forall (fun x => fgt x r = false) ratios.

(** [max(minReplicas, currentReplicas - 1)] *)
Definition spec_scale_down_target (a : VoiceAIAutoScaler) : Z :=
  Z.max (min_replicas a) (current_replicas a - 1).

(** Clamping to [[lo, hi]]. *)
Definition spec_clamp (lo hi t : Z) : Z :=
  if t <? lo then lo else if hi <? t then hi else t.

End WithFloat.

(** *** Concrete runs, on the rational interpretation *)

(** The scaler of the demo, built at instant 0. *)
Definition demo_scaler : VoiceAIAutoScaler (F := Q) :=
  new_autoscaler "voice-ai-service" 0.

(** CPU 95 %, 60 concurrent calls: above the scale-up thresholds 80 and 45. *)
Definition high_load : ScalingMetrics (F := Q) :=
  {| cpu_utilization := 95%Q; memory_utilization := 50%Q;
     concurrent_calls := 60;
     stt_latency_ms := 300%Q; tts_latency_ms := 300%Q;
     error_rate := (2 # 100)%Q; timestamp := 0 |}.

(** Every field below its scale-down threshold. *)
Definition low_load : ScalingMetrics (F := Q) :=
  {| cpu_utilization := 20%Q; memory_utilization := 30%Q;
     concurrent_calls := 5;
     stt_latency_ms := 100%Q; tts_latency_ms := 100%Q;
     error_rate := 0%Q; timestamp := 0 |}.

(** The demo scaler after its first scaling, from 2 to 3 replicas at minute 5. *)
Definition scaled_once : VoiceAIAutoScaler (F := Q) :=
  snd (evaluate_scaling demo_scaler high_load (timedelta_minutes 5)).

(** Every field between its scale-down and its scale-up threshold. *)
Definition steady_load : ScalingMetrics (F := Q) :=
  {| cpu_utilization := 50%Q; memory_utilization := 60%Q;
     concurrent_calls := 20;
     stt_latency_ms := 300%Q; tts_latency_ms := 300%Q;
     error_rate := (2 # 100)%Q; timestamp := 0 |}.

(** A burst of 500 concurrent calls, ten times what one replica takes. *)
Definition surge_load : ScalingMetrics (F := Q) :=
  {| cpu_utilization := 95%Q; memory_utilization := 50%Q;
     concurrent_calls := 500;
     stt_latency_ms := 300%Q; tts_latency_ms := 300%Q;
     error_rate := (2 # 100)%Q; timestamp := 0 |}.

(** The demo scaler after that burst at minute 5: one call has scaled it
    from 2 replicas to its limit of 20. *)
Definition scaler_at_max : VoiceAIAutoScaler (F := Q) :=
  snd (evaluate_scaling demo_scaler surge_load (timedelta_minutes 5)).

End AutoScaling.

(** ** Sessions and the load balancer ([load_balancing.py]) *)

Module LoadBalancing.
Section WithFloat.
Context {F : Type} `{PyFloat F}.

Record Region : Type := {
  r_region_id : string;
  r_name : string;
  r_location : string;
  r_latency_ms : F;
  r_capacity : Z;
  r_current_load : Z;
  r_health_status : string;
  r_last_health_check : Z
}.

Record Instance : Type := {
  instance_id : string;
  region_id : string;
  ip_address : string;
  port : Z;
  health_status : string;
  current_connections : Z;
  max_connections : Z;
  cpu_utilization : F;
  memory_utilization : F;
  last_health_check : Z
}.

Record CallRequest : Type := {
  call_id : string;
  user_id : string;
  user_location : string;
  audio_data : string;
  req_session_id : option string;
  req_timestamp : option Z
}.

Record LoadBalancerMetrics : Type := {
  total_requests : Z;
  requests_per_region : gmap string Z;
  average_latency_ms : F;
  error_rate : F;
  active_sessions : Z;
  m_timestamp : Z
}.

(** One turn of a conversation history; the source stores the instant as
    its ISO text. *)
Record Turn : Type := {
  role : string;
  text : string;
  turn_timestamp : Z
}.

(** The dictionary that [create_session] builds. *)
Record Session : Type := {
  session_id : string;
  s_call_id : string;
  s_user_id : string;
  s_instance_id : string;
  created_at : Z;
  last_activity : Z;
  context : list (string * string);
  conversation_history : list Turn
}.

(** One [key: value] of the [updates] dictionary of [update_session]. *)
Inductive SessionUpdate : Type :=
| SetSessionId (v : string)
| SetCallId (v : string)
| SetUserId (v : string)
| SetInstanceId (v : string)
| SetCreatedAt (v : Z)
| SetLastActivity (v : Z)
| SetContext (v : list (string * string))
| SetConversationHistory (v : list Turn).

Record SessionManager : Type := {
  sessions : gmap string Session;
  session_timeout : Z;
  sticky_session_enabled : bool
}.

(** [instances] is the dictionary in insertion order, which is the order of
    [instances.values()].  An [Instance] object is referred to by its
    position in it: the class has no method that removes an entry. *)
Record GlobalLoadBalancer : Type := {
  regions : gmap string Region;
  instances : list (string * Instance);
  session_manager : SessionManager;
  lb_metrics : LoadBalancerMetrics;
  current_strategy : string;
  round_robin_index : Z
}.

(** The readings a [route_call] takes from outside: the clock, the
    elapsed time [(time.time() - start_time) * 1000], the draw of
    [random.uniform(0, total_weight)] and [uuid.uuid4().hex[:8]]. *)
Record Env : Type := {
  utcnow : Z;
  elapsed_ms : F;
  random_uniform : F;
  uuid_hex8 : string
}.

Definition truthy (s : string) : bool := negb (String.eqb s "").

Definition truthy_opt (o : option string) : bool :=
  match o with Some s => truthy s | None => false end.

(** *** SessionManager *)

Definition new_session_manager : SessionManager :=
  {| sessions := ∅; session_timeout := 3600; sticky_session_enabled := true |}.

Definition with_sessions (sm : SessionManager) (ss : gmap string Session)
  : SessionManager :=
  {| sessions := ss; session_timeout := session_timeout sm;
     sticky_session_enabled := sticky_session_enabled sm |}.

Definition touch (s : Session) (now : Z) : Session :=
  {| session_id := session_id s; s_call_id := s_call_id s;
     s_user_id := s_user_id s; s_instance_id := s_instance_id s;
     created_at := created_at s; last_activity := now;
     context := context s; conversation_history := conversation_history s |}.

Definition create_session (sm : SessionManager)
    (call user inst : string) (now : Z) (hex8 : string)
  : string * SessionManager :=
  let sid := "session-" +:+ hex8 in
  let session :=
    {| session_id := sid; s_call_id := call; s_user_id := user;
       s_instance_id := inst; created_at := now; last_activity := now;
       context := []; conversation_history := [] |} in
  (sid, with_sessions sm (<[sid := session]> (sessions sm))).

(** [get_session]: a session dictionary is never empty, so [if session]
    tests that the key is present. *)
Definition get_session (sm : SessionManager) (sid : string) (now : Z)
  : option Session * SessionManager :=
  match sessions sm !! sid with
  | Some session =>
      if now - last_activity session <? timedelta_seconds (session_timeout sm)
      then let session' := touch session now in
           (Some session', with_sessions sm (<[sid := session']> (sessions sm)))
      else (None, sm)
  | None => (None, sm)
  end.

Definition get_instance_for_session (sm : SessionManager) (sid : string) (now : Z)
  : option string * SessionManager :=
  let '(session, sm') := get_session sm sid now in
  (s_instance_id <$> session, sm').

Definition apply_update (s : Session) (u : SessionUpdate) : Session :=
  {| session_id := match u with SetSessionId v => v | _ => session_id s end;
     s_call_id := match u with SetCallId v => v | _ => s_call_id s end;
     s_user_id := match u with SetUserId v => v | _ => s_user_id s end;
     s_instance_id := match u with SetInstanceId v => v | _ => s_instance_id s end;
     created_at := match u with SetCreatedAt v => v | _ => created_at s end;
     last_activity := match u with SetLastActivity v => v | _ => last_activity s end;
     context := match u with SetContext v => v | _ => context s end;
     conversation_history :=
       match u with SetConversationHistory v => v | _ => conversation_history s end |}.

Definition update_session (sm : SessionManager) (sid : string)
    (updates : list SessionUpdate) (now : Z) : SessionManager :=
  match sessions sm !! sid with
  | Some session =>
      with_sessions sm
        (<[sid := touch (fold_left apply_update updates session) now]> (sessions sm))
  | None => sm
  end.

(** [cleanup_expired_sessions]: the one place that deletes sessions. *)
Definition cleanup_expired_sessions (sm : SessionManager) (now : Z) : SessionManager :=
  with_sessions sm
    (filter (fun kv => ¬ (timedelta_seconds (session_timeout sm)
                           < now - last_activity (snd kv)))
            (sessions sm)).

(** *** GlobalLoadBalancer *)

Definition new_metrics (now : Z) : LoadBalancerMetrics :=
  {| total_requests := 0; requests_per_region := ∅;
     average_latency_ms := of_Q 0; error_rate := of_Q 0;
     active_sessions := 0; m_timestamp := now |}.

Definition new_load_balancer (now : Z) : GlobalLoadBalancer :=
  {| regions := ∅; instances := [];
     session_manager := new_session_manager;
     lb_metrics := new_metrics now;
     current_strategy := "session_aware";
     round_robin_index := 0 |}.

Definition with_regions_metrics (lb : GlobalLoadBalancer)
    (rs : gmap string Region) (m : LoadBalancerMetrics) : GlobalLoadBalancer :=
  {| regions := rs; instances := instances lb;
     session_manager := session_manager lb; lb_metrics := m;
     current_strategy := current_strategy lb;
     round_robin_index := round_robin_index lb |}.

Definition with_metrics (lb : GlobalLoadBalancer) (m : LoadBalancerMetrics)
  : GlobalLoadBalancer := with_regions_metrics lb (regions lb) m.

Definition with_instances (lb : GlobalLoadBalancer) (l : list (string * Instance))
  : GlobalLoadBalancer :=
  {| regions := regions lb; instances := l;
     session_manager := session_manager lb; lb_metrics := lb_metrics lb;
     current_strategy := current_strategy lb;
     round_robin_index := round_robin_index lb |}.

Definition with_session_manager (lb : GlobalLoadBalancer) (sm : SessionManager)
  : GlobalLoadBalancer :=
  {| regions := regions lb; instances := instances lb;
     session_manager := sm; lb_metrics := lb_metrics lb;
     current_strategy := current_strategy lb;
     round_robin_index := round_robin_index lb |}.

Definition with_strategy (lb : GlobalLoadBalancer) (s : string)
  : GlobalLoadBalancer :=
  {| regions := regions lb; instances := instances lb;
     session_manager := session_manager lb; lb_metrics := lb_metrics lb;
     current_strategy := s;
     round_robin_index := round_robin_index lb |}.

Definition with_round_robin_index (lb : GlobalLoadBalancer) (i : Z)
  : GlobalLoadBalancer :=
  {| regions := regions lb; instances := instances lb;
     session_manager := session_manager lb; lb_metrics := lb_metrics lb;
     current_strategy := current_strategy lb;
     round_robin_index := i |}.

Definition set_requests_per_region (m : LoadBalancerMetrics) (c : gmap string Z)
  : LoadBalancerMetrics :=
  {| total_requests := total_requests m; requests_per_region := c;
     average_latency_ms := average_latency_ms m; error_rate := error_rate m;
     active_sessions := active_sessions m; m_timestamp := m_timestamp m |}.

Definition set_total_requests (m : LoadBalancerMetrics) (n : Z)
  : LoadBalancerMetrics :=
  {| total_requests := n; requests_per_region := requests_per_region m;
     average_latency_ms := average_latency_ms m; error_rate := error_rate m;
     active_sessions := active_sessions m; m_timestamp := m_timestamp m |}.

Definition set_average_latency_ms (m : LoadBalancerMetrics) (x : F)
  : LoadBalancerMetrics :=
  {| total_requests := total_requests m;
     requests_per_region := requests_per_region m;
     average_latency_ms := x; error_rate := error_rate m;
     active_sessions := active_sessions m; m_timestamp := m_timestamp m |}.

Definition set_error_rate (m : LoadBalancerMetrics) (x : F)
  : LoadBalancerMetrics :=
  {| total_requests := total_requests m;
     requests_per_region := requests_per_region m;
     average_latency_ms := average_latency_ms m; error_rate := x;
     active_sessions := active_sessions m; m_timestamp := m_timestamp m |}.

Definition add_region (lb : GlobalLoadBalancer) (r : Region) : GlobalLoadBalancer :=
  with_regions_metrics lb
    (<[r_region_id r := r]> (regions lb))
    (set_requests_per_region (lb_metrics lb)
       (<[r_region_id r := 0]> (requests_per_region (lb_metrics lb)))).

(** [d[k] = v] on an insertion-ordered dictionary: an existing key keeps
    its place, a new key goes last. *)
Fixpoint dict_set {V : Type} (d : list (string * V)) (k : string) (v : V)
  : list (string * V) :=
  match d with
  | [] => [(k, v)]
  | (k', v') :: d' =>
      if String.eqb k' k then (k, v) :: d' else (k', v') :: dict_set d' k v
  end.

(** The position of key [k], counted from [i]. *)
Fixpoint dict_find {V : Type} (d : list (string * V)) (k : string) (i : nat)
  : option (nat * V) :=
  match d with
  | [] => None
  | (k', v) :: d' =>
      if String.eqb k' k then Some (i, v) else dict_find d' k (S i)
  end.

Definition add_instance (lb : GlobalLoadBalancer) (i : Instance) : GlobalLoadBalancer :=
  with_instances lb (dict_set (instances lb) (instance_id i) i).

(** [instances.values()], each object with its reference. *)
Fixpoint values_from (i : nat) (d : list (string * Instance)) : list (nat * Instance) :=
  match d with
  | [] => []
  | (_, v) :: d' => (i, v) :: values_from (S i) d'
  end.

Definition is_available (i : Instance) : bool :=
  String.eqb (health_status i) "healthy" || String.eqb (health_status i) "degraded".

Definition get_available_instances (lb : GlobalLoadBalancer) : list (nat * Instance) :=
  List.filter (fun ri => is_available (snd ri)) (values_from 0 (instances lb)).

(** [min(x :: xs, key=...)]: the first of the smallest items. *)
Definition pymin_by {A : Type} (key : A -> Z) (x : A) (xs : list A) : A :=
  fold_left (fun best y => if key y <? key best then y else best) xs x.

Definition _round_robin (lb : GlobalLoadBalancer) (available : list (nat * Instance))
  : option (nat * Instance) * GlobalLoadBalancer :=
  match available with
  | [] => (None, lb)
  | _ :: _ =>
      (available !! Z.to_nat (round_robin_index lb mod Z.of_nat (length available)),
       with_round_robin_index lb (round_robin_index lb + 1))
  end.

Definition _least_connections (available : list (nat * Instance))
  : option (nat * Instance) :=
  match available with
  | [] => None
  | x :: xs => Some (pymin_by (fun ri => current_connections (snd ri)) x xs)
  end.

(** The loop of [_weighted_round_robin]; [None] when it ends without a
    [return]. *)
Fixpoint weighted_pick (draw : F) (current_weight : Z) (l : list (nat * Instance))
  : option (nat * Instance) :=
  match l with
  | [] => None
  | ri :: l' =>
      let current_weight := current_weight + max_connections (snd ri) in
      if fle draw (of_Z current_weight) then Some ri
      else weighted_pick draw current_weight l'
  end.

Definition _weighted_round_robin (available : list (nat * Instance)) (draw : F)
  : option (nat * Instance) :=
  match available with
  | [] => None
  | first :: _ =>
      let total_weight :=
        fold_left Z.add (map (fun ri => max_connections (snd ri)) available) 0 in
      if total_weight =? 0 then Some first
      else match weighted_pick draw 0 available with
           | Some ri => Some ri
           | None => List.last (map Some available) None
           end
  end.

(** [_geographic]: [Instance] is a dataclass with [eq] and without
    [frozen], so it has no hash, and the first
    [location_scores[instance] = total_score] raises [TypeError]; it is
    reached as soon as one available instance has a known region. *)
Definition _geographic (lb : GlobalLoadBalancer) (available : list (nat * Instance))
    (location : string) : result (option (nat * Instance)) :=
  match available with
  | [] => Ok None
  | first :: _ =>
      if existsb (fun ri => bool_decide (is_Some (regions lb !! region_id (snd ri))))
           available
      then Raise (TypeError "unhashable type: 'Instance'")
      else Ok (Some first)
  end.

(** [instance in available_instances], on references.  The source compares
    with the dataclass [==]; next to [health_status == "healthy"], and with
    the list [get_available_instances] returns, both tests agree: a healthy
    instance of the dictionary is itself in the list. *)
Definition ref_in (r : nat) (available : list (nat * Instance)) : bool :=
  existsb (fun ri => Nat.eqb (fst ri) r) available.

Definition _session_aware (lb : GlobalLoadBalancer)
    (available : list (nat * Instance)) (sid : option string) (now : Z)
  : option (nat * Instance) * GlobalLoadBalancer :=
  match available with
  | [] => (None, lb)
  | _ :: _ =>
      if truthy_opt sid then
        let '(bound, sm) :=
          get_instance_for_session (session_manager lb) (default "" sid) now in
        let lb' := with_session_manager lb sm in
        match bound with
        | Some iid =>
            match (if truthy iid then dict_find (instances lb') iid 0 else None) with
            | Some (r, inst) =>
                if ref_in r available && String.eqb (health_status inst) "healthy"
                then (Some (r, inst), lb')
                else (_least_connections available, lb')
            | None => (_least_connections available, lb')
            end
        | None => (_least_connections available, lb')
        end
      else (_least_connections available, lb)
  end.

(** The dispatch of [route_call] on [current_strategy].  In the last
    branch [strategies.get] answers [_session_aware] for a name it does not
    know, called without a session id. *)
Definition select_instance (lb : GlobalLoadBalancer)
    (available : list (nat * Instance)) (req : CallRequest) (env : Env)
  : result (option (nat * Instance)) * GlobalLoadBalancer :=
  let strategy := current_strategy lb in
  if String.eqb strategy "geographic" then
    (_geographic lb available (user_location req), lb)
  else if String.eqb strategy "session_aware" then
    let '(sel, lb') := _session_aware lb available (req_session_id req) (utcnow env) in
    (Ok sel, lb')
  else if String.eqb strategy "round_robin" then
    let '(sel, lb') := _round_robin lb available in (Ok sel, lb')
  else if String.eqb strategy "least_connections" then
    (Ok (_least_connections available), lb)
  else if String.eqb strategy "weighted_round_robin" then
    (Ok (_weighted_round_robin available (random_uniform env)), lb)
  else
    let '(sel, lb') := _session_aware lb available None (utcnow env) in
    (Ok sel, lb').

Definition set_current_connections (i : Instance) (n : Z) : Instance :=
  {| instance_id := instance_id i; region_id := region_id i;
     ip_address := ip_address i; port := port i;
     health_status := health_status i; current_connections := n;
     max_connections := max_connections i;
     cpu_utilization := cpu_utilization i;
     memory_utilization := memory_utilization i;
     last_health_check := last_health_check i |}.

Definition set_health_status (i : Instance) (status : string) : Instance :=
  {| instance_id := instance_id i; region_id := region_id i;
     ip_address := ip_address i; port := port i;
     health_status := status; current_connections := current_connections i;
     max_connections := max_connections i;
     cpu_utilization := cpu_utilization i;
     memory_utilization := memory_utilization i;
     last_health_check := last_health_check i |}.

(** A write to one field of the object that reference [r] names. *)
Definition mutate (lb : GlobalLoadBalancer) (r : nat) (f : Instance -> Instance)
  : GlobalLoadBalancer :=
  with_instances lb (alter (fun kv => (fst kv, f (snd kv))) r (instances lb)).

(** [selected_instance.current_connections += 1] *)
Definition acquire (lb : GlobalLoadBalancer) (r : nat) : GlobalLoadBalancer :=
  mutate lb r (fun i => set_current_connections i (current_connections i + 1)).

(** [selected_instance.current_connections =
     max(0, selected_instance.current_connections - 1)] *)
Definition release (lb : GlobalLoadBalancer) (r : nat) : GlobalLoadBalancer :=
  mutate lb r (fun i => set_current_connections i (Z.max 0 (current_connections i - 1))).

(** The health checker's write [instance.health_status = status], on the
    instance stored under [key]. *)
Definition mark_health (lb : GlobalLoadBalancer) (key : string) (status : string)
  : GlobalLoadBalancer :=
  match dict_find (instances lb) key 0 with
  | Some (r, _) => mutate lb r (fun i => set_health_status i status)
  | None => lb
  end.

(** The region counter of [route_call]:
    [region = self.regions.get(selected_instance.region_id)], then
    [requests_per_region[region.region_id] += 1], which raises [KeyError]
    for a key the dictionary lacks. *)
Definition count_region_request (lb : GlobalLoadBalancer) (inst : Instance)
  : result unit * GlobalLoadBalancer :=
  match regions lb !! region_id inst with
  | Some region =>
      let counters := requests_per_region (lb_metrics lb) in
      match counters !! r_region_id region with
      | Some n =>
          (Ok tt,
           with_metrics lb
             (set_requests_per_region (lb_metrics lb)
                (<[r_region_id region := n + 1]> counters)))
      | None => (Raise (KeyError (r_region_id region)), lb)
      end
  | None => (Ok tt, lb)
  end.

Record Routed : Type := {
  ok_instance_id : string;
  ok_region_id : string;
  ok_session_id : string;
  ok_latency_ms : F;
  ok_strategy_used : string
}.

(** The dictionary [route_call] returns: [success] true with the route, or
    [success] false with [str(e)]. *)
Inductive RouteResult : Type :=
| Success (r : Routed)
| Failure (error : string) (latency_ms : F).

(** The statements of the [try] block that follow the selection of the
    instance [inst], referred to by [r].  [env] holds the readings taken
    before [await asyncio.sleep(...)], [env'] those taken after it. *)
Definition serve (lb : GlobalLoadBalancer) (r : nat) (inst : Instance)
    (req : CallRequest) (env env' : Env) : result Routed * GlobalLoadBalancer :=
  let '(sid, sm) :=
    if truthy_opt (req_session_id req)
    then (default "" (req_session_id req), session_manager lb)
    else create_session (session_manager lb) (call_id req) (user_id req)
           (instance_id inst) (utcnow env) (uuid_hex8 env) in
  let lb := with_session_manager lb sm in
  let lb := acquire lb r in
  let lb :=
    with_metrics lb
      (set_total_requests (lb_metrics lb) (total_requests (lb_metrics lb) + 1)) in
  let '(counted, lb) := count_region_request lb inst in
  match counted with
  | Raise e => (Raise e, lb)
  | Ok _ =>
      (* await asyncio.sleep(random.uniform(0.1, 0.3)) *)
      let processing_time := elapsed_ms env' in
      let lb :=
        with_metrics lb
          (set_average_latency_ms (lb_metrics lb)
             (fdiv (fadd (average_latency_ms (lb_metrics lb)) processing_time)
                   (of_Z 2))) in
      let history :=
        [ {| role := "user"; text := "Hello"; turn_timestamp := utcnow env' |};
          {| role := "assistant"; text := "How can I help you?";
             turn_timestamp := utcnow env' |} ] in
      let lb :=
        with_session_manager lb
          (update_session (session_manager lb) sid
             [SetConversationHistory history] (utcnow env')) in
      let lb := release lb r in
      (Ok {| ok_instance_id := instance_id inst;
             ok_region_id := region_id inst;
             ok_session_id := sid;
             ok_latency_ms := processing_time;
             ok_strategy_used := current_strategy lb |}, lb)
  end.

(** The [try] block of [route_call]. *)
Definition route_call_try (lb : GlobalLoadBalancer) (req : CallRequest)
    (env env' : Env) : result Routed * GlobalLoadBalancer :=
  let available := get_available_instances lb in
  if negb (nonempty available)
  then (Raise (Exception "No healthy instances available"), lb)
  else
    let '(selection, lb) := select_instance lb available req env in
    match selection with
    | Raise e => (Raise e, lb)
    | Ok None => (Raise (Exception "No suitable instance found"), lb)
    | Ok (Some (r, inst)) => serve lb r inst req env env'
    end.

(** [route_call]: the [try] block, and the [except Exception] handler that
    turns an exception into a failure result. *)
Definition route_call (lb : GlobalLoadBalancer) (req : CallRequest)
    (env env' : Env) : RouteResult * GlobalLoadBalancer :=
  match route_call_try lb req env env' with
  | (Ok routed, lb') => (Success routed, lb')
  | (Raise e, lb') =>
      (Failure (str_exn e) (elapsed_ms env),
       with_metrics lb'
         (set_error_rate (lb_metrics lb')
            (pymin2 (of_Q 1) (fadd (error_rate (lb_metrics lb')) (of_Q (1 # 100))))))
  end.

(** A sequence of calls, one after the other; the results in order. *)
Fixpoint route_calls (lb : GlobalLoadBalancer)
    (calls : list (CallRequest * Env * Env))
  : list RouteResult * GlobalLoadBalancer :=
  match calls with
  | [] => ([], lb)
  | (req, env, env') :: rest =>
      let '(res, lb1) := route_call lb req env env' in
      let '(ress, lb2) := route_calls lb1 rest in
      (res :: ress, lb2)
  end.

Definition total_connections (lb : GlobalLoadBalancer) : Z :=
  fold_left Z.add (map (fun kv => current_connections (snd kv)) (instances lb)) 0.

Definition routed_instance (res : RouteResult) : option string :=
  match res with
  | Success r => Some (ok_instance_id r)
  | Failure _ _ => None
  end.

Definition routed_session (res : RouteResult) : option string :=
  match res with
  | Success r => Some (ok_session_id r)
  | Failure _ _ => None
  end.

(** How many of the results are routes to the instance [iid]. *)
Definition calls_to (iid : string) (results : list RouteResult) : nat :=
  length (List.filter
            (fun o => match o with Some j => String.eqb j iid | None => false end)
            (map routed_instance results)).

(** The instance a stored session is bound to. *)
Definition binding (lb : GlobalLoadBalancer) (sid : string) : option string :=
  s_instance_id <$> sessions (session_manager lb) !! sid.

(** The ids of the available instances, in the order of the list. *)
Definition available_ids (lb : GlobalLoadBalancer) : list string :=
  map (fun ri => instance_id (snd ri)) (get_available_instances lb).

(** Every instance is stored under its own id, as [add_instance] does. *)
Definition keyed (d : list (string * Instance)) : Prop :=
  Forall (fun kv => fst kv = instance_id (snd kv)) d.

(** The dictionary is keyed by the instances' own ids, and a dictionary has
    each key once. *)
Definition wf_instances (lb : GlobalLoadBalancer) : Prop :=
  NoDup (map fst (instances lb)) /\ keyed (instances lb).

(** Every registered region has its request counter, as [add_region]
    leaves it. *)
Definition counters_ok (lb : GlobalLoadBalancer) : Prop :=
  forall k region,
    regions lb !! k = Some region ->
    is_Some (requests_per_region (lb_metrics lb) !! r_region_id region).

(** What [route_call] never writes in the fleet: the key, the id, the region
    and the health status of every instance, in dictionary order. *)
Definition fleet_shape (d : list (string * Instance))
  : list (string * string * string * string) :=
  map (fun kv => (fst kv, instance_id (snd kv), region_id (snd kv),
                  health_status (snd kv))) d.

(** [counters_ok], as a check that runs. *)
Definition counters_okb (lb : GlobalLoadBalancer) : bool :=
  forallb
    (fun kr => bool_decide
                 (is_Some (requests_per_region (lb_metrics lb)
                             !! r_region_id (snd kr))))
    (map_to_list (regions lb)).

(** A round of health checks: the statuses written, in order. *)
Definition health_marks (lb : GlobalLoadBalancer) (marks : list (string * string))
  : GlobalLoadBalancer :=
  fold_left (fun lb' km => mark_health lb' (fst km) (snd km)) marks lb.

(** The health status of the instance stored under [key]. *)
Definition status_of (lb : GlobalLoadBalancer) (key : string) : option string :=
  (fun ri => health_status (snd ri)) <$> dict_find (instances lb) key 0.

(** Successive [get_instance_for_session] calls for one session, at the
    given instants. *)
Fixpoint lookups (sm : SessionManager) (sid : string) (times : list Z)
  : list (option string) * SessionManager :=
  match times with
  | [] => ([], sm)
  | t :: rest =>
      let '(res, sm1) := get_instance_for_session sm sid t in
      let '(ress, sm2) := lookups sm1 sid rest in
      (res :: ress, sm2)
  end.

(** Instants that follow [t0] with steps below [gap]. *)
Fixpoint spaced (gap t0 : Z) (times : list Z) : Prop :=
  match times with
  | [] => True
  | t :: rest => t - t0 < gap /\ spaced gap t rest
  end.

End WithFloat.

(** *** Concrete runs, on the rational interpretation *)

Definition region_east : Region (F := Q) :=
  {| r_region_id := "us-east-1"; r_name := "US East (N. Virginia)";
     r_location := "Virginia, USA"; r_latency_ms := 50%Q; r_capacity := 1000;
     r_current_load := 0; r_health_status := "healthy";
     r_last_health_check := 0 |}.

Definition instance_east (n : string) (address : string) : Instance (F := Q) :=
  {| instance_id := "us-east-1-instance-" +:+ n; region_id := "us-east-1";
     ip_address := address; port := 8080; health_status := "healthy";
     current_connections := 0; max_connections := 100;
     cpu_utilization := 40%Q; memory_utilization := 50%Q;
     last_health_check := 0 |}.

(** One region with three healthy instances, registered with [add_region]
    and [add_instance]; the strategy is the initial one, session-aware. *)
Definition demo_balancer : GlobalLoadBalancer (F := Q) :=
  add_instance
    (add_instance
       (add_instance (add_region (new_load_balancer 0) region_east)
          (instance_east "1" "10.0.1.1"))
       (instance_east "2" "10.0.2.2"))
    (instance_east "3" "10.0.3.3").

Definition round_robin_balancer : GlobalLoadBalancer (F := Q) :=
  with_strategy demo_balancer "round_robin".

(** The same fleet with every instance marked unhealthy. *)
Definition dark_balancer : GlobalLoadBalancer (F := Q) :=
  health_marks demo_balancer
    [("us-east-1-instance-1", "unhealthy"); ("us-east-1-instance-2", "unhealthy");
     ("us-east-1-instance-3", "unhealthy")].

Definition env_at (now : Z) (hex8 : string) : Env (F := Q) :=
  {| utcnow := now; elapsed_ms := 200%Q; random_uniform := 0%Q;
     uuid_hex8 := hex8 |}.

Definition call (n : string) (sid : option string) : CallRequest :=
  {| call_id := "call-" +:+ n; user_id := "user-" +:+ n;
     user_location := "New York, USA"; audio_data := "sample_audio";
     req_session_id := sid; req_timestamp := None |}.

(** The first call of a conversation, at instant 0, completed 0.2 s later. *)
Definition first_call : RouteResult * GlobalLoadBalancer :=
  route_call demo_balancer (call "1" None) (env_at 0 "ab12cd34")
    (env_at 200000 "ab12cd34").

Definition first_routed : Routed (F := Q) :=
  {| ok_instance_id := "us-east-1-instance-1"; ok_region_id := "us-east-1";
     ok_session_id := "session-ab12cd34"; ok_latency_ms := 200%Q;
     ok_strategy_used := "session_aware" |}.

(** After the first call the health checks mark its instance unhealthy and
    the next one degraded. *)
Definition failover_balancer : GlobalLoadBalancer (F := Q) :=
  health_marks (snd first_call)
    [("us-east-1-instance-1", "unhealthy"); ("us-east-1-instance-2", "degraded")].

(** A store with one session, last active at instant 0. *)
Definition stale_store : SessionManager :=
  snd (create_session new_session_manager "call-1" "user-1"
         "us-east-1-instance-1" 0 "ab12cd34").

End LoadBalancing.

(** * The rest of the two files *)

(** ** More float operations

    The operations of Python floats that the remaining methods use beside
    those of [PyFloat]: subtraction, [sum] over floats (which starts from the
    int 0), [round(x, ndigits)], and the quotient [a / b] of two ints, which
    Python rounds once, from the exact quotient, without converting the
    operands first. *)

Module PyMore.

Class PyFloatMore (F : Type) `{PyFloat F} : Type := {
  fsub : F -> F -> F;
  fsum : list F -> F;
  fround : F -> Z -> F;
  fdiv_int : Z -> Z -> F
}.

(** [round(x, n)] on the rationals, for [n >= 0]: the nearest multiple of
    [10^-n], a tie going to the even neighbour. *)
Definition Qround_half_even (x : Q) (n : Z) : Q :=
  let scale := inject_Z (10 ^ n) in
  let y := (x * scale)%Q in
  let lo := Qfloor y in
  let twice := Qfloor (2 * (y - inject_Z lo))%Q in
  let exact_half := Qeq_bool (2 * (y - inject_Z lo))%Q 1 in
  let up := if exact_half then Z.odd lo else (1 <=? twice) in
  (inject_Z (if up then lo + 1 else lo) / scale)%Q.

#[export] Instance QFloatMore : PyFloatMore Q := {
  fsub := Qminus;
  fsum := fun l => fold_left Qplus l 0%Q;
  fround := Qround_half_even;
  fdiv_int := fun a b => (inject_Z a / inject_Z b)%Q
}.

End PyMore.
Import PyMore.

(** ** The limits of [datetime], [timedelta] and int division

    [timedelta(minutes=m)] raises [OverflowError] when the duration, counted
    in whole days rounded down, is beyond 999999999 days in either
    direction. *)
Definition timedelta_of_minutes (m : Z) : result Z :=
  let days := m / 1440 in
  if (days <? -999999999) || (999999999 <? days) then Raise OverflowError
  else Ok (timedelta_minutes m).

(** [datetime.min] is 0001-01-01 00:00:00 and [datetime.max] is
    9999-12-31 23:59:59.999999, here in microseconds since 1970-01-01. *)
Definition datetime_min : Z := -62135596800000000.
Definition datetime_max : Z := 253402300799999999.

(** [t - delta] on a [datetime] and a [timedelta]: [OverflowError] when the
    result is not a [datetime]. *)
Definition datetime_sub (t delta : Z) : result Z :=
  let r := t - delta in
  if (r <? datetime_min) || (datetime_max <? r) then Raise OverflowError
  else Ok r.

(** [a / b] on two ints raises [OverflowError] when the quotient rounds to
    a float beyond the largest one, which is from [2^1024 - 2^970] on in
    magnitude. *)
Definition int_truediv_overflows (a b : Z) : bool :=
  (2 ^ 1024 - 2 ^ 970) * Z.abs b <=? Z.abs a.

(** ** The metrics collector's average, the scaling summary and the custom
    metrics service ([autoscaling_config.py]) *)

Module AutoScalingMore.
Import AutoScaling.
Section WithFloat.
Context {F : Type} `{PyFloatMore F}.

(** What [get_average_metrics] returns: a [ScalingMetrics] whose
    [concurrent_calls] holds a float, the quotient of a sum of ints. *)
Record AveragedMetrics : Type := {
  avg_cpu_utilization : F;
  avg_memory_utilization : F;
  avg_concurrent_calls : F;
  avg_stt_latency_ms : F;
  avg_tts_latency_ms : F;
  avg_error_rate : F;
  avg_timestamp : Z
}.

(** The samples of the last [minutes] minutes. *)
Definition recent_metrics (c : VoiceAIMetricsCollector (F := F)) (minutes : Z) (now : Z)
  : list (ScalingMetrics (F := F)) :=
  let cutoff_time := now - timedelta_minutes minutes in
  List.filter (fun m => cutoff_time <=? timestamp m) (metrics_history c).

(** [sum(...)] over ints. *)
Definition int_sum (l : list Z) : Z := fold_left Z.add l 0.

(** [a / b] on two ints, with the two ways it raises. *)
Definition int_truediv_checked (a b : Z) : result F :=
  if b =? 0 then Raise ZeroDivisionError
  else if int_truediv_overflows a b then Raise OverflowError
  else Ok (fdiv_int a b).

(** [get_average_metrics]: [None] without a recent sample, else the field by
    field quotient of the sum by the number of recent samples.  The cut-off
    [utcnow() - timedelta(minutes=minutes)] raises [OverflowError] outside
    the range of [timedelta] or of [datetime], and so does the quotient of
    the int sum of [concurrent_calls] outside the range of the floats. *)
Definition get_average_metrics (c : VoiceAIMetricsCollector (F := F)) (minutes : Z) (now : Z)
  : result (option AveragedMetrics) :=
  delta <- timedelta_of_minutes minutes ;;
  cutoff_time <- datetime_sub now delta ;;
  let recent :=
    List.filter (fun m => cutoff_time <=? timestamp m) (metrics_history c) in
  if negb (nonempty recent) then Ok None
  else
    let n := Z.of_nat (length recent) in
    avg_cpu <- truediv_int (fsum (map cpu_utilization recent)) n ;;
    avg_memory <- truediv_int (fsum (map memory_utilization recent)) n ;;
    avg_concurrent <- int_truediv_checked (int_sum (map concurrent_calls recent)) n ;;
    avg_stt_latency <- truediv_int (fsum (map stt_latency_ms recent)) n ;;
    avg_tts_latency <- truediv_int (fsum (map tts_latency_ms recent)) n ;;
    avg_error <- truediv_int (fsum (map error_rate recent)) n ;;
    Ok (Some {| avg_cpu_utilization := avg_cpu;
                avg_memory_utilization := avg_memory;
                avg_concurrent_calls := avg_concurrent;
                avg_stt_latency_ms := avg_stt_latency;
                avg_tts_latency_ms := avg_tts_latency;
                avg_error_rate := avg_error;
                avg_timestamp := now |}).

(** The two conditions under which [get_average_metrics] raises: the window
    is out of range, or the int quotient is. *)
Definition window_out_of_range (minutes now : Z) : bool :=
  let days := minutes / 1440 in
  (days <? -999999999) || (999999999 <? days)
  || (now - timedelta_minutes minutes <? datetime_min)
  || (datetime_max <? now - timedelta_minutes minutes).

Definition calls_average_overflows (c : VoiceAIMetricsCollector (F := F)) (minutes now : Z)
  : bool :=
  let recent := recent_metrics c minutes now in
  nonempty recent
  && int_truediv_overflows (int_sum (map concurrent_calls recent))
       (Z.of_nat (length recent)).

(** The dictionary of [get_scaling_summary]; [last_scale_time] stands for
    its ISO text. *)
Record ScalingSummary : Type := {
  sum_service_name : string;
  sum_current_replicas : Z;
  sum_min_replicas : Z;
  sum_max_replicas : Z;
  scaling_events_last_hour : Z;
  total_scaling_events : Z;
  sum_last_scale_time : Z;
  sum_current_metrics : ScalingMetrics (F := F)
}.

Definition get_scaling_summary (a : VoiceAIAutoScaler (F := F)) (now : Z) : ScalingSummary :=
  let recent_scaling :=
    List.filter (fun s => now - 3600 * 1000000 <=? d_timestamp s)
                (scaling_history a) in
  {| sum_service_name := service_name a;
     sum_current_replicas := current_replicas a;
     sum_min_replicas := min_replicas a;
     sum_max_replicas := max_replicas a;
     scaling_events_last_hour := Z.of_nat (length recent_scaling);
     total_scaling_events := Z.of_nat (length (scaling_history a));
     sum_last_scale_time := last_scale_time a;
     sum_current_metrics := current_metrics (metrics_collector a) |}.

(** A sequence of [evaluate_scaling] calls with what each one returned or
    raised. *)
Fixpoint evaluations (a : VoiceAIAutoScaler (F := F)) (calls : list (ScalingMetrics (F := F) * Z))
  : list (result (ScalingDecision (F := F))) * VoiceAIAutoScaler (F := F) :=
  match calls with
  | [] => ([], a)
  | (m, now) :: rest =>
      let '(r, a1) := evaluate_scaling a m now in
      let '(rs, a2) := evaluations a1 rest in
      (r :: rs, a2)
  end.

(** The decisions of a list of outcomes that are scaling actions. *)
Fixpoint scale_decisions (outcomes : list (result (ScalingDecision (F := F))))
  : list (ScalingDecision (F := F)) :=
  match outcomes with
  | [] => []
  | Ok d :: rest =>
      if String.eqb (action d) "maintain" then scale_decisions rest
      else d :: scale_decisions rest
  | Raise _ :: rest => scale_decisions rest
  end.

(** Instants of which each follows the one before by [gap] or more. *)
Fixpoint apart (gap : Z) (times : list Z) : Prop :=
  match times with
  | [] => True
  | t :: rest =>
      match rest with
      | [] => True
      | t' :: _ => gap <= t' - t
      end /\ apart gap rest
  end.

(** The instants of the audit history are apart by the cooldown, and the
    last of them is the last scale time. *)
Definition history_spaced (a : VoiceAIAutoScaler (F := F)) : Prop :=
  apart (timedelta_minutes (scale_cooldown_minutes a))
        (map d_timestamp (scaling_history a))
  /\ forall t0, last (map d_timestamp (scaling_history a)) = Some t0 ->
               t0 = last_scale_time a.

(** *** CustomMetricsService *)

Record CustomMetric : Type := {
  cm_name : string;
  cm_value : F;
  cm_labels : list (string * string);
  cm_timestamp : Z
}.

Record CustomMetricsService : Type := {
  cms_metrics : gmap string (list CustomMetric);
  metrics_server_url : string
}.

Definition new_custom_metrics_service : CustomMetricsService :=
  {| cms_metrics := ∅; metrics_server_url := "http://metrics-server:8080" |}.

(** [l[-100:]] *)
Definition last_100 {A : Type} (l : list A) : list A :=
  drop (length l - 100)%nat l.

(** [expose_custom_metric]: append under the metric's name and keep the last
    100 entries of that name. *)
Definition expose_custom_metric (s : CustomMetricsService) (name : string)
    (value : F) (labels : list (string * string)) (now : Z) : CustomMetricsService :=
  let metric :=
    {| cm_name := name; cm_value := value; cm_labels := labels;
       cm_timestamp := now |} in
  let entries := default [] (cms_metrics s !! name) ++ [metric] in
  {| cms_metrics :=
       <[name := if 100 <? Z.of_nat (length entries) then last_100 entries
                 else entries]> (cms_metrics s);
     metrics_server_url := metrics_server_url s |}.

Definition get_custom_metrics (s : CustomMetricsService)
  : gmap string (list CustomMetric) := cms_metrics s.

(** A run of [expose_custom_metric] calls. *)
Definition expose_all (s : CustomMetricsService)
    (calls : list (string * F * list (string * string) * Z)) : CustomMetricsService :=
  fold_left
    (fun s' c => expose_custom_metric s' (fst (fst (fst c))) (snd (fst (fst c)))
                   (snd (fst c)) (snd c))
    calls s.

End WithFloat.
End AutoScalingMore.

(** ** The health checker, the statistics and the metrics report
    ([load_balancing.py]) *)

Module LoadBalancingMore.
Import LoadBalancing.
Section WithFloat.
Context {F : Type} `{PyFloatMore F}.

(** The session a served call works on and the store it finds it in: the
    first statements of [serve]. *)
Definition served_session (lb : GlobalLoadBalancer (F := F)) (inst : Instance (F := F))
    (req : CallRequest) (env : Env (F := F)) : string * SessionManager :=
  if truthy_opt (req_session_id req)
  then (default "" (req_session_id req), session_manager lb)
  else create_session (session_manager lb) (call_id req) (user_id req)
         (instance_id inst) (utcnow env) (uuid_hex8 env).

(** The mapping of a health score to a status, shared by the two checks. *)
Definition status_of_score (health_score : F) : string :=
  if fgt health_score (of_Q (8 # 10)) then "healthy"
  else if fgt health_score (of_Q (5 # 10)) then "degraded"
  else "unhealthy".

Definition set_region_health (r : Region (F := F)) (status : string) (now : Z)
  : Region (F := F) :=
  {| r_region_id := r_region_id r; r_name := r_name r;
     r_location := r_location r; r_latency_ms := r_latency_ms r;
     r_capacity := r_capacity r; r_current_load := r_current_load r;
     r_health_status := status; r_last_health_check := now |}.

Definition set_instance_health (i : Instance (F := F)) (status : string) (now : Z)
  : Instance (F := F) :=
  {| instance_id := instance_id i; region_id := region_id i;
     ip_address := ip_address i; port := port i;
     health_status := status; current_connections := current_connections i;
     max_connections := max_connections i;
     cpu_utilization := cpu_utilization i;
     memory_utilization := memory_utilization i;
     last_health_check := now |}.

(** [check_region_health]; [jitter] is the draw of
    [random.uniform(-0.1, 0.1)], [now] the clock after the simulated wait.
    The result is the returned flag and the region as the check leaves it. *)
Definition check_region_health (region : Region (F := F)) (jitter : F) (now : Z)
  : bool * Region (F := F) :=
  let health_score := of_Q 1 in
  let health_score :=
    if fgt (of_Z (r_current_load region))
           (fmul (of_Z (r_capacity region)) (of_Q (9 # 10)))
    then fsub health_score (of_Q (3 # 10)) else health_score in
  let health_score := fadd health_score jitter in
  let status := status_of_score health_score in
  (negb (String.eqb status "unhealthy"), set_region_health region status now).

(** [check_instance_health]; [jitter] is the draw of
    [random.uniform(-0.05, 0.05)]. *)
Definition check_instance_health (inst : Instance (F := F)) (jitter : F) (now : Z)
  : bool * Instance (F := F) :=
  let health_score := of_Q 1 in
  let health_score :=
    if fgt (cpu_utilization inst) (of_Z 90)
    then fsub health_score (of_Q (4 # 10))
    else if fgt (cpu_utilization inst) (of_Z 80)
         then fsub health_score (of_Q (2 # 10)) else health_score in
  let health_score :=
    if fgt (memory_utilization inst) (of_Z 90)
    then fsub health_score (of_Q (3 # 10))
    else if fgt (memory_utilization inst) (of_Z 80)
         then fsub health_score (of_Q (1 # 10)) else health_score in
  let health_score := fadd health_score jitter in
  let status := status_of_score health_score in
  (negb (String.eqb status "unhealthy"), set_instance_health inst status now).

(** [perform_health_checks]: every region, then every instance, is checked
    once.  [region_probe] gives the draw and the clock of the check of the
    region stored under a key, [instance_probe] those of the check of the
    instance at a position. *)
Definition perform_health_checks (lb : GlobalLoadBalancer (F := F))
    (region_probe : string -> F * Z) (instance_probe : nat -> F * Z)
  : GlobalLoadBalancer (F := F) :=
  {| regions :=
       map_imap
         (fun k r => Some (snd (check_region_health r (fst (region_probe k))
                                  (snd (region_probe k)))))
         (regions lb);
     instances :=
       imap
         (fun i kv => (fst kv,
                       snd (check_instance_health (snd kv) (fst (instance_probe i))
                              (snd (instance_probe i)))))
         (instances lb);
     session_manager := session_manager lb;
     lb_metrics := lb_metrics lb;
     current_strategy := current_strategy lb;
     round_robin_index := round_robin_index lb |}.

(** [get_session_stats]: the counts [(total_sessions, active_sessions)] and
    the manager after the clean-up the method starts with. *)
Definition get_session_stats (sm : SessionManager) (now : Z)
  : Z * Z * SessionManager :=
  let sm' := cleanup_expired_sessions sm now in
  (Z.of_nat (size (sessions sm')),
   Z.of_nat (size (filter (fun kv => now - last_activity (snd kv)
                                     < timedelta_minutes 5)
                          (sessions sm'))),
   sm').

(** The dictionary of [get_metrics]. *)
Record MetricsReport : Type := {
  rep_total_requests : Z;
  rep_requests_per_region : gmap string Z;
  rep_average_latency_ms : F;
  rep_error_rate : F;
  rep_active_sessions : Z;
  rep_total_sessions : Z;
  rep_current_strategy : string;
  rep_healthy_instances : Z;
  rep_total_instances : Z
}.

Definition get_metrics (lb : GlobalLoadBalancer (F := F)) (now : Z)
  : MetricsReport * GlobalLoadBalancer (F := F) :=
  let '(total, active, sm') := get_session_stats (session_manager lb) now in
  ({| rep_total_requests := total_requests (lb_metrics lb);
      rep_requests_per_region := requests_per_region (lb_metrics lb);
      rep_average_latency_ms := fround (average_latency_ms (lb_metrics lb)) 2;
      rep_error_rate := fround (error_rate (lb_metrics lb)) 3;
      rep_active_sessions := active;
      rep_total_sessions := total;
      rep_current_strategy := current_strategy lb;
      rep_healthy_instances :=
        Z.of_nat (length (List.filter
                            (fun kv => String.eqb (health_status (snd kv)) "healthy")
                            (instances lb)));
      rep_total_instances := Z.of_nat (length (instances lb)) |},
   with_session_manager lb sm').

(** The calls a user of the balancer can make, with the readings each one
    takes; [OpSetStrategy] is the assignment to [current_strategy] that the
    demo makes. *)
Inductive Operation : Type :=
| OpAddRegion (region : Region (F := F))
| OpAddInstance (inst : Instance (F := F))
| OpRouteCall (req : CallRequest) (env env' : Env (F := F))
| OpHealthChecks (region_probe : string -> F * Z) (instance_probe : nat -> F * Z)
| OpGetMetrics (now : Z)
| OpSetStrategy (strategy : string).

Definition apply_operation (lb : GlobalLoadBalancer (F := F)) (op : Operation)
  : GlobalLoadBalancer (F := F) :=
  match op with
  | OpAddRegion region => add_region lb region
  | OpAddInstance inst => add_instance lb inst
  | OpRouteCall req env env' => snd (route_call lb req env env')
  | OpHealthChecks region_probe instance_probe =>
      perform_health_checks lb region_probe instance_probe
  | OpGetMetrics now => snd (get_metrics lb now)
  | OpSetStrategy strategy => with_strategy lb strategy
  end.

Definition run_operations (lb : GlobalLoadBalancer (F := F)) (ops : list Operation)
  : GlobalLoadBalancer (F := F) :=
  fold_left apply_operation ops lb.

(** An operation that leaves the session id [sid] to the session it names:
    it is not a call that creates its session under that very id (the id of
    a new session is "session-" and eight hex digits of a fresh UUID). *)
Definition keeps_session_id (sid : string) (op : Operation) : Prop :=
  match op with
  | OpRouteCall req env _ =>
      truthy_opt (req_session_id req) = true \/ "session-" +:+ uuid_hex8 env <> sid
  | _ => True
  end.

(** *** [route_call] around its [await]

    A call runs without interruption up to [await asyncio.sleep(...)],
    where other calls can run, and from there without interruption to its
    end. *)

(** The statements of the [try] block between the selection and the
    [await]; they leave the session id the call works on. *)
Definition serve_begin (lb : GlobalLoadBalancer (F := F)) (r : nat)
    (inst : Instance (F := F)) (req : CallRequest) (env : Env (F := F))
  : result string * GlobalLoadBalancer (F := F) :=
  let '(sid, sm) := served_session lb inst req env in
  let lb := with_session_manager lb sm in
  let lb := acquire lb r in
  let lb :=
    with_metrics lb
      (set_total_requests (lb_metrics lb) (total_requests (lb_metrics lb) + 1)) in
  let '(counted, lb) := count_region_request lb inst in
  match counted with
  | Raise e => (Raise e, lb)
  | Ok _ => (Ok sid, lb)
  end.

(** The statements after the [await]. *)
Definition serve_end (lb : GlobalLoadBalancer (F := F)) (r : nat)
    (inst : Instance (F := F)) (sid : string) (env' : Env (F := F))
  : Routed (F := F) * GlobalLoadBalancer (F := F) :=
  let processing_time := elapsed_ms env' in
  let lb :=
    with_metrics lb
      (set_average_latency_ms (lb_metrics lb)
         (fdiv (fadd (average_latency_ms (lb_metrics lb)) processing_time)
               (of_Z 2))) in
  let history :=
    [ {| role := "user"; text := "Hello"; turn_timestamp := utcnow env' |};
      {| role := "assistant"; text := "How can I help you?";
         turn_timestamp := utcnow env' |} ] in
  let lb :=
    with_session_manager lb
      (update_session (session_manager lb) sid
         [SetConversationHistory history] (utcnow env')) in
  let lb := release lb r in
  ({| ok_instance_id := instance_id inst;
      ok_region_id := region_id inst;
      ok_session_id := sid;
      ok_latency_ms := processing_time;
      ok_strategy_used := current_strategy lb |}, lb).

(** What a call holds across its [await]: the selected instance, by
    reference and as the object read at the selection, and the session
    id. *)
Record Pending : Type := {
  p_ref : nat;
  p_instance : Instance (F := F);
  p_session_id : string
}.

(** A call at its [await], or a call that has returned already, through the
    [except] handler. *)
Inductive Begun : Type :=
| Suspended (p : Pending)
| Returned (res : RouteResult (F := F)).

(** The [except Exception] handler of [route_call]. *)
Definition handle_exception (lb : GlobalLoadBalancer (F := F)) (e : exn)
    (env : Env (F := F)) : Begun * GlobalLoadBalancer (F := F) :=
  (Returned (Failure (str_exn e) (elapsed_ms env)),
   with_metrics lb
     (set_error_rate (lb_metrics lb)
        (pymin2 (of_Q 1) (fadd (error_rate (lb_metrics lb)) (of_Q (1 # 100)))))).

(** [route_call] up to its [await]. *)
Definition route_call_begin (lb : GlobalLoadBalancer (F := F)) (req : CallRequest)
    (env : Env (F := F)) : Begun * GlobalLoadBalancer (F := F) :=
  let available := get_available_instances lb in
  if negb (nonempty available)
  then handle_exception lb (Exception "No healthy instances available") env
  else
    let '(selection, lb) := select_instance lb available req env in
    match selection with
    | Raise e => handle_exception lb e env
    | Ok None => handle_exception lb (Exception "No suitable instance found") env
    | Ok (Some (r, inst)) =>
        match serve_begin lb r inst req env with
        | (Raise e, lb) => handle_exception lb e env
        | (Ok sid, lb) =>
            (Suspended {| p_ref := r; p_instance := inst; p_session_id := sid |}, lb)
        end
    end.

(** [route_call] from its [await] on. *)
Definition route_call_end (lb : GlobalLoadBalancer (F := F)) (p : Pending)
    (env' : Env (F := F)) : RouteResult (F := F) * GlobalLoadBalancer (F := F) :=
  let '(routed, lb) := serve_end lb (p_ref p) (p_instance p) (p_session_id p) env' in
  (Success routed, lb).

(** What happens at a balancer that serves calls concurrently: a call
    arrives and runs up to its [await], or the call at position [i] of
    those in flight resumes and runs to its end. *)
Inductive Event : Type :=
| Arrival (req : CallRequest) (env : Env (F := F))
| Completion (i : nat) (env' : Env (F := F)).

Definition step (st : GlobalLoadBalancer (F := F) * list Pending) (ev : Event)
  : GlobalLoadBalancer (F := F) * list Pending :=
  match ev with
  | Arrival req env =>
      match route_call_begin (fst st) req env with
      | (Suspended p, lb) => (lb, snd st ++ [p])
      | (Returned _, lb) => (lb, snd st)
      end
  | Completion i env' =>
      match snd st !! i with
      | Some p => (snd (route_call_end (fst st) p env'), delete i (snd st))
      | None => st
      end
  end.

Definition run_events (st : GlobalLoadBalancer (F := F) * list Pending)
    (events : list Event) : GlobalLoadBalancer (F := F) * list Pending :=
  fold_left step events st.

(** The instance dictionary with one more connection on the instance of
    each reference of [refs]. *)
Definition hold (kv : string * Instance (F := F)) : string * Instance (F := F) :=
  (fst kv, set_current_connections (snd kv) (current_connections (snd kv) + 1)).

Definition with_calls_in_flight (d : list (string * Instance (F := F)))
    (refs : list nat) : list (string * Instance (F := F)) :=
  fold_left (fun d' r => alter hold r d') refs d.

End WithFloat.

(** *** Concrete runs, on the rational interpretation *)

(** The round-robin fleet after a first conversation has started on
    instance 1: the cursor is at 1. *)
Definition busy_balancer : GlobalLoadBalancer (F := Q) :=
  snd (route_call round_robin_balancer (call "1" None)
         (env_at 0 "00000001") (env_at 200000 "00000001")).

(** The call that starts the second conversation, routed to instance 2. *)
Definition second_conversation : RouteResult (F := Q) * GlobalLoadBalancer (F := Q) :=
  route_call busy_balancer (call "2" None)
    (env_at 300000 "ab12cd34") (env_at 500000 "ab12cd34").

Definition second_routed : Routed (F := Q) :=
  {| ok_instance_id := "us-east-1-instance-2"; ok_region_id := "us-east-1";
     ok_session_id := "session-ab12cd34"; ok_latency_ms := 200%Q;
     ok_strategy_used := "round_robin" |}.

(** What follows: a third conversation starts, the health checks run and
    find every instance healthy, the metrics are read, the strategy is set
    to session-aware, and the second conversation makes its next call. *)
Definition between_calls : list (Operation (F := Q)) :=
  [ OpRouteCall (call "3" None) (env_at 600000 "00000003") (env_at 800000 "00000003");
    OpHealthChecks (fun _ => (0%Q, 900000)) (fun _ => (0%Q, 900000));
    OpGetMetrics 1000000;
    OpSetStrategy "session_aware";
    OpRouteCall (call "4" (Some "session-ab12cd34"))
      (env_at 30000000 "00000004") (env_at 30200000 "00000004") ].

(** Two calls that overlap: both arrive before the first one completes. *)
Definition rush : list (Event (F := Q)) :=
  [ Arrival (call "1" None) (env_at 0 "00000001");
    Arrival (call "2" None) (env_at 100000 "00000002");
    Completion 0 (env_at 200000 "00000001");
    Completion 0 (env_at 300000 "00000002") ].

End LoadBalancingMore.

(** * Properties of the auto-scaler *)

Module AutoScalingProps.
Import AutoScaling.

Section WithFloat.
Context {F : Type} `{PyFloat F}.
Implicit Types (a : VoiceAIAutoScaler (F := F)) (m : ScalingMetrics (F := F)).

(** The target a computation returns is inside the configured bounds. *)
Lemma calculate_target_replicas_bounds a m act t :
  min_replicas a <= max_replicas a ->
  calculate_target_replicas a m act = Ok t ->
  min_replicas a <= t <= max_replicas a.
Proof.
  intros Hmm. unfold calculate_target_replicas.
  match goal with |- (Py.bind ?c _) = _ -> _ => destruct c as [t0 | e] end;
    simpl; [| discriminate].
  intros [= <-]. lia.
Qed.

Lemma decide_scaling_bounds a m now act triggers :
  replicas_in_bounds a ->
  replicas_in_bounds (snd (decide_scaling a m now act triggers)).
Proof.
  intros Hb. unfold decide_scaling.
  destruct (calculate_target_replicas a m act) as [t | e] eqn:Ht; simpl; [| exact Hb].
  unfold replicas_in_bounds in *; simpl.
  apply calculate_target_replicas_bounds in Ht; lia.
Qed.

(** One call keeps the bounds, whether it returns or raises. *)
Lemma evaluate_scaling_bounds a m now :
  replicas_in_bounds a ->
  replicas_in_bounds (snd (evaluate_scaling a m now)).
Proof.
  intros Hb. unfold evaluate_scaling.
  set (a1 := with_collector a _).
  assert (Hb1 : replicas_in_bounds a1) by exact Hb.
  destruct (unpack (should_scale_up a1 m now)) as [[[] up] | e].
  - by apply decide_scaling_bounds.
  - destruct (unpack (should_scale_down a1 m now)) as [[[] down] | e];
      [by apply decide_scaling_bounds | exact Hb1 | exact Hb1].
  - exact Hb1.
Qed.

Lemma evaluate_scaling_config a m now :
  min_replicas (snd (evaluate_scaling a m now)) = min_replicas a
  /\ max_replicas (snd (evaluate_scaling a m now)) = max_replicas a.
Proof.
  unfold evaluate_scaling, decide_scaling.
  repeat (match goal with
          | |- context [match ?x with _ => _ end] => destruct x
          end; simpl); auto.
Qed.

Lemma run_evaluations_bounds a (calls : list (ScalingMetrics * Z)) :
  replicas_in_bounds a ->
  replicas_in_bounds (run_evaluations a calls)
  /\ min_replicas (run_evaluations a calls) = min_replicas a
  /\ max_replicas (run_evaluations a calls) = max_replicas a.
Proof.
  unfold run_evaluations. revert a.
  induction calls as [| [m now] calls IH]; intros a Hb; simpl; [done |].
  destruct (evaluate_scaling_config a m now) as [Hmin Hmax].
  destruct (IH _ (evaluate_scaling_bounds a m now Hb)) as (Hb' & Hmin' & Hmax').
  repeat split; try apply Hb'; congruence.
Qed.

(** C1.  Replica bounds: from a scaler with
    [min_replicas <= current_replicas <= max_replicas], for every sequence
    of [evaluate_scaling] calls, with any samples at any instants, the
    bounds hold after every call of the sequence, that is after its first
    [k] calls for every [k], whether the calls return or raise.  The two
    limits themselves never change. *)
Theorem replica_bounds_invariant a (calls : list (ScalingMetrics * Z)) (k : nat) :
  replicas_in_bounds a ->
  replicas_in_bounds (run_evaluations a (take k calls))
  /\ min_replicas (run_evaluations a (take k calls)) = min_replicas a
  /\ max_replicas (run_evaluations a (take k calls)) = max_replicas a.
Proof. apply run_evaluations_bounds. Qed.

Lemma in_cooldown_with_collector a c now :
  in_cooldown (with_collector a c) now = in_cooldown a now.
Proof. reflexivity. Qed.

(** Inside the cooldown [should_scale_up] returns the bare [False], and the
    unpacking in [evaluate_scaling] raises [TypeError]; the scaler keeps its
    replica count. *)
Lemma evaluate_scaling_in_cooldown a m now :
  in_cooldown a now = true ->
  fst (evaluate_scaling a m now)
    = Raise (TypeError "cannot unpack non-iterable bool object")
  /\ current_replicas (snd (evaluate_scaling a m now)) = current_replicas a.
Proof.
  intros Hc. unfold evaluate_scaling, should_scale_up.
  rewrite in_cooldown_with_collector, Hc. simpl. done.
Qed.

(** The same at the replica limit: no call returns once
    [current_replicas] has reached [max_replicas]. *)
Lemma evaluate_scaling_at_max a m now :
  max_replicas a <= current_replicas a ->
  fst (evaluate_scaling a m now)
    = Raise (TypeError "cannot unpack non-iterable bool object").
Proof.
  intros Hc. unfold evaluate_scaling, should_scale_up.
  rewrite in_cooldown_with_collector.
  destruct (in_cooldown a now); simpl; [done |].
  destruct (Z.leb_spec (max_replicas a) (current_replicas a)); [done | lia].
Qed.

Lemma clamp_spec_clamp lo hi t :
  lo <= hi -> Z.max lo (Z.min hi t) = spec_clamp lo hi t.
Proof.
  intros Hle. unfold spec_clamp.
  destruct (Z.ltb_spec t lo); [lia |].
  destruct (Z.ltb_spec hi t); lia.
Qed.

(** The scale-down branch of [calculate_target_replicas] computes the target
    of the specification and clamps it. *)
Lemma calculate_target_replicas_scale_down a m :
  min_replicas a <= max_replicas a ->
  calculate_target_replicas a m "scale_down"
  = Ok (spec_clamp (min_replicas a) (max_replicas a) (spec_scale_down_target a)).
Proof.
  intros Hle. unfold calculate_target_replicas, spec_scale_down_target.
  change (String.eqb "scale_down" "scale_up") with false. cbv iota.
  cbn [Py.bind]. by rewrite clamp_spec_clamp.
Qed.

End WithFloat.

(** Python's [max] returns one of the items. *)
Lemma pymax_in {F : Type} `{PyFloat F} (x : F) (xs : list F) :
  In (pymax x xs) (x :: xs).
Proof.
  unfold pymax. revert x. induction xs as [| y ys IH]; intros x; [by left |].
  cbn [fold_left]. destruct (fgt y x).
  - right. apply IH.
  - destruct (IH x) as [Heq | Hin]; [left | right; right]; done.
Qed.

Lemma replica_bounds_invariant_witness :
  replicas_in_bounds demo_scaler
  /\ replicas_in_bounds
       (run_evaluations demo_scaler
          (take 2 [(high_load, timedelta_minutes 5); (high_load, timedelta_minutes 6);
                   (low_load, timedelta_minutes 11)])).
Proof.
  assert (Hb : replicas_in_bounds demo_scaler) by (vm_compute; split; discriminate).
  split; [exact Hb |].
  exact (proj1 (replica_bounds_invariant demo_scaler _ 2 Hb)).
Defined.

(** C2.  Cooldown, on the demo scaler built at instant 0.  A high-load
    sample at minute 5 scales it from 2 to 3 replicas.  The same sample
    would trigger a scale-up again, but at minute 6, inside the cooldown of
    5 minutes, the call does not return a [maintain] decision: it raises
    [TypeError], because [should_scale_up] returns a bare [False] that
    [evaluate_scaling] unpacks as a pair.  The replica count stays 3. *)
Theorem cooldown_second_call_raises :
  (exists d,
     fst (evaluate_scaling demo_scaler high_load (timedelta_minutes 5)) = Ok d
     /\ action d = "scale_up" /\ target_replicas d = 3)
  /\ up_triggers scaled_once high_load <> []
  /\ timedelta_minutes 6 - last_scale_time scaled_once < timedelta_minutes 5
  /\ fst (evaluate_scaling scaled_once high_load (timedelta_minutes 6))
     = Raise (TypeError "cannot unpack non-iterable bool object")
  /\ current_replicas
       (snd (evaluate_scaling scaled_once high_load (timedelta_minutes 6))) = 3.
Proof.
  split; [eexists; split; [vm_compute; reflexivity | split; reflexivity] |].
  split; [vm_compute; discriminate |].
  split; [vm_compute; reflexivity |].
  split; vm_compute; reflexivity.
Qed.

(** C3.  Target replica computation fails for a scale-down at the replica
    limit.  One burst has scaled the demo scaler from 2 to its limit of 20
    replicas at minute 5.  At minute 15 the cooldown of 5 minutes has
    elapsed, the count 20 is above [min_replicas = 2] and every field of the
    sample is below its scale-down threshold: the sample triggers a
    scale-down, whose target is [max(2, 20 - 1) = 19], inside [[2, 20]];
    [calculate_target_replicas] itself computes 19.  But [evaluate_scaling]
    returns no decision: [should_scale_up], at the limit, returns a bare
    [False] that is unpacked as a pair, and the call raises [TypeError].
    The replica count stays 20. *)
Theorem scale_down_at_max_raises :
  (exists d,
     fst (evaluate_scaling demo_scaler surge_load (timedelta_minutes 5)) = Ok d
     /\ action d = "scale_up" /\ target_replicas d = 20)
  /\ current_replicas scaler_at_max = 20
  /\ max_replicas scaler_at_max = 20
  /\ min_replicas scaler_at_max = 2
  /\ timedelta_minutes (scale_cooldown_minutes scaler_at_max)
     <= timedelta_minutes 15 - last_scale_time scaler_at_max
  /\ up_triggers scaler_at_max low_load = []
  /\ down_triggers scaler_at_max low_load
     = [CpuTrigger; MemoryTrigger; CallsTrigger; SttTrigger; TtsTrigger;
        ErrorRateTrigger]
  /\ spec_clamp (min_replicas scaler_at_max) (max_replicas scaler_at_max)
       (spec_scale_down_target scaler_at_max) = 19
  /\ calculate_target_replicas scaler_at_max low_load "scale_down" = Ok 19
  /\ evaluate_scaling scaler_at_max low_load (timedelta_minutes 15)
     = (Raise (TypeError "cannot unpack non-iterable bool object"),
        with_collector scaler_at_max
          (update_metrics (metrics_collector scaler_at_max) low_load))
  /\ current_replicas
       (snd (evaluate_scaling scaler_at_max low_load (timedelta_minutes 15))) = 20.
Proof.
  split; [eexists; split; [vm_compute; reflexivity | split; reflexivity] |].
  do 3 (split; [vm_compute; reflexivity |]).
  split; [vm_compute; discriminate |].
  repeat split; vm_compute; reflexivity.
Qed.

End AutoScalingProps.

(** * Properties of the session manager and the load balancer *)

Module LoadBalancingProps.
Import LoadBalancing.

Section WithFloat.
Context {F : Type} `{PyFloat F}.
Implicit Types (sm : SessionManager) (s : Session) (sid : string).
Implicit Types (lb : GlobalLoadBalancer (F := F)) (inst : Instance (F := F)).
Implicit Types (d : list (string * Instance (F := F))).
Implicit Types (available : list (nat * Instance (F := F))).

(** *** Sessions *)

Lemma get_session_alive sm sid s now :
  sessions sm !! sid = Some s ->
  now - last_activity s < timedelta_seconds (session_timeout sm) ->
  get_session sm sid now
  = (Some (touch s now), with_sessions sm (<[sid := touch s now]> (sessions sm))).
Proof.
  intros Hs Hlt. unfold get_session. rewrite Hs.
  destruct (Z.ltb_spec (now - last_activity s)
                       (timedelta_seconds (session_timeout sm))); [done | lia].
Qed.

Lemma get_session_expired sm sid s now :
  sessions sm !! sid = Some s ->
  timedelta_seconds (session_timeout sm) <= now - last_activity s ->
  get_session sm sid now = (None, sm).
Proof.
  intros Hs Hge. unfold get_session. rewrite Hs.
  destruct (Z.ltb_spec (now - last_activity s)
                       (timedelta_seconds (session_timeout sm))); [lia | done].
Qed.

(** C9, as the code has it.  For every session id whose stored session has
    a [last_activity] older than [session_timeout], [get_session] returns
    [None] and [get_instance_for_session] returns [None]; neither removes the
    entry: the session manager is left exactly as it was (only
    [cleanup_expired_sessions] deletes sessions). *)
Theorem expired_session_lookup sm sid s now :
  sessions sm !! sid = Some s ->
  timedelta_seconds (session_timeout sm) < now - last_activity s ->
  get_session sm sid now = (None, sm)
  /\ get_instance_for_session sm sid now = (None, sm)
  /\ sessions (snd (get_session sm sid now)) !! sid = Some s.
Proof.
  intros Hs Hold.
  assert (Hg : get_session sm sid now = (None, sm))
    by (eapply get_session_expired; [eassumption | lia]).
  unfold get_instance_for_session. rewrite Hg. done.
Qed.

Lemma lookups_alive sm sid s times :
  sessions sm !! sid = Some s ->
  spaced (timedelta_seconds (session_timeout sm)) (last_activity s) times ->
  fst (lookups sm sid times) = map (fun _ => Some (s_instance_id s)) times
  /\ sessions (snd (lookups sm sid times))
     = match times with
       | [] => sessions sm
       | _ :: _ => <[sid := touch s (List.last times 0)]> (sessions sm)
       end
  /\ session_timeout (snd (lookups sm sid times)) = session_timeout sm.
Proof.
  revert sm s. induction times as [| t rest IH]; intros sm s Hs Hsp; [done |].
  destruct Hsp as [Hlt Hrest]. cbn [lookups].
  unfold get_instance_for_session. rewrite (get_session_alive sm sid s t Hs Hlt).
  set (sm1 := with_sessions sm _).
  assert (Hs1 : sessions sm1 !! sid = Some (touch s t)) by apply lookup_insert_eq.
  destruct (IH sm1 (touch s t) Hs1 Hrest) as (Hres & Hsess & Hto).
  destruct (lookups sm1 sid rest) as [ress sm2]. cbn [fst snd] in *.
  split; [by rewrite Hres |]. split; [| done].
  rewrite Hsess. destruct rest as [| t' rest']; [done |].
  unfold sm1. cbn [sessions with_sessions]. rewrite insert_insert_eq.
  done.
Qed.

(** C10.  Touch on read.  For a stored session whose [last_activity] is
    within [session_timeout] of the lookup, [get_session] returns the session
    with [last_activity] set to the instant of the lookup and every other
    field as it was, stores that session under the same id and changes no
    other session; [get_instance_for_session] does the same and returns the
    bound instance.  Consequently lookups that follow each other by less than
    [session_timeout] all succeed, however long ago the session was created
    or last updated: its life is counted from the last read. *)
Theorem touch_on_read sm sid s now times :
  sessions sm !! sid = Some s ->
  now - last_activity s < timedelta_seconds (session_timeout sm) ->
  spaced (timedelta_seconds (session_timeout sm)) (last_activity s) times ->
  (exists s',
      get_session sm sid now
      = (Some s', with_sessions sm (<[sid := s']> (sessions sm)))
      /\ get_instance_for_session sm sid now
         = (Some (s_instance_id s), with_sessions sm (<[sid := s']> (sessions sm)))
      /\ last_activity s' = now
      /\ session_id s' = session_id s /\ s_call_id s' = s_call_id s
      /\ s_user_id s' = s_user_id s /\ s_instance_id s' = s_instance_id s
      /\ created_at s' = created_at s /\ context s' = context s
      /\ conversation_history s' = conversation_history s
      /\ forall sid', sid' <> sid ->
           sessions (snd (get_session sm sid now)) !! sid' = sessions sm !! sid')
  /\ fst (lookups sm sid times) = map (fun _ => Some (s_instance_id s)) times.
Proof.
  intros Hs Hlt Hsp. split.
  - exists (touch s now).
    pose proof (get_session_alive sm sid s now Hs Hlt) as Hg.
    unfold get_instance_for_session. rewrite Hg. cbn [fst snd fmap option_fmap option_map].
    repeat split; try reflexivity.
    intros sid' Hne. cbn [sessions with_sessions]. by rewrite lookup_insert_ne.
  - by destruct (lookups_alive sm sid s times Hs Hsp).
Qed.

(** *** The available instances *)

Lemma is_available_spec inst :
  is_available inst = true
  <-> health_status inst = "healthy" \/ health_status inst = "degraded".
Proof.
  unfold is_available. rewrite orb_true_iff, !String.eqb_eq. done.
Qed.

Lemma filter_values_from_nil i d :
  Forall (fun kv => health_status (snd kv) <> "healthy"
                    /\ health_status (snd kv) <> "degraded") d ->
  List.filter (fun ri => is_available (snd ri)) (values_from i d) = [].
Proof.
  revert i. induction d as [| [k v] d IH]; intros i Hall; [done |].
  apply Forall_cons in Hall as [[Hh Hd] Hall]. cbn [values_from List.filter snd] in *.
  destruct (is_available v) eqn:Hav; [| by apply IH].
  apply is_available_spec in Hav as [? | ?]; congruence.
Qed.

(** C7.  No-instance failure.  When no instance has status [healthy] or
    [degraded], [route_call] returns, for every request, the failure result
    with the error "No healthy instances available"; it raises nothing, and
    changes nothing in the balancer but the error rate, which becomes
    [min(1.0, error_rate + 0.01)]. *)
Theorem no_instance_failure lb (req : CallRequest) (env env' : Env) :
  Forall (fun kv => health_status (snd kv) <> "healthy"
                    /\ health_status (snd kv) <> "degraded") (instances lb) ->
  get_available_instances lb = []
  /\ route_call lb req env env'
     = (Failure "No healthy instances available" (elapsed_ms env),
        with_metrics lb
          (set_error_rate (lb_metrics lb)
             (pymin2 (of_Q 1) (fadd (error_rate (lb_metrics lb)) (of_Q (1 # 100)))))).
Proof.
  intros Hall.
  assert (Hnil : get_available_instances lb = [])
    by (apply filter_values_from_nil, Hall).
  split; [exact Hnil |].
  unfold route_call, route_call_try. rewrite Hnil. reflexivity.
Qed.

(** *** What a served call changes *)

Lemma fleet_shape_alter d r (f : Instance -> Instance) :
  (forall i, instance_id (f i) = instance_id i
             /\ region_id (f i) = region_id i
             /\ health_status (f i) = health_status i) ->
  fleet_shape (alter (fun kv => (fst kv, f (snd kv))) r d) = fleet_shape d.
Proof.
  intros Hf. revert r. induction d as [| [k v] d IH]; intros r; [done |].
  destruct r as [| r]; unfold fleet_shape; cbn [alter list_alter map fst snd].
  - destruct (Hf v) as (-> & -> & ->). done.
  - f_equal. apply IH.
Qed.

Lemma serve_ok lb r inst req env env' :
  (forall region,
      regions lb !! region_id inst = Some region ->
      is_Some (requests_per_region (lb_metrics lb) !! r_region_id region)) ->
  exists routed lb',
    serve lb r inst req env env' = (Ok routed, lb')
    /\ ok_instance_id routed = instance_id inst
    /\ ok_session_id routed
       = (if truthy_opt (req_session_id req) then default "" (req_session_id req)
          else "session-" +:+ uuid_hex8 env)
    /\ regions lb' = regions lb
    /\ fleet_shape (instances lb') = fleet_shape (instances lb)
    /\ current_strategy lb' = current_strategy lb
    /\ round_robin_index lb' = round_robin_index lb
    /\ (forall k, is_Some (requests_per_region (lb_metrics lb) !! k) ->
                  is_Some (requests_per_region (lb_metrics lb') !! k))
    /\ session_manager lb'
       = update_session
           (if truthy_opt (req_session_id req) then session_manager lb
            else snd (create_session (session_manager lb) (call_id req) (user_id req)
                        (instance_id inst) (utcnow env) (uuid_hex8 env)))
           (if truthy_opt (req_session_id req) then default "" (req_session_id req)
            else "session-" +:+ uuid_hex8 env)
           [SetConversationHistory
              [ {| role := "user"; text := "Hello"; turn_timestamp := utcnow env' |};
                {| role := "assistant"; text := "How can I help you?";
                   turn_timestamp := utcnow env' |} ]]
           (utcnow env').
Proof.
  intros Hcount. unfold serve.
  destruct (truthy_opt (req_session_id req)); cbn [create_session];
    unfold count_region_request; cbn [regions lb_metrics requests_per_region
      acquire mutate with_instances with_session_manager with_metrics
      with_regions_metrics set_total_requests];
    (destruct (regions lb !! region_id inst) as [region |] eqn:Hreg;
     [ destruct (Hcount region eq_refl) as [n Hn]; rewrite Hn | ]);
    eexists _, _; (split; [reflexivity |]); cbn -[fleet_shape alter];
    repeat split; try reflexivity;
    try (rewrite
           (fleet_shape_alter _ r
              (fun i => set_current_connections i (Z.max 0 (current_connections i - 1)))),
           (fleet_shape_alter _ r
              (fun i => set_current_connections i (current_connections i + 1)));
         done);
    try (intros k Hk; destruct (decide (r_region_id region = k)) as [<- | Hne];
         [rewrite lookup_insert_eq; eauto | by rewrite lookup_insert_ne]);
    auto.
Qed.

Lemma acquire_release_instances d r :
  Forall (fun kv => 0 <= current_connections (snd kv)) d ->
  alter (fun kv => (fst kv,
                    set_current_connections (snd kv)
                      (Z.max 0 (current_connections (snd kv) - 1)))) r
    (alter (fun kv => (fst kv,
                       set_current_connections (snd kv)
                         (current_connections (snd kv) + 1))) r d)
  = d.
Proof.
  revert r. induction d as [| [k v] d IH]; intros r Hall; [done |].
  apply Forall_cons in Hall as [Hv Hall]. destruct r as [| r]; cbn [alter list_alter].
  - f_equal. destruct v. cbn in *. unfold set_current_connections. cbn.
    do 2 f_equal. lia.
  - f_equal. by apply IH.
Qed.

(** On the path without exception the increment is released: a served call
    leaves every connection count as it found it. *)
Lemma serve_success_instances lb r inst req env env' routed lb' :
  Forall (fun kv => 0 <= current_connections (snd kv)) (instances lb) ->
  serve lb r inst req env env' = (Ok routed, lb') ->
  instances lb' = instances lb.
Proof.
  intros Hall. unfold serve.
  destruct (truthy_opt (req_session_id req)); cbn [create_session];
    unfold count_region_request; cbn [regions lb_metrics requests_per_region
      acquire mutate with_instances with_session_manager with_metrics
      with_regions_metrics set_total_requests];
    (destruct (regions lb !! region_id inst) as [region |];
     [ destruct (requests_per_region (lb_metrics lb) !! r_region_id region) | ]);
    intros [= <- <-]; cbn -[alter]; by apply acquire_release_instances.
Qed.

(** The handler itself releases nothing: if the statements after the
    selection raised, the selected instance would keep the increment.  In
    this embedding they raise only on a region without its request counter,
    which no balancer built by the methods of the class has. *)
Lemma serve_failure_instances lb r inst req env env' e lb' :
  serve lb r inst req env env' = (Raise e, lb') ->
  instances lb' = instances (acquire lb r).
Proof.
  unfold serve.
  destruct (truthy_opt (req_session_id req)); cbn [create_session];
    unfold count_region_request; cbn [regions lb_metrics requests_per_region
      acquire mutate with_instances with_session_manager with_metrics
      with_regions_metrics set_total_requests];
    (destruct (regions lb !! region_id inst) as [region |];
     [ destruct (requests_per_region (lb_metrics lb) !! r_region_id region) | ]);
    intros [= <- <-]; reflexivity.
Qed.

(** *** References, keys and the available list *)

Lemma values_from_elem i d r inst :
  In (r, inst) (values_from i d) ->
  exists k, d !! (r - i)%nat = Some (k, inst) /\ (i <= r)%nat.
Proof.
  revert i. induction d as [| [k v] d IH]; intros i Hin; [done |].
  cbn [values_from] in Hin. destruct Hin as [[= <- <-] | Hin].
  - exists k. by rewrite Nat.sub_diag.
  - destruct (IH _ Hin) as (k' & Hk' & Hle). exists k'.
    replace (r - i)%nat with (S (r - S i)) by lia. split; [done | lia].
Qed.

Lemma values_from_lookup i d n k inst :
  d !! n = Some (k, inst) -> In ((i + n)%nat, inst) (values_from i d).
Proof.
  revert i n. induction d as [| [k' v] d IH]; intros i n Hn; [done |].
  destruct n as [| n]; cbn [values_from].
  - injection Hn as -> ->. left. f_equal. lia.
  - right. replace (i + S n)%nat with (S i + n)%nat by lia. by apply IH.
Qed.

Lemma available_elem lb r inst :
  In (r, inst) (get_available_instances lb) ->
  is_available inst = true /\ exists k, instances lb !! r = Some (k, inst).
Proof.
  unfold get_available_instances. rewrite filter_In. intros [Hin Hav].
  split; [exact Hav |].
  destruct (values_from_elem _ _ _ _ Hin) as (k & Hk & _).
  exists k. by rewrite Nat.sub_0_r in Hk.
Qed.

Lemma available_of_lookup lb r k inst :
  instances lb !! r = Some (k, inst) ->
  is_available inst = true ->
  ref_in r (get_available_instances lb) = true.
Proof.
  intros Hr Hav. unfold ref_in. apply existsb_exists. exists (r, inst).
  split; [| apply Nat.eqb_refl].
  unfold get_available_instances. apply filter_In. split; [| exact Hav].
  apply (values_from_lookup 0 _ r k inst Hr).
Qed.

Lemma dict_find_lookup {V : Type} (l : list (string * V)) k i r v :
  dict_find l k i = Some (r, v) ->
  l !! (r - i)%nat = Some (k, v) /\ (i <= r)%nat.
Proof.
  revert i. induction l as [| [k' v'] l IH]; intros i Hf; [done |].
  cbn [dict_find] in Hf. destruct (String.eqb_spec k' k) as [-> | Hne].
  - injection Hf as <- <-. by rewrite Nat.sub_diag.
  - destruct (IH _ Hf) as [Hl Hle].
    replace (r - i)%nat with (S (r - S i)) by lia. split; [done | lia].
Qed.

(** The first entry with a given key is the only one when keys are unique. *)
Lemma dict_find_unique {V : Type} (l : list (string * V)) k i n v :
  NoDup (map fst l) ->
  l !! n = Some (k, v) ->
  dict_find l k i = Some ((i + n)%nat, v).
Proof.
  revert i n. induction l as [| [k' v'] l IH]; intros i n Hnd Hn; [done |].
  apply NoDup_cons in Hnd as [Hnotin Hnd]. cbn [dict_find].
  destruct n as [| n].
  - injection Hn as -> ->. rewrite String.eqb_refl. do 2 f_equal. lia.
  - cbn in Hn. destruct (String.eqb_spec k' k) as [-> | Hne].
    + exfalso. apply Hnotin. apply list_elem_of_In.
      apply list_elem_of_lookup_2, list_elem_of_In in Hn.
      exact (in_map fst _ _ Hn).
    + rewrite (IH (S i) n Hnd Hn). do 2 f_equal. lia.
Qed.

Lemma pymin_by_in {A : Type} (key : A -> Z) (x : A) (xs : list A) :
  In (pymin_by key x xs) (x :: xs).
Proof.
  unfold pymin_by. revert x. induction xs as [| y ys IH]; intros x; [by left |].
  cbn [fold_left]. destruct (key y <? key x).
  - right. apply IH.
  - destruct (IH x) as [Heq | Hin]; [left | right; right]; done.
Qed.

Lemma least_connections_elem available :
  available <> [] ->
  exists ri, _least_connections available = Some ri /\ In ri available.
Proof.
  destruct available as [| x xs]; [done |]. intros _.
  eexists. split; [reflexivity | apply pymin_by_in].
Qed.

Lemma available_ids_from_shape i d d' :
  fleet_shape d = fleet_shape d' ->
  map (fun ri => instance_id (snd ri))
      (List.filter (fun ri => is_available (snd ri)) (values_from i d))
  = map (fun ri => instance_id (snd ri))
        (List.filter (fun ri => is_available (snd ri)) (values_from i d')).
Proof.
  revert i d'. induction d as [| [k v] d IH]; intros i [| [k' v'] d'] Heq; try done.
  injection Heq as Hk Hid Hreg Hh Hrest.
  assert (Hav : is_available v = is_available v')
    by (unfold is_available; by rewrite Hh).
  cbn [values_from List.filter snd]. rewrite Hav.
  destruct (is_available v'); cbn [map snd]; rewrite ?Hid; [f_equal |]; by apply IH.
Qed.

Lemma available_ids_shape lb lb' :
  fleet_shape (instances lb') = fleet_shape (instances lb) ->
  available_ids lb' = available_ids lb.
Proof. intros Hs. by apply available_ids_from_shape. Qed.

Lemma available_ids_lookup lb n r inst :
  get_available_instances lb !! n = Some (r, inst) ->
  available_ids lb !! n = Some (instance_id inst).
Proof.
  intros Hn. unfold available_ids.
  change (map ?f ?l) with (f <$> l). by rewrite list_lookup_fmap, Hn.
Qed.

(** *** Round robin *)

Lemma route_call_round_robin lb req env env' :
  current_strategy lb = "round_robin" ->
  counters_ok lb ->
  available_ids lb <> [] ->
  exists routed lb',
    route_call lb req env env' = (Success routed, lb')
    /\ available_ids lb
         !! Z.to_nat (round_robin_index lb mod Z.of_nat (length (available_ids lb)))
       = Some (ok_instance_id routed)
    /\ current_strategy lb' = "round_robin"
    /\ round_robin_index lb' = round_robin_index lb + 1
    /\ counters_ok lb'
    /\ available_ids lb' = available_ids lb.
Proof.
  intros Hstrat Hcount Hne.
  unfold route_call, route_call_try, select_instance. rewrite Hstrat.
  cbn [String.eqb Ascii.eqb Bool.eqb andb].
  assert (Hlen : length (available_ids lb) = length (get_available_instances lb))
    by apply length_map.
  destruct (get_available_instances lb) as [| x xs] eqn:Hav;
    [by destruct (available_ids lb) |].
  cbn [nonempty negb _round_robin]. rewrite <- Hav in *.
  set (n := Z.to_nat (round_robin_index lb mod Z.of_nat (length (get_available_instances lb)))).
  assert (Hn : (n < length (get_available_instances lb))%nat).
  { subst n. rewrite Hav. cbn [length].
    pose proof (Z.mod_pos_bound (round_robin_index lb) (Z.of_nat (S (length xs)))).
    lia. }
  destruct (lookup_lt_is_Some_2 _ _ Hn) as [[r inst] Hsel]. rewrite Hsel.
  set (lb0 := with_round_robin_index lb (round_robin_index lb + 1)).
  destruct (serve_ok lb0 r inst req env env') as
    (routed & lb' & Hserve & Hid & _ & Hreg & Hshape & Hst & Hrr & Hdom & _).
  { intros region Hregion. exact (Hcount _ _ Hregion). }
  rewrite Hserve. exists routed, lb'. split; [reflexivity |].
  split; [| split; [| split; [| split]]].
  - rewrite Hlen, Hid. fold n. exact (available_ids_lookup lb n r inst Hsel).
  - by rewrite Hst.
  - by rewrite Hrr.
  - intros k region Hk. apply Hdom. rewrite Hreg in Hk. exact (Hcount _ _ Hk).
  - by apply available_ids_shape.
Qed.

(** Any number of consecutive calls under round robin: call number [j]
    goes to the available instance at position
    [(round_robin_index + j) mod len]. *)
Lemma route_calls_round_robin lb (calls : list (CallRequest * Env * Env)) :
  current_strategy lb = "round_robin" ->
  counters_ok lb ->
  available_ids lb <> [] ->
  map routed_instance (fst (route_calls lb calls))
  = map (fun j => available_ids lb
                    !! Z.to_nat ((round_robin_index lb + Z.of_nat j)
                                 mod Z.of_nat (length (available_ids lb))))
        (seq 0 (length calls)).
Proof.
  revert lb. induction calls as [| [[req env] env'] calls IH];
    intros lb Hstrat Hcount Hne; [done |].
  cbn [route_calls length seq map].
  destruct (route_call_round_robin lb req env env' Hstrat Hcount Hne)
    as (routed & lb1 & Hcall & Hsel & Hstrat1 & Hrr1 & Hcount1 & Hids1).
  rewrite Hcall.
  assert (Hne1 : available_ids lb1 <> []) by (by rewrite Hids1).
  specialize (IH lb1 Hstrat1 Hcount1 Hne1).
  destruct (route_calls lb1 calls) as [ress lb2]. cbn [fst map routed_instance] in *.
  f_equal.
  - by rewrite Z.add_0_r, Hsel.
  - rewrite IH, <- seq_shift, map_map, Hids1, Hrr1.
    apply map_ext. intros j. do 3 f_equal. lia.
Qed.

(** C8.  Round robin.  With the round-robin strategy, the cursor at its
    initial value 0 and exactly three instances available, six consecutive
    calls are all routed, to the three instances in the cyclic order of the
    available list; when the three ids differ, each instance serves exactly
    two of the six calls. *)
Theorem round_robin_distribution lb (ia ib ic : string)
    (c1 c2 c3 c4 c5 c6 : CallRequest * Env * Env) :
  current_strategy lb = "round_robin" ->
  round_robin_index lb = 0 ->
  counters_ok lb ->
  available_ids lb = [ia; ib; ic] ->
  Forall (fun c => req_session_id (fst (fst c)) = None) [c1; c2; c3; c4; c5; c6] ->
  let results := fst (route_calls lb [c1; c2; c3; c4; c5; c6]) in
  map routed_instance results
  = [Some ia; Some ib; Some ic; Some ia; Some ib; Some ic]
  /\ (ia <> ib -> ia <> ic -> ib <> ic ->
      calls_to ia results = 2%nat /\ calls_to ib results = 2%nat
      /\ calls_to ic results = 2%nat).
Proof.
  intros Hstrat Hrr Hcount Hids _ results.
  assert (Hres : map routed_instance results
                 = [Some ia; Some ib; Some ic; Some ia; Some ib; Some ic]).
  { subst results. rewrite route_calls_round_robin; [| done | done | by rewrite Hids].
    rewrite Hids, Hrr. reflexivity. }
  split; [exact Hres |].
  intros Hab Hac Hbc. unfold calls_to. rewrite Hres. cbn [List.filter].
  rewrite !String.eqb_refl.
  repeat match goal with
         | |- context [String.eqb ?x ?y] =>
             destruct (String.eqb_spec x y); [congruence |]
         end.
  done.
Qed.

(** *** Session affinity *)

Lemma get_session_instance sm sid now x :
  s_instance_id <$> sessions (snd (get_session sm sid now)) !! x
  = s_instance_id <$> sessions sm !! x.
Proof.
  unfold get_session. destruct (sessions sm !! sid) as [s |] eqn:Hs; [| done].
  destruct (_ <? _); [| done]. cbn [snd sessions with_sessions].
  destruct (decide (sid = x)) as [<- | Hne].
  - by rewrite lookup_insert_eq, Hs.
  - by rewrite lookup_insert_ne.
Qed.

Lemma get_instance_for_session_snd sm sid now :
  snd (get_instance_for_session sm sid now) = snd (get_session sm sid now).
Proof. unfold get_instance_for_session. by destruct (get_session sm sid now). Qed.

Lemma get_instance_for_session_fst sm sid now iid :
  fst (get_instance_for_session sm sid now) = Some iid ->
  s_instance_id <$> sessions sm !! sid = Some iid.
Proof.
  unfold get_instance_for_session, get_session.
  destruct (sessions sm !! sid) as [s |]; [| done].
  destruct (_ <? _); done.
Qed.

Lemma update_session_history_instance sm sid history now x :
  s_instance_id
    <$> sessions (update_session sm sid [SetConversationHistory history] now) !! x
  = s_instance_id <$> sessions sm !! x.
Proof.
  unfold update_session. destruct (sessions sm !! sid) as [s |] eqn:Hs; [| done].
  cbn [sessions with_sessions].
  destruct (decide (sid = x)) as [<- | Hne].
  - by rewrite lookup_insert_eq, Hs.
  - by rewrite lookup_insert_ne.
Qed.

(** With a session id, [_session_aware] falls back to least connections
    whenever the instance the session is bound to is not [healthy]; the
    lookup has touched the session all the same. *)
Lemma session_aware_fallback lb available sid now :
  available <> [] ->
  truthy sid = true ->
  (forall iid r inst,
      binding lb sid = Some iid ->
      dict_find (instances lb) iid 0 = Some (r, inst) ->
      health_status inst <> "healthy") ->
  _session_aware lb available (Some sid) now
  = (_least_connections available,
     with_session_manager lb (snd (get_session (session_manager lb) sid now))).
Proof.
  intros Hne Htruthy Hbad. unfold _session_aware.
  destruct available as [| x xs]; [done |].
  cbn [truthy_opt]. rewrite Htruthy. change (default "" (Some sid)) with sid.
  pose proof (get_instance_for_session_snd (session_manager lb) sid now) as Hsnd.
  pose proof (get_instance_for_session_fst (session_manager lb) sid now) as Hfst.
  destruct (get_instance_for_session (session_manager lb) sid now) as [bound sm'].
  cbn [fst snd] in *. subst sm'.
  destruct bound as [iid |]; [| done].
  destruct (truthy iid); [| done]. cbn [instances with_session_manager].
  destruct (dict_find (instances lb) iid 0) as [[r inst] |] eqn:Hfind; [| done].
  specialize (Hbad iid r inst (Hfst iid eq_refl) Hfind).
  destruct (String.eqb_spec (health_status inst) "healthy"); [done |].
  by rewrite andb_false_r.
Qed.

(** With the id of a live session whose instance is in the dictionary and
    [healthy], [_session_aware] returns that instance. *)
Lemma session_aware_sticky lb available sid now s r inst :
  available = get_available_instances lb ->
  truthy sid = true ->
  sessions (session_manager lb) !! sid = Some s ->
  now - last_activity s < timedelta_seconds (session_timeout (session_manager lb)) ->
  truthy (s_instance_id s) = true ->
  dict_find (instances lb) (s_instance_id s) 0 = Some (r, inst) ->
  health_status inst = "healthy" ->
  _session_aware lb available (Some sid) now
  = (Some (r, inst),
     with_session_manager lb (snd (get_session (session_manager lb) sid now))).
Proof.
  intros -> Htruthy Hs Hlive Hid Hfind Hhealthy. unfold _session_aware.
  destruct (dict_find_lookup _ _ _ _ _ Hfind) as [Hlook _].
  rewrite Nat.sub_0_r in Hlook.
  assert (Hav : is_available inst = true)
    by (apply is_available_spec; by left).
  pose proof (available_of_lookup lb r _ inst Hlook Hav) as Href.
  destruct (get_available_instances lb) as [| x xs] eqn:Havail; [done |].
  cbn [truthy_opt]. rewrite Htruthy. change (default "" (Some sid)) with sid.
  unfold get_instance_for_session.
  rewrite (get_session_alive _ _ _ _ Hs Hlive).
  cbn [fmap option_fmap option_map s_instance_id touch instances with_session_manager snd].
  rewrite Hid, Hfind, Href, Hhealthy. reflexivity.
Qed.

Lemma truthy_nonempty (x : string) : x <> "" -> truthy x = true.
Proof.
  intros Hx. unfold truthy. by destruct (String.eqb_spec x "").
Qed.

Lemma keyed_lookup d r k inst :
  keyed d -> d !! r = Some (k, inst) -> k = instance_id inst.
Proof.
  intros Hk Hr. unfold keyed in Hk. rewrite Forall_forall in Hk.
  apply (Hk (k, inst)). by eapply list_elem_of_lookup_2.
Qed.

Lemma keyed_shape d d' :
  fleet_shape d' = fleet_shape d -> keyed d -> keyed d'.
Proof.
  revert d. induction d' as [| [k' v'] d' IH]; intros d Heq Hk;
    [by constructor |].
  destruct d as [| [k v] d]; [done |].
  injection Heq as -> Hid _ _ Hrest.
  apply Forall_cons in Hk as [Hkv Hk]. constructor; [| by eapply IH].
  cbn [fst snd] in *. congruence.
Qed.

Lemma counters_okb_sound lb : counters_okb lb = true -> counters_ok lb.
Proof.
  unfold counters_okb. rewrite forallb_forall. intros Hall k region Hk.
  apply elem_of_map_to_list, list_elem_of_In in Hk.
  specialize (Hall _ Hk). by apply bool_decide_eq_true in Hall.
Qed.

(** The builders of the class establish the two invariants that the
    properties assume. *)
Lemma counters_ok_new now : counters_ok (new_load_balancer now).
Proof. intros k region Hk. cbn in Hk. by rewrite lookup_empty in Hk. Qed.

Lemma counters_ok_add_region lb (region : Region) :
  counters_ok lb -> counters_ok (add_region lb region).
Proof.
  intros Hok k reg Hk. unfold add_region in *.
  cbn [regions lb_metrics requests_per_region with_regions_metrics
       set_requests_per_region] in *.
  destruct (decide (r_region_id region = r_region_id reg)) as [Heq | Hne].
  - rewrite Heq, lookup_insert_eq. eauto.
  - rewrite lookup_insert_ne by done.
    destruct (decide (r_region_id region = k)) as [<- | Hnk].
    + rewrite lookup_insert_eq in Hk. congruence.
    + rewrite lookup_insert_ne in Hk by done. by eapply Hok.
Qed.

Lemma counters_ok_add_instance lb inst :
  counters_ok lb -> counters_ok (add_instance lb inst).
Proof. done. Qed.

Lemma keyed_dict_set d inst :
  keyed d -> keyed (dict_set d (instance_id inst) inst).
Proof.
  unfold keyed. induction d as [| [k v] d IH]; intros Hk; cbn [dict_set].
  - by repeat constructor.
  - apply Forall_cons in Hk as [Hkv Hk].
    destruct (String.eqb k (instance_id inst)); constructor; auto.
Qed.

Lemma dict_set_keys {V : Type} (l : list (string * V)) k v x :
  In x (map fst (dict_set l k v)) -> x = k \/ In x (map fst l).
Proof.
  induction l as [| [k' v'] l IH]; cbn [dict_set map fst In].
  - intros [<- | []]. by left.
  - destruct (String.eqb_spec k' k) as [-> | Hne]; cbn [map fst In].
    + intros [<- | Hin]; [by left | by right; right].
    + intros [<- | Hin]; [by right; left |].
      destruct (IH Hin) as [-> | Hin']; [by left | by right; right].
Qed.

Lemma NoDup_dict_set {V : Type} (l : list (string * V)) k v :
  NoDup (map fst l) -> NoDup (map fst (dict_set l k v)).
Proof.
  induction l as [| [k' v'] l IH]; intros Hnd; cbn [dict_set map fst].
  - apply NoDup_singleton.
  - apply NoDup_cons in Hnd as [Hnotin Hnd].
    destruct (String.eqb_spec k' k) as [-> | Hne]; cbn [map fst].
    + by apply NoDup_cons.
    + apply NoDup_cons. split; [| by apply IH].
      intros Hin. apply list_elem_of_In, dict_set_keys in Hin as [-> | Hin];
        [done | by apply Hnotin, list_elem_of_In].
Qed.

Lemma wf_instances_new now : wf_instances (new_load_balancer now).
Proof. split; [apply NoDup_nil_2 | constructor]. Qed.

Lemma wf_instances_add_instance lb inst :
  wf_instances lb -> wf_instances (add_instance lb inst).
Proof.
  intros [Hnd Hk]. split; [by apply NoDup_dict_set | by apply keyed_dict_set].
Qed.

(** C5, as the code has it.  Failover without rebinding.  Let session [sid]
    be bound to instance [iid], let [iid] have been marked [unhealthy], and
    let some instance be available.  Under the session-aware strategy a call
    that carries [sid] is routed to the available instance with the fewest
    connections: an instance other than [iid], whose status is [healthy] or
    [degraded].  The stored binding is not updated: after the call the
    session is still bound to [iid]. *)
Theorem failover_without_rebind lb req env env' sid iid :
  current_strategy lb = "session_aware" ->
  wf_instances lb ->
  counters_ok lb ->
  req_session_id req = Some sid ->
  sid <> "" ->
  binding lb sid = Some iid ->
  status_of lb iid = Some "unhealthy" ->
  get_available_instances lb <> [] ->
  exists routed lb' r inst,
    route_call lb req env env' = (Success routed, lb')
    /\ _least_connections (get_available_instances lb) = Some (r, inst)
    /\ ok_instance_id routed = instance_id inst
    /\ (health_status inst = "healthy" \/ health_status inst = "degraded")
    /\ ok_instance_id routed <> iid
    /\ binding lb' sid = Some iid.
Proof.
  intros Hstrat [Hnodup Hkeyed] Hcount Hreq Hsid Hbind Hstatus Hne.
  pose proof (truthy_nonempty sid Hsid) as Htruthy.
  destruct (least_connections_elem _ Hne) as ([r inst] & Hleast & Hin).
  destruct (available_elem lb r inst Hin) as (Hav & k & Hlook).
  pose proof (keyed_lookup _ _ _ _ Hkeyed Hlook) as ->.
  unfold route_call, route_call_try, select_instance. rewrite Hstrat.
  cbn [String.eqb Ascii.eqb Bool.eqb andb].
  destruct (get_available_instances lb) as [| x xs] eqn:Havail; [done |].
  cbn [nonempty negb]. rewrite <- Havail in *. rewrite Hreq.
  rewrite (session_aware_fallback lb _ sid (utcnow env) Hne Htruthy).
  2:{ intros iid' r' inst' Hb Hfind. rewrite Hbind in Hb. injection Hb as <-.
      unfold status_of in Hstatus. rewrite Hfind in Hstatus.
      injection Hstatus as Hst. cbn [snd] in Hst. by rewrite Hst. }
  rewrite Hleast.
  set (lb1 := with_session_manager lb _).
  destruct (serve_ok lb1 r inst req env env') as
    (routed & lb' & Hserve & Hid & _ & _ & _ & _ & _ & _ & Hsm).
  { intros region Hregion. exact (Hcount _ _ Hregion). }
  rewrite Hserve. exists routed, lb', r, inst.
  split; [reflexivity |]. split; [reflexivity |]. split; [exact Hid |].
  split; [by apply is_available_spec |]. split.
  - rewrite Hid. intros Heq.
    pose proof (dict_find_unique _ _ 0%nat _ _ Hnodup Hlook) as Hfind.
    unfold status_of in Hstatus. rewrite <- Heq, Hfind in Hstatus.
    injection Hstatus as Hst. cbn [snd] in Hst.
    apply is_available_spec in Hav as [Hh | Hd]; congruence.
  - unfold binding. rewrite Hsm, Hreq. cbn [truthy_opt]. rewrite Htruthy.
    change (default "" (Some sid)) with sid.
    rewrite update_session_history_instance.
    unfold lb1. cbn [session_manager with_session_manager].
    rewrite get_session_instance. exact Hbind.
Qed.

End WithFloat.

(** *** The properties on the concrete runs *)

Lemma demo_balancer_wf : wf_instances demo_balancer.
Proof.
  unfold demo_balancer.
  repeat apply wf_instances_add_instance. apply wf_instances_new.
Qed.

Lemma demo_balancer_counters : counters_ok demo_balancer.
Proof.
  unfold demo_balancer.
  repeat apply counters_ok_add_instance.
  apply counters_ok_add_region, counters_ok_new.
Qed.

Lemma first_call_routed :
  first_call = (Success first_routed, snd first_call).
Proof. vm_compute. reflexivity. Qed.

Lemma expired_session_lookup_witness :
  sessions stale_store !! "session-ab12cd34"
  = Some {| session_id := "session-ab12cd34"; s_call_id := "call-1";
            s_user_id := "user-1"; s_instance_id := "us-east-1-instance-1";
            created_at := 0; last_activity := 0; context := [];
            conversation_history := [] |}
  /\ timedelta_seconds (session_timeout stale_store) < timedelta_seconds 7200 - 0
  /\ get_session stale_store "session-ab12cd34" (timedelta_seconds 7200)
     = (None, stale_store)
  /\ get_instance_for_session stale_store "session-ab12cd34" (timedelta_seconds 7200)
     = (None, stale_store).
Proof.
  assert (Hs : sessions stale_store !! "session-ab12cd34"
               = Some {| session_id := "session-ab12cd34"; s_call_id := "call-1";
                         s_user_id := "user-1";
                         s_instance_id := "us-east-1-instance-1";
                         created_at := 0; last_activity := 0; context := [];
                         conversation_history := [] |})
    by (vm_compute; reflexivity).
  assert (Hold : timedelta_seconds (session_timeout stale_store)
                 < timedelta_seconds 7200 - 0)
    by (vm_compute; reflexivity).
  split; [exact Hs |]. split; [exact Hold |].
  destruct (expired_session_lookup stale_store "session-ab12cd34" _
              (timedelta_seconds 7200) Hs Hold) as (Hg & Hi & _).
  split; [exact Hg | exact Hi].
Defined.

(** C9, as stated, fails: two hours after its last activity, with a timeout
    of one hour, the session is reported as not found, but the lookup has not
    removed its entry from the store. *)
Lemma expired_session_not_removed :
  timedelta_seconds (session_timeout stale_store) < timedelta_seconds 7200 - 0
  /\ fst (get_session stale_store "session-ab12cd34" (timedelta_seconds 7200)) = None
  /\ sessions (snd (get_session stale_store "session-ab12cd34"
                      (timedelta_seconds 7200)))
       !! "session-ab12cd34" <> None.
Proof.
  split; [vm_compute; reflexivity |]. split; [vm_compute; reflexivity |].
  vm_compute. discriminate.
Qed.

Lemma touch_on_read_witness :
  spaced (timedelta_seconds (session_timeout stale_store)) 0
    [timedelta_seconds 3000; timedelta_seconds 6000; timedelta_seconds 9000]
  /\ (exists s',
      get_session stale_store "session-ab12cd34" (timedelta_seconds 3000)
      = (Some s', with_sessions stale_store
                    (<["session-ab12cd34" := s']> (sessions stale_store)))
      /\ last_activity s' = timedelta_seconds 3000
      /\ created_at s' = 0)
  /\ fst (lookups stale_store "session-ab12cd34"
            [timedelta_seconds 3000; timedelta_seconds 6000; timedelta_seconds 9000])
     = [Some "us-east-1-instance-1"; Some "us-east-1-instance-1";
        Some "us-east-1-instance-1"].
Proof.
  pose proof (touch_on_read stale_store "session-ab12cd34"
                {| session_id := "session-ab12cd34"; s_call_id := "call-1";
                   s_user_id := "user-1"; s_instance_id := "us-east-1-instance-1";
                   created_at := 0; last_activity := 0; context := [];
                   conversation_history := [] |}
                (timedelta_seconds 3000)
                [timedelta_seconds 3000; timedelta_seconds 6000; timedelta_seconds 9000])
    as Hthm.
  assert (Hsp : spaced (timedelta_seconds (session_timeout stale_store)) 0
                  [timedelta_seconds 3000; timedelta_seconds 6000;
                   timedelta_seconds 9000])
    by (vm_compute; repeat split).
  destruct Hthm as [(s' & Hg & _ & Hl & _ & _ & _ & _ & Hc & _) Hlook].
  - vm_compute. reflexivity.
  - vm_compute. reflexivity.
  - exact Hsp.
  - split; [exact Hsp |]. split; [| exact Hlook].
    exists s'. repeat split; assumption.
Defined.

Lemma no_instance_failure_witness :
  Forall (fun kv => health_status (snd kv) <> "healthy"
                    /\ health_status (snd kv) <> "degraded")
         (instances dark_balancer)
  /\ fst (route_call dark_balancer (call "1" None) (env_at 0 "ab12cd34")
            (env_at 200000 "ab12cd34"))
     = Failure "No healthy instances available" 200%Q.
Proof.
  assert (Hall : Forall (fun kv => health_status (snd kv) <> "healthy"
                                   /\ health_status (snd kv) <> "degraded")
                        (instances dark_balancer))
    by (vm_compute; repeat constructor; discriminate).
  split; [exact Hall |].
  destruct (no_instance_failure dark_balancer (call "1" None) (env_at 0 "ab12cd34")
              (env_at 200000 "ab12cd34") Hall) as [_ Hcall].
  by rewrite Hcall.
Defined.

Lemma round_robin_distribution_witness :
  current_strategy round_robin_balancer = "round_robin"
  /\ round_robin_index round_robin_balancer = 0
  /\ available_ids round_robin_balancer
     = ["us-east-1-instance-1"; "us-east-1-instance-2"; "us-east-1-instance-3"]
  /\ map routed_instance
       (fst (route_calls round_robin_balancer
               [ (call "1" None, env_at 0 "00000001", env_at 200000 "00000001");
                 (call "2" None, env_at 300000 "00000002", env_at 500000 "00000002");
                 (call "3" None, env_at 600000 "00000003", env_at 800000 "00000003");
                 (call "4" None, env_at 900000 "00000004", env_at 1100000 "00000004");
                 (call "5" None, env_at 1200000 "00000005", env_at 1400000 "00000005");
                 (call "6" None, env_at 1500000 "00000006", env_at 1700000 "00000006") ]))
     = [ Some "us-east-1-instance-1"; Some "us-east-1-instance-2";
         Some "us-east-1-instance-3"; Some "us-east-1-instance-1";
         Some "us-east-1-instance-2"; Some "us-east-1-instance-3" ].
Proof.
  assert (H1 : current_strategy round_robin_balancer = "round_robin") by reflexivity.
  assert (H2 : round_robin_index round_robin_balancer = 0) by reflexivity.
  assert (H3 : counters_ok round_robin_balancer) by exact demo_balancer_counters.
  assert (H4 : available_ids round_robin_balancer
               = ["us-east-1-instance-1"; "us-east-1-instance-2";
                  "us-east-1-instance-3"]) by (vm_compute; reflexivity).
  split; [exact H1 |]. split; [exact H2 |]. split; [exact H4 |].
  refine (proj1 (round_robin_distribution round_robin_balancer _ _ _
                   _ _ _ _ _ _ H1 H2 H3 H4 _)).
  repeat constructor.
Defined.

Lemma failover_balancer_wf : wf_instances failover_balancer.
Proof.
  split.
  - vm_compute.
    repeat (apply NoDup_cons; split;
            [rewrite ?not_elem_of_cons; repeat split;
             try discriminate; apply not_elem_of_nil |]).
    apply NoDup_nil_2.
  - vm_compute. repeat constructor.
Qed.

Lemma failover_balancer_counters : counters_ok failover_balancer.
Proof. apply counters_okb_sound. vm_compute. reflexivity. Qed.

Lemma failover_without_rebind_witness :
  binding failover_balancer "session-ab12cd34" = Some "us-east-1-instance-1"
  /\ status_of failover_balancer "us-east-1-instance-1" = Some "unhealthy"
  /\ get_available_instances failover_balancer <> []
  /\ exists routed lb' r inst,
       route_call failover_balancer (call "2" (Some "session-ab12cd34"))
         (env_at 60000000 "ffff0000") (env_at 60200000 "ffff0000")
       = (Success routed, lb')
       /\ _least_connections (get_available_instances failover_balancer)
          = Some (r, inst)
       /\ ok_instance_id routed = instance_id inst
       /\ (health_status inst = "healthy" \/ health_status inst = "degraded")
       /\ ok_instance_id routed <> "us-east-1-instance-1"
       /\ binding lb' "session-ab12cd34" = Some "us-east-1-instance-1".
Proof.
  assert (Hb : binding failover_balancer "session-ab12cd34"
               = Some "us-east-1-instance-1") by (vm_compute; reflexivity).
  assert (Hs : status_of failover_balancer "us-east-1-instance-1" = Some "unhealthy")
    by (vm_compute; reflexivity).
  assert (Ha : get_available_instances failover_balancer <> [])
    by (vm_compute; discriminate).
  split; [exact Hb |]. split; [exact Hs |]. split; [exact Ha |].
  refine (failover_without_rebind failover_balancer
            (call "2" (Some "session-ab12cd34"))
            (env_at 60000000 "ffff0000") (env_at 60200000 "ffff0000")
            "session-ab12cd34" "us-east-1-instance-1"
            _ failover_balancer_wf failover_balancer_counters _ _ Hb Hs Ha).
  - vm_compute. reflexivity.
  - reflexivity.
  - discriminate.
Defined.

(** C5, as stated, fails.  Session [session-ab12cd34] is bound to instance 1.
    The health checks mark instance 1 unhealthy and instance 2 degraded.  The
    next call of the session is routed to instance 2, which is not healthy
    but degraded, and the stored binding still names instance 1. *)
Lemma failover_does_not_rebind :
  binding failover_balancer "session-ab12cd34" = Some "us-east-1-instance-1"
  /\ status_of failover_balancer "us-east-1-instance-1" = Some "unhealthy"
  /\ routed_instance
       (fst (route_call failover_balancer (call "2" (Some "session-ab12cd34"))
               (env_at 60000000 "ffff0000") (env_at 60200000 "ffff0000")))
     = Some "us-east-1-instance-2"
  /\ status_of
       (snd (route_call failover_balancer (call "2" (Some "session-ab12cd34"))
               (env_at 60000000 "ffff0000") (env_at 60200000 "ffff0000")))
       "us-east-1-instance-2" = Some "degraded"
  /\ binding
       (snd (route_call failover_balancer (call "2" (Some "session-ab12cd34"))
               (env_at 60000000 "ffff0000") (env_at 60200000 "ffff0000")))
       "session-ab12cd34"
     = Some "us-east-1-instance-1".
Proof. repeat split; vm_compute; reflexivity. Qed.

End LoadBalancingProps.

(** * Further properties of the auto-scaler and its collaborators *)

Module AutoScalingExtra.
Import AutoScaling AutoScalingMore.

Section WithFloat.
Context {F : Type} `{PyFloatMore F}.
Implicit Types (a : VoiceAIAutoScaler (F := F)) (m : ScalingMetrics (F := F)).
Implicit Types (c : VoiceAIMetricsCollector (F := F)).
Implicit Types (d : ScalingDecision (F := F)).

(** Whatever [evaluate_scaling] does next, it has fed the sample to the
    collector, and nothing else touches the collector. *)
Lemma evaluate_scaling_collector a m now :
  metrics_collector (snd (evaluate_scaling a m now))
  = update_metrics (metrics_collector a) m.
Proof.
  unfold evaluate_scaling, decide_scaling.
  repeat (match goal with
          | |- context [match ?x with _ => _ end] => destruct x
          end; cbn [snd]); reflexivity.
Qed.

Lemma update_metrics_last c m :
  1 <= max_history_size c ->
  Z.of_nat (length (metrics_history c)) <= max_history_size c ->
  last (metrics_history (update_metrics c m)) = Some m
  /\ Z.of_nat (length (metrics_history (update_metrics c m))) <= max_history_size c.
Proof.
  intros Hmax Hlen. unfold update_metrics. cbn [metrics_history].
  rewrite length_app. cbn [length].
  destruct (Z.ltb_spec (max_history_size c)
              (Z.of_nat (length (metrics_history c) + 1))) as [Hover | Hfit].
  - destruct (metrics_history c) as [| x l] eqn:Hh; [cbn in *; lia |].
    cbn [app tail length] in *. rewrite last_snoc, length_app. cbn [length].
    split; [done | lia].
  - rewrite last_snoc, length_app. cbn [length]. split; [done | lia].
Qed.

(** X1.  Every [evaluate_scaling] call records its sample, also when it
    raises: afterwards the sample is [current_metrics] and the last entry of
    the history, and the history is still within [max_history_size]. *)
Theorem evaluate_scaling_records_sample a m now :
  1 <= max_history_size (metrics_collector a) ->
  Z.of_nat (length (metrics_history (metrics_collector a)))
    <= max_history_size (metrics_collector a) ->
  let c' := metrics_collector (snd (evaluate_scaling a m now)) in
  current_metrics c' = m
  /\ last (metrics_history c') = Some m
  /\ Z.of_nat (length (metrics_history c')) <= max_history_size c'
  /\ max_history_size c' = max_history_size (metrics_collector a).
Proof.
  intros Hmax Hlen c'. subst c'. rewrite evaluate_scaling_collector.
  destruct (update_metrics_last _ m Hmax Hlen) as [Hlast Hbound].
  repeat split; done.
Qed.

(** X2.  [evaluate_scaling] raises [TypeError] instead of returning a
    decision in three situations: inside the cooldown, with the replica count
    at [max_replicas] or above, and with no scale-up trigger while the
    replica count is at [min_replicas] or below.  In each of them
    [should_scale_up] or [should_scale_down] returns a bare [False] that is
    unpacked as a pair.  Only the collector has changed. *)
Theorem evaluate_scaling_raises_type_error a m now :
  in_cooldown a now = true
  \/ max_replicas a <= current_replicas a
  \/ (up_triggers a m = [] /\ current_replicas a <= min_replicas a) ->
  evaluate_scaling a m now
  = (Raise (TypeError "cannot unpack non-iterable bool object"),
     with_collector a (update_metrics (metrics_collector a) m)).
Proof.
  intros Hcase. unfold evaluate_scaling, should_scale_up, should_scale_down.
  change (in_cooldown (with_collector a ?c) now) with (in_cooldown a now).
  change (up_triggers (with_collector a ?c) m) with (up_triggers a m).
  cbn [max_replicas min_replicas current_replicas with_collector].
  destruct (in_cooldown a now); [done |].
  destruct (Z.leb_spec (max_replicas a) (current_replicas a)); [done |].
  destruct Hcase as [? | [? | [Hup Hmin]]]; [done | lia |].
  rewrite Hup. cbn [unpack nonempty].
  destruct (Z.leb_spec (current_replicas a) (min_replicas a)); [done | lia].
Qed.

(** X3.  [evaluate_scaling] returns a [maintain] decision exactly when the
    cooldown has elapsed, the replica count is strictly between
    [min_replicas] and [max_replicas], and the sample fires no scale-up and
    no scale-down trigger.  Under these conditions the call returns the
    decision that carries the unchanged count, and the scaler keeps its
    count, its history and its last scale time; only the collector has
    taken the sample.  Conversely a returned [maintain] decision implies the
    conditions. *)
Theorem maintain_iff a m now :
  (in_cooldown a now = false
   /\ min_replicas a < current_replicas a < max_replicas a
   /\ up_triggers a m = [] /\ down_triggers a m = [] ->
   evaluate_scaling a m now
   = (Ok {| action := "maintain";
            reason := Sentence "All metrics within acceptable ranges";
            d_current_replicas := current_replicas a;
            target_replicas := current_replicas a;
            metrics := m; d_timestamp := now |},
      with_collector a (update_metrics (metrics_collector a) m)))
  /\ (forall d a',
        evaluate_scaling a m now = (Ok d, a') ->
        action d = "maintain" ->
        in_cooldown a now = false
        /\ min_replicas a < current_replicas a < max_replicas a
        /\ up_triggers a m = [] /\ down_triggers a m = []).
Proof.
  unfold evaluate_scaling, should_scale_up, should_scale_down, decide_scaling.
  change (in_cooldown (with_collector a ?c) now) with (in_cooldown a now).
  change (up_triggers (with_collector a ?c) m) with (up_triggers a m).
  change (down_triggers (with_collector a ?c) m) with (down_triggers a m).
  cbn [max_replicas min_replicas current_replicas with_collector].
  split.
  - intros (-> & [Hmin Hmax] & -> & ->).
    destruct (Z.leb_spec (max_replicas a) (current_replicas a)); [lia |].
    cbn [unpack nonempty].
    destruct (Z.leb_spec (current_replicas a) (min_replicas a)); [lia |].
    reflexivity.
  - intros d a'.
    destruct (in_cooldown a now); [discriminate |].
    destruct (Z.leb_spec (max_replicas a) (current_replicas a)) as [Hmax | Hmax];
      [discriminate |].
    destruct (up_triggers a m) as [| u us]; cbn [unpack nonempty].
    + destruct (Z.leb_spec (current_replicas a) (min_replicas a)) as [Hmin | Hmin];
        [discriminate |].
      destruct (down_triggers a m) as [| w ws]; cbn [unpack nonempty].
      * intros _ _. repeat split; (done || lia).
      * destruct (calculate_target_replicas _ m "scale_down"); [| discriminate].
        intros [= <- <-] Hact. discriminate Hact.
    + destruct (calculate_target_replicas _ m "scale_up"); [| discriminate].
      intros [= <- <-] Hact. discriminate Hact.
Qed.

(** What one call does to the audit history and to the last scale time. *)
Lemma evaluate_scaling_history a m now :
  match fst (evaluate_scaling a m now) with
  | Ok d =>
      if String.eqb (action d) "maintain"
      then scaling_history (snd (evaluate_scaling a m now)) = scaling_history a
           /\ last_scale_time (snd (evaluate_scaling a m now)) = last_scale_time a
      else scaling_history (snd (evaluate_scaling a m now)) = scaling_history a ++ [d]
           /\ last_scale_time (snd (evaluate_scaling a m now)) = now
           /\ d_timestamp d = now
           /\ in_cooldown a now = false
  | Raise _ =>
      scaling_history (snd (evaluate_scaling a m now)) = scaling_history a
      /\ last_scale_time (snd (evaluate_scaling a m now)) = last_scale_time a
  end
  /\ scale_cooldown_minutes (snd (evaluate_scaling a m now)) = scale_cooldown_minutes a.
Proof.
  unfold evaluate_scaling, should_scale_up, should_scale_down, decide_scaling.
  change (in_cooldown (with_collector a ?c) now) with (in_cooldown a now).
  destruct (in_cooldown a now); [done |].
  destruct (max_replicas _ <=? current_replicas _); [done |].
  destruct (nonempty (up_triggers _ m)); cbn [unpack].
  - destruct (calculate_target_replicas _ m "scale_up"); [| done].
    cbn [fst snd action]. change (String.eqb "scale_up" "maintain") with false.
    done.
  - destruct (current_replicas _ <=? min_replicas _); [done |].
    destruct (nonempty (down_triggers _ m)); cbn [unpack]; [| done].
    destruct (calculate_target_replicas _ m "scale_down"); [| done].
    cbn [fst snd action]. change (String.eqb "scale_down" "maintain") with false.
    done.
Qed.

(** X4.  A scale-down is always a single step: from a scaler within its
    bounds, a [scale_down] decision targets exactly [current_replicas - 1],
    which is not below [min_replicas], and that becomes the replica count. *)
Theorem scale_down_single_step a m now d a' :
  replicas_in_bounds a ->
  evaluate_scaling a m now = (Ok d, a') ->
  action d = "scale_down" ->
  target_replicas d = current_replicas a - 1
  /\ current_replicas a' = current_replicas a - 1
  /\ min_replicas a <= target_replicas d.
Proof.
  intros [Hlo Hhi].
  unfold evaluate_scaling, should_scale_up, should_scale_down, decide_scaling.
  change (in_cooldown (with_collector a ?c) now) with (in_cooldown a now).
  cbn [max_replicas min_replicas current_replicas with_collector].
  destruct (in_cooldown a now); [discriminate |].
  destruct (Z.leb_spec (max_replicas a) (current_replicas a)); [discriminate |].
  destruct (nonempty (up_triggers _ m)); cbn [unpack].
  - destruct (calculate_target_replicas _ m "scale_up"); [| discriminate].
    intros [= <- <-] Hact. discriminate Hact.
  - destruct (Z.leb_spec (current_replicas a) (min_replicas a)); [discriminate |].
    destruct (nonempty (down_triggers _ m)); cbn [unpack].
    + unfold calculate_target_replicas.
      change (String.eqb "scale_down" "scale_up") with false. cbn [Py.bind].
      cbn [max_replicas min_replicas current_replicas with_collector].
      intros [= <- <-] _. cbn [target_replicas current_replicas record_scaling]. lia.
    + intros [= <- <-] Hact. discriminate Hact.
Qed.

(** *** The scale-up target *)

(** When the comparison of the floats is a strict weak order, Python's
    [max] returns a greatest item. *)
Lemma pymax_greatest (x : F) (xs : list F) :
  (forall u v, fgt u v = true -> fgt v u = false) ->
  (forall u v w, fgt u v = false -> fgt v w = false -> fgt u w = false) ->
  spec_max_ratio (pymax x xs) (x :: xs).
Proof.
  intros Hasym Htrans.
  assert (Hrefl : forall u, fgt u u = false).
  { intros u. destruct (fgt u u) eqn:Hu; [| done]. by rewrite (Hasym u u Hu) in Hu. }
  split; [apply AutoScalingProps.pymax_in |].
  unfold pymax. revert x.
  induction xs as [| y ys IH]; intros x; cbn [fold_left].
  - constructor; [apply Hrefl | constructor].
  - destruct (fgt y x) eqn:Hyx.
    + specialize (IH y). apply Forall_cons in IH as [Hy Hys].
      constructor; [| by constructor].
      eapply Htrans; [apply Hasym, Hyx | exact Hy].
    + specialize (IH x). apply Forall_cons in IH as [Hx Hys].
      constructor; [exact Hx |]. constructor; [| exact Hys].
      eapply Htrans; [exact Hyx | exact Hx].
Qed.

(** The scale-up branch of [calculate_target_replicas]: the factors it
    collects are the ratios of the specification, and the target it returns
    is the ceiling of the count times Python's [max] of them, or the count
    plus one without any, clamped. *)
Lemma calculate_target_replicas_scale_up a m t :
  min_replicas a <= max_replicas a ->
  calculate_target_replicas a m "scale_up" = Ok t ->
  match spec_ratios a m with
  | [] => t = spec_clamp (min_replicas a) (max_replicas a) (current_replicas a + 1)
  | x :: xs =>
      exists t0,
        fceil (fmul (of_Z (current_replicas a)) (pymax x xs)) = Ok t0
        /\ t = spec_clamp (min_replicas a) (max_replicas a) t0
  end.
Proof.
  intros Hle. unfold calculate_target_replicas, spec_ratios.
  change (String.eqb "scale_up" "scale_up") with true. cbv iota.
  unfold truediv, int_truediv, truediv_int, append_factor.
  destruct (fgt (cpu_utilization m) (target_cpu_utilization a));
    [destruct (fis_zero (target_cpu_utilization a)); [discriminate |] |];
    (destruct (fgt (memory_utilization m) (target_memory_utilization a));
     [destruct (fis_zero (target_memory_utilization a)); [discriminate |] |]);
    (destruct (max_concurrent_calls_per_replica a <? concurrent_calls m);
     [destruct (max_concurrent_calls_per_replica a =? 0); [discriminate |] |]);
    (destruct (fgt (stt_latency_ms m) (of_Z (max_latency_ms a)));
     [destruct (max_latency_ms a =? 0); [discriminate |] |]);
    cbn [Py.bind app];
    try (match goal with
         | |- context [fceil ?v] => destruct (fceil v) as [t0 | e]
         end; cbn [Py.bind]; [| discriminate]);
    intros [= <-]; rewrite AutoScalingProps.clamp_spec_clamp by done;
    try (eexists; split; reflexivity); reflexivity.
Qed.

(** X28.  The target of a scale-up is the one of the specification.  When
    the comparison of the floats is a strict weak order (as it is without
    NaN), every [scale_up] decision that [evaluate_scaling] returns has as
    its target [ceil(current_replicas * r)], where [r] is a greatest one
    among the ratios metric/target of the fields that exceed their target,
    or [current_replicas + 1] when no field does, clamped to
    [[min_replicas, max_replicas]]; the target becomes the replica count. *)
Theorem scale_up_target_spec a m now d a' :
  (forall u v : F, fgt u v = true -> fgt v u = false) ->
  (forall u v w : F, fgt u v = false -> fgt v w = false -> fgt u w = false) ->
  min_replicas a <= max_replicas a ->
  evaluate_scaling a m now = (Ok d, a') ->
  action d = "scale_up" ->
  ((spec_ratios a m = []
    /\ target_replicas d
       = spec_clamp (min_replicas a) (max_replicas a) (current_replicas a + 1))
   \/ exists r t,
        spec_max_ratio r (spec_ratios a m)
        /\ fceil (fmul (of_Z (current_replicas a)) r) = Ok t
        /\ target_replicas d = spec_clamp (min_replicas a) (max_replicas a) t)
  /\ d_current_replicas d = current_replicas a
  /\ current_replicas a' = target_replicas d.
Proof.
  intros Hasym Htrans Hle.
  unfold evaluate_scaling, should_scale_up, should_scale_down, decide_scaling.
  change (in_cooldown (with_collector a ?c) now) with (in_cooldown a now).
  change (calculate_target_replicas (with_collector a ?c) m ?s)
    with (calculate_target_replicas a m s).
  cbn [max_replicas min_replicas current_replicas with_collector].
  destruct (in_cooldown a now); [discriminate |].
  destruct (Z.leb_spec (max_replicas a) (current_replicas a)); [discriminate |].
  destruct (nonempty (up_triggers _ m)); cbn [unpack].
  - destruct (calculate_target_replicas a m "scale_up") as [t | e] eqn:Ht;
      [| discriminate].
    intros [= <- <-] _. cbn [target_replicas d_current_replicas current_replicas
                             record_scaling].
    split; [| done].
    pose proof (calculate_target_replicas_scale_up a m t Hle Ht) as Hspec.
    destruct (spec_ratios a m) as [| x xs] eqn:Hratios; [by left |].
    destruct Hspec as (t0 & Hceil & ->). right.
    exists (pymax x xs), t0. split; [by apply pymax_greatest | done].
  - destruct (Z.leb_spec (current_replicas a) (min_replicas a)); [discriminate |].
    destruct (nonempty (down_triggers _ m)); cbn [unpack].
    + destruct (calculate_target_replicas a m "scale_down"); [| discriminate].
      intros [= <- <-] Hact. discriminate Hact.
    + intros [= <- <-] Hact. discriminate Hact.
Qed.

Lemma evaluations_snd a (calls : list (ScalingMetrics * Z)) :
  snd (evaluations a calls) = run_evaluations a calls.
Proof.
  unfold run_evaluations. revert a.
  induction calls as [| [m now] calls IH]; intros a; [done |].
  cbn [evaluations fold_left fst snd].
  destruct (evaluate_scaling a m now) as [r a1] eqn:Hev. cbn [snd].
  specialize (IH a1). destruct (evaluations a1 calls) as [rs a2]. exact IH.
Qed.

(** X5.  The audit history is exactly the list of scaling decisions the
    calls returned: over any sequence of [evaluate_scaling] calls, each
    returned [scale_up] or [scale_down] decision is appended once, in order,
    and a [maintain] decision or an exception appends nothing; the summary's
    [total_scaling_events] counts them. *)
Theorem scaling_history_is_audit_log a (calls : list (ScalingMetrics * Z)) now :
  scaling_history (snd (evaluations a calls))
  = scaling_history a ++ scale_decisions (fst (evaluations a calls))
  /\ total_scaling_events (get_scaling_summary (snd (evaluations a calls)) now)
     = Z.of_nat (length (scaling_history a))
       + Z.of_nat (length (scale_decisions (fst (evaluations a calls)))).
Proof.
  assert (Hh : scaling_history (snd (evaluations a calls))
               = scaling_history a ++ scale_decisions (fst (evaluations a calls))).
  { revert a. induction calls as [| [m t] calls IH]; intros a.
    - cbn. by rewrite app_nil_r.
    - cbn [evaluations]. pose proof (evaluate_scaling_history a m t) as [Hstep _].
      destruct (evaluate_scaling a m t) as [r a1]. cbn [fst snd] in Hstep.
      specialize (IH a1). destruct (evaluations a1 calls) as [rs a2].
      cbn [fst snd scale_decisions] in *. rewrite IH.
      destruct r as [d | e].
      + destruct (String.eqb (action d) "maintain").
        * by destruct Hstep as [-> _].
        * destruct Hstep as [-> _]. by rewrite <- app_assoc.
      + by destruct Hstep as [-> _]. }
  split; [exact Hh |].
  unfold get_scaling_summary. cbn [total_scaling_events].
  rewrite Hh, length_app. lia.
Qed.

Lemma apart_snoc gap (l : list Z) t :
  apart gap l ->
  (forall t0, last l = Some t0 -> gap <= t - t0) ->
  apart gap (l ++ [t]).
Proof.
  induction l as [| x l IH]; intros Hl Hlast; [done |].
  destruct Hl as [Hhead Hrest]. cbn [app apart].
  destruct l as [| y l'].
  - cbn. split; [| done]. by apply Hlast.
  - cbn [app]. split; [exact Hhead |]. apply IH; [exact Hrest |].
    intros t0 Ht0. apply Hlast. exact Ht0.
Qed.

Lemma evaluate_scaling_spaced a m now :
  history_spaced a -> history_spaced (snd (evaluate_scaling a m now)).
Proof.
  intros [Hap Hlast]. unfold history_spaced.
  destruct (evaluate_scaling_history a m now) as [Hstep ->].
  destruct (fst (evaluate_scaling a m now)) as [d | e].
  - destruct (String.eqb (action d) "maintain").
    + destruct Hstep as [-> ->]. done.
    + destruct Hstep as (-> & -> & Hts & Hcool).
      rewrite map_app. cbn [map]. rewrite Hts. split.
      * apply apart_snoc; [exact Hap |]. intros t0 Ht0.
        rewrite (Hlast t0 Ht0). unfold in_cooldown in Hcool.
        by apply Z.ltb_ge in Hcool.
      * intros t0. rewrite last_snoc. congruence.
  - destruct Hstep as [-> ->]. done.
Qed.

(** X6.  The cooldown does space the scaling actions: in the audit history
    of a scaler that started with an empty history, after any sequence of
    [evaluate_scaling] calls at any instants, each recorded decision follows
    the one before by [scale_cooldown_minutes] or more. *)
Theorem scaling_actions_spaced a (calls : list (ScalingMetrics * Z)) :
  scaling_history a = [] ->
  apart (timedelta_minutes (scale_cooldown_minutes a))
        (map d_timestamp (scaling_history (run_evaluations a calls))).
Proof.
  intros Hempty.
  assert (Hinv : history_spaced a) by (unfold history_spaced; by rewrite Hempty).
  assert (Hgen : forall a0, history_spaced a0 ->
                   history_spaced (run_evaluations a0 calls)
                   /\ scale_cooldown_minutes (run_evaluations a0 calls)
                      = scale_cooldown_minutes a0).
  { unfold run_evaluations. induction calls as [| [m t] calls IH]; intros a0 Ha0;
      [done |].
    cbn [fold_left fst snd].
    destruct (IH _ (evaluate_scaling_spaced a0 m t Ha0)) as [Hs Hc].
    split; [exact Hs |]. rewrite Hc.
    by destruct (evaluate_scaling_history a0 m t) as [_ ->]. }
  destruct (Hgen a Hinv) as [[Hap _] Hc]. by rewrite <- Hc.
Qed.

Lemma filter_nil_iff {A : Type} (p : A -> bool) (l : list A) :
  List.filter p l = [] <-> Forall (fun x => p x = false) l.
Proof.
  induction l as [| x l IH]; cbn [List.filter]; [split; [constructor | done] |].
  destruct (p x) eqn:Hp.
  - split; [done |]. intros Hall. apply Forall_cons in Hall as [? _]. congruence.
  - rewrite IH. split; [by constructor |]. intros Hall.
    by apply Forall_cons in Hall as [_ ?].
Qed.

(** X7.  [get_average_metrics] raises in two situations only, both with
    [OverflowError]: the window [utcnow() - timedelta(minutes=minutes)] is
    outside the range of [timedelta] or [datetime], or the average of the
    int field [concurrent_calls] is beyond the floats.  Otherwise it
    returns; the division by the number of recent samples is only reached
    when there is one, so it never raises [ZeroDivisionError].  It returns
    [None] exactly when no sample of the history is as recent as the
    cut-off, and else a record stamped with the instant of the call. *)
Theorem get_average_metrics_defined c (minutes now : Z) :
  (window_out_of_range minutes now || calls_average_overflows c minutes now = true ->
   get_average_metrics c minutes now = Raise OverflowError)
  /\ (window_out_of_range minutes now || calls_average_overflows c minutes now = false ->
      exists r,
        get_average_metrics c minutes now = Ok r
        /\ (r = None
            <-> Forall (fun m => timestamp m < now - timedelta_minutes minutes)
                       (metrics_history c))
        /\ forall avg, r = Some avg ->
             avg_timestamp avg = now
             /\ avg_concurrent_calls avg
                = fdiv_int (int_sum (map concurrent_calls (recent_metrics c minutes now)))
                           (Z.of_nat (length (recent_metrics c minutes now)))).
Proof.
  assert (Hiff : recent_metrics c minutes now = []
                 <-> Forall (fun m => timestamp m < now - timedelta_minutes minutes)
                            (metrics_history c)).
  { unfold recent_metrics. rewrite filter_nil_iff.
    apply Forall_iff. intros m. by rewrite Z.leb_gt. }
  unfold get_average_metrics, window_out_of_range, calls_average_overflows,
    timedelta_of_minutes, datetime_sub. cbn zeta.
  destruct ((minutes / 1440 <? -999999999) || (999999999 <? minutes / 1440));
    cbn [Py.bind orb]; [split; [done | discriminate] |].
  destruct ((now - timedelta_minutes minutes <? datetime_min)
            || (datetime_max <? now - timedelta_minutes minutes));
    cbn [Py.bind orb]; [split; [done | discriminate] |].
  change (List.filter (fun m => now - timedelta_minutes minutes <=? timestamp m)
            (metrics_history c)) with (recent_metrics c minutes now).
  destruct (recent_metrics c minutes now) as [| x xs] eqn:Hrecent.
  - cbn [nonempty negb andb]. split; [discriminate |]. intros _.
    exists None. split; [done |]. split; [| discriminate].
    split; [intros _; by apply Hiff | done].
  - cbn [nonempty negb andb]. unfold truediv_int, int_truediv_checked.
    assert (Hn : (Z.of_nat (length (x :: xs)) =? 0) = false)
      by (apply Z.eqb_neq; cbn [length]; lia).
    rewrite Hn. cbn [Py.bind].
    destruct (int_truediv_overflows _ _); cbn [Py.bind];
      [split; [done | discriminate] |].
    split; [discriminate |]. intros _. eexists. split; [reflexivity |].
    split; [split; [discriminate | intros Hall; by apply Hiff in Hall] |].
    intros avg [= <-]. done.
Qed.

Lemma last_100_spec {A : Type} (l : list A) :
  (100 < length l)%nat ->
  length (last_100 l) = 100%nat /\ last (last_100 l) = last l
  /\ last_100 l `suffix_of` l.
Proof.
  intros Hlen. unfold last_100. rewrite length_drop. split; [lia |].
  split; [| apply suffix_drop].
  rewrite !last_lookup, lookup_drop, length_drop. f_equal. lia.
Qed.

(** One [expose_custom_metric] call, on the list of its name and on the
    others. *)
Lemma expose_custom_metric_entries (s : CustomMetricsService (F := F))
    (name : string) (value : F) (labels : list (string * string)) (now : Z) :
  let old := default [] (cms_metrics s !! name) in
  let metric := {| cm_name := name; cm_value := value; cm_labels := labels;
                   cm_timestamp := now |} in
  let s' := expose_custom_metric s name value labels now in
  (exists entries,
      get_custom_metrics s' !! name = Some entries
      /\ last entries = Some metric
      /\ entries `suffix_of` old ++ [metric]
      /\ length entries = Nat.min 100 (S (length old)))
  /\ forall other, other <> name ->
        get_custom_metrics s' !! other = get_custom_metrics s !! other.
Proof.
  intros old metric s'. subst s'. unfold expose_custom_metric, get_custom_metrics.
  cbn [cms_metrics]. fold old. fold metric. split.
  - rewrite lookup_insert_eq. eexists. split; [reflexivity |].
    assert (Hlen : length (old ++ [metric]) = S (length old))
      by (rewrite length_app; cbn; lia).
    destruct (Z.ltb_spec 100 (Z.of_nat (length (old ++ [metric])))) as [Hover | Hfit].
    + destruct (last_100_spec (old ++ [metric])) as (Hl & Hlast & Hsuf); [lia |].
      rewrite Hlast, last_snoc, Hl. repeat split; [exact Hsuf | lia].
    + rewrite last_snoc. repeat split; [done | lia].
  - intros other Hne. by rewrite lookup_insert_ne.
Qed.

Lemma expose_all_bounded (s : CustomMetricsService (F := F))
    (calls : list (string * F * list (string * string) * Z)) :
  (forall name entries, cms_metrics s !! name = Some entries ->
                        (1 <= length entries <= 100)%nat) ->
  forall name entries,
    cms_metrics (expose_all s calls) !! name = Some entries ->
    (1 <= length entries <= 100)%nat.
Proof.
  unfold expose_all. revert s.
  induction calls as [| [[[n v] ls] t] calls IH]; intros s Hs; [exact Hs |].
  cbn [fold_left fst snd]. apply IH. intros name entries Hlook.
  destruct (expose_custom_metric_entries s n v ls t)
    as [(l & Hl & _ & _ & Hlen) Hother].
  unfold get_custom_metrics in *.
  destruct (decide (name = n)) as [-> | Hne].
  - rewrite Hl in Hlook. injection Hlook as <-. lia.
  - rewrite (Hother name Hne) in Hlook. by eapply Hs.
Qed.

(** X8.  The custom metrics service keeps a window of the last 100 entries
    per metric name.  One [expose_custom_metric] call leaves the list of its
    name ending with the new metric, a suffix of the old list followed by it,
    with [min(100, old length + 1)] entries, and leaves the lists of all
    other names untouched.  So in a service that started empty, after any
    run of calls, every stored list has between 1 and 100 entries. *)
Theorem custom_metrics_window (s : CustomMetricsService (F := F))
    (name : string) (value : F) (labels : list (string * string)) (now : Z)
    (calls : list (string * F * list (string * string) * Z)) :
  let old := default [] (cms_metrics s !! name) in
  let metric := {| cm_name := name; cm_value := value; cm_labels := labels;
                   cm_timestamp := now |} in
  let s' := expose_custom_metric s name value labels now in
  (exists entries,
      get_custom_metrics s' !! name = Some entries
      /\ last entries = Some metric
      /\ entries `suffix_of` old ++ [metric]
      /\ length entries = Nat.min 100 (S (length old)))
  /\ (forall other, other <> name ->
         get_custom_metrics s' !! other = get_custom_metrics s !! other)
  /\ (forall n entries,
         get_custom_metrics (expose_all new_custom_metrics_service calls) !! n
         = Some entries ->
         (1 <= length entries <= 100)%nat).
Proof.
  intros old metric s'.
  destruct (expose_custom_metric_entries s name value labels now) as [Hone Hother].
  split; [exact Hone |]. split; [exact Hother |].
  apply expose_all_bounded. intros n entries Hn. cbn in Hn.
  by rewrite lookup_empty in Hn.
Qed.

End WithFloat.

Lemma evaluate_scaling_records_sample_witness :
  1 <= max_history_size (metrics_collector demo_scaler)
  /\ Z.of_nat (length (metrics_history (metrics_collector demo_scaler)))
     <= max_history_size (metrics_collector demo_scaler)
  /\ fst (evaluate_scaling demo_scaler high_load (timedelta_minutes 1))
     = Raise (TypeError "cannot unpack non-iterable bool object")
  /\ last (metrics_history
             (metrics_collector
                (snd (evaluate_scaling demo_scaler high_load (timedelta_minutes 1)))))
     = Some high_load.
Proof.
  assert (H1 : 1 <= max_history_size (metrics_collector demo_scaler))
    by (vm_compute; discriminate).
  assert (H2 : Z.of_nat (length (metrics_history (metrics_collector demo_scaler)))
               <= max_history_size (metrics_collector demo_scaler))
    by (vm_compute; discriminate).
  split; [exact H1 |]. split; [exact H2 |]. split; [vm_compute; reflexivity |].
  exact (proj1 (proj2 (evaluate_scaling_records_sample demo_scaler high_load
                         (timedelta_minutes 1) H1 H2))).
Defined.

Lemma evaluate_scaling_raises_type_error_witness :
  (up_triggers demo_scaler low_load = []
   /\ current_replicas demo_scaler <= min_replicas demo_scaler)
  /\ in_cooldown demo_scaler (timedelta_minutes 30) = false
  /\ evaluate_scaling demo_scaler low_load (timedelta_minutes 30)
     = (Raise (TypeError "cannot unpack non-iterable bool object"),
        with_collector demo_scaler
          (update_metrics (metrics_collector demo_scaler) low_load)).
Proof.
  assert (Hq : up_triggers demo_scaler low_load = []
               /\ current_replicas demo_scaler <= min_replicas demo_scaler)
    by (split; [vm_compute; reflexivity | vm_compute; discriminate]).
  split; [exact Hq |]. split; [vm_compute; reflexivity |].
  exact (evaluate_scaling_raises_type_error demo_scaler low_load
           (timedelta_minutes 30) (or_intror (or_intror Hq))).
Defined.

Lemma maintain_iff_witness :
  (in_cooldown scaled_once (timedelta_minutes 10) = false
   /\ min_replicas scaled_once < current_replicas scaled_once < max_replicas scaled_once
   /\ up_triggers scaled_once steady_load = []
   /\ down_triggers scaled_once steady_load = [])
  /\ exists d,
       fst (evaluate_scaling scaled_once steady_load (timedelta_minutes 10)) = Ok d
       /\ action d = "maintain" /\ target_replicas d = 3.
Proof.
  assert (Hc : in_cooldown scaled_once (timedelta_minutes 10) = false
               /\ min_replicas scaled_once < current_replicas scaled_once
                  < max_replicas scaled_once
               /\ up_triggers scaled_once steady_load = []
               /\ down_triggers scaled_once steady_load = [])
    by (repeat split; vm_compute; reflexivity).
  split; [exact Hc |].
  rewrite (proj1 (maintain_iff scaled_once steady_load (timedelta_minutes 10)) Hc).
  eexists. split; [reflexivity |]. split; [reflexivity |]. vm_compute. reflexivity.
Defined.

Lemma get_average_metrics_defined_witness :
  window_out_of_range 1200000000 (timedelta_minutes 5)
  || calls_average_overflows (metrics_collector scaled_once) 1200000000
       (timedelta_minutes 5) = true
  /\ get_average_metrics (metrics_collector scaled_once) 1200000000 (timedelta_minutes 5)
     = Raise OverflowError
  /\ window_out_of_range 5 (timedelta_minutes 5)
     || calls_average_overflows (metrics_collector scaled_once) 5
          (timedelta_minutes 5) = false
  /\ exists avg,
       get_average_metrics (metrics_collector scaled_once) 5 (timedelta_minutes 5)
       = Ok (Some avg)
       /\ avg_timestamp avg = timedelta_minutes 5
       /\ avg_concurrent_calls avg = 60%Q.
Proof.
  assert (H1 : window_out_of_range 1200000000 (timedelta_minutes 5)
               || calls_average_overflows (metrics_collector scaled_once) 1200000000
                    (timedelta_minutes 5) = true)
    by (vm_compute; reflexivity).
  assert (H2 : window_out_of_range 5 (timedelta_minutes 5)
               || calls_average_overflows (metrics_collector scaled_once) 5
                    (timedelta_minutes 5) = false)
    by (vm_compute; reflexivity).
  split; [exact H1 |].
  split; [exact (proj1 (get_average_metrics_defined (metrics_collector scaled_once)
                          1200000000 (timedelta_minutes 5)) H1) |].
  split; [exact H2 |].
  destruct (proj2 (get_average_metrics_defined (metrics_collector scaled_once)
                     5 (timedelta_minutes 5)) H2) as (r & Hr & _ & Havg).
  destruct r as [avg |]; [| vm_compute in Hr; discriminate].
  exists avg. split; [exact Hr |].
  destruct (Havg avg eq_refl) as [Ht Hc]. split; [exact Ht |].
  rewrite Hc. vm_compute. reflexivity.
Defined.

(** On the rationals the comparison is a strict weak order. *)
Lemma Qfloat_gt_asym (u v : Q) : fgt u v = true -> fgt v u = false.
Proof.
  cbn [fgt QFloat]. rewrite negb_true_iff, negb_false_iff.
  intros Huv. apply Qle_bool_iff, Qlt_le_weak, Qnot_le_lt.
  intros Hle. apply Qle_bool_iff in Hle. congruence.
Qed.

Lemma Qfloat_le_trans (u v w : Q) :
  fgt u v = false -> fgt v w = false -> fgt u w = false.
Proof.
  cbn [fgt QFloat]. rewrite !negb_false_iff, !Qle_bool_iff. apply Qle_trans.
Qed.

Lemma scale_up_target_spec_witness :
  min_replicas demo_scaler <= max_replicas demo_scaler
  /\ spec_ratios demo_scaler surge_load
     = [(95 / 70)%Q; (inject_Z 500 / inject_Z 50)%Q]
  /\ exists d a',
       evaluate_scaling demo_scaler surge_load (timedelta_minutes 5) = (Ok d, a')
       /\ action d = "scale_up"
       /\ (exists r t,
              spec_max_ratio r (spec_ratios demo_scaler surge_load)
              /\ fceil (fmul (of_Z (current_replicas demo_scaler)) r) = Ok t
              /\ target_replicas d
                 = spec_clamp (min_replicas demo_scaler) (max_replicas demo_scaler) t)
       /\ target_replicas d = 20
       /\ current_replicas a' = target_replicas d.
Proof.
  assert (Hle : min_replicas demo_scaler <= max_replicas demo_scaler)
    by (vm_compute; discriminate).
  split; [exact Hle |]. split; [reflexivity |].
  destruct (evaluate_scaling demo_scaler surge_load (timedelta_minutes 5))
    as [[d | e] a'] eqn:Hev; [| vm_compute in Hev; discriminate].
  assert (Hact : action d = "scale_up")
    by (vm_compute in Hev; by injection Hev as <- _).
  assert (Ht : target_replicas d = 20)
    by (vm_compute in Hev; by injection Hev as <- _).
  destruct (scale_up_target_spec demo_scaler surge_load (timedelta_minutes 5) d a'
              Qfloat_gt_asym Qfloat_le_trans Hle Hev Hact)
    as ([[Hnil _] | Hmax] & _ & Hcur); [discriminate Hnil |].
  exists d, a'. repeat split; assumption.
Defined.

Lemma scale_down_single_step_witness :
  replicas_in_bounds scaled_once
  /\ exists d a',
       evaluate_scaling scaled_once low_load (timedelta_minutes 10) = (Ok d, a')
       /\ action d = "scale_down"
       /\ target_replicas d = current_replicas scaled_once - 1
       /\ current_replicas a' = 2.
Proof.
  assert (Hb : replicas_in_bounds scaled_once) by (vm_compute; split; discriminate).
  split; [exact Hb |].
  destruct (evaluate_scaling scaled_once low_load (timedelta_minutes 10))
    as [[d | e] a'] eqn:Hev; [| vm_compute in Hev; discriminate].
  assert (Hact : action d = "scale_down")
    by (vm_compute in Hev; by injection Hev as <- _).
  destruct (scale_down_single_step scaled_once low_load (timedelta_minutes 10)
              d a' Hb Hev Hact) as (Ht & Hc & _).
  exists d, a'. repeat split; [exact Hact | exact Ht |].
  rewrite Hc. vm_compute. reflexivity.
Defined.

Lemma scaling_actions_spaced_witness :
  scaling_history demo_scaler = []
  /\ map d_timestamp
       (scaling_history
          (run_evaluations demo_scaler
             [(high_load, timedelta_minutes 5); (high_load, timedelta_minutes 6);
              (low_load, timedelta_minutes 10); (low_load, timedelta_minutes 12)]))
     = [timedelta_minutes 5; timedelta_minutes 10]
  /\ apart (timedelta_minutes (scale_cooldown_minutes demo_scaler))
        (map d_timestamp
           (scaling_history
              (run_evaluations demo_scaler
                 [(high_load, timedelta_minutes 5); (high_load, timedelta_minutes 6);
                  (low_load, timedelta_minutes 10); (low_load, timedelta_minutes 12)]))).
Proof.
  assert (He : scaling_history demo_scaler = []) by reflexivity.
  split; [exact He |]. split; [vm_compute; reflexivity |].
  exact (scaling_actions_spaced demo_scaler _ He).
Defined.

End AutoScalingExtra.

(** * Further properties of the session manager and the load balancer *)

Module LoadBalancingExtra.
Import LoadBalancing LoadBalancingMore LoadBalancingProps.

Section WithFloat.
Context {F : Type} `{PyFloatMore F}.
Implicit Types (sm : SessionManager) (s : Session) (sid : string).
Implicit Types (lb : GlobalLoadBalancer (F := F)) (inst : Instance (F := F)).
Implicit Types (d : list (string * Instance (F := F))).
Implicit Types (available : list (nat * Instance (F := F))).
Implicit Types (req : CallRequest) (env : Env (F := F)).

(** *** What the statements after the selection change, on every path *)

Lemma insert_succ_alter (m : gmap string Z) (k : string) (n : Z) :
  m !! k = Some n -> <[k := n + 1]> m = alter (Z.add 1) k m.
Proof.
  intros Hk. apply map_eq. intros j.
  destruct (decide (k = j)) as [<- | Hne].
  - rewrite lookup_insert_eq, lookup_alter_eq, Hk. cbn. f_equal. lia.
  - by rewrite lookup_insert_ne, lookup_alter_ne.
Qed.

Lemma serve_frame lb r inst req env env' :
  let out := serve lb r inst req env env' in
  regions (snd out) = regions lb
  /\ current_strategy (snd out) = current_strategy lb
  /\ round_robin_index (snd out) = round_robin_index lb
  /\ fleet_shape (instances (snd out)) = fleet_shape (instances lb)
  /\ (forall k, is_Some (requests_per_region (lb_metrics lb) !! k) ->
                is_Some (requests_per_region (lb_metrics (snd out)) !! k))
  /\ error_rate (lb_metrics (snd out)) = error_rate (lb_metrics lb)
  /\ total_requests (lb_metrics (snd out)) = total_requests (lb_metrics lb) + 1
  /\ match fst out with
     | Ok routed =>
         ok_instance_id routed = instance_id inst
         /\ ok_region_id routed = region_id inst
         /\ ok_session_id routed = fst (served_session lb inst req env)
         /\ ok_strategy_used routed = current_strategy lb
         /\ session_manager (snd out)
            = update_session (snd (served_session lb inst req env))
                (fst (served_session lb inst req env))
                [SetConversationHistory
                   [ {| role := "user"; text := "Hello";
                        turn_timestamp := utcnow env' |};
                     {| role := "assistant"; text := "How can I help you?";
                        turn_timestamp := utcnow env' |} ]]
                (utcnow env')
         /\ requests_per_region (lb_metrics (snd out))
            = match regions lb !! region_id inst with
              | Some region =>
                  alter (Z.add 1) (r_region_id region)
                        (requests_per_region (lb_metrics lb))
              | None => requests_per_region (lb_metrics lb)
              end
     | Raise e =>
         session_manager (snd out) = snd (served_session lb inst req env)
         /\ requests_per_region (lb_metrics (snd out))
            = requests_per_region (lb_metrics lb)
         /\ exists region,
              regions lb !! region_id inst = Some region
              /\ requests_per_region (lb_metrics lb) !! r_region_id region = None
              /\ e = KeyError (r_region_id region)
     end.
Proof.
  unfold serve, served_session.
  destruct (truthy_opt (req_session_id req)); cbn [create_session];
    unfold count_region_request; cbn [regions lb_metrics requests_per_region
      acquire mutate with_instances with_session_manager with_metrics
      with_regions_metrics set_total_requests];
    (destruct (regions lb !! region_id inst) as [region |] eqn:Hreg;
     [ destruct (requests_per_region (lb_metrics lb) !! r_region_id region)
         as [n |] eqn:Hn | ]);
    cbn -[fleet_shape alter];
    repeat split; try reflexivity;
    try (rewrite
           (fleet_shape_alter _ r
              (fun i => set_current_connections i (Z.max 0 (current_connections i - 1)))),
           (fleet_shape_alter _ r
              (fun i => set_current_connections i (current_connections i + 1)));
         done);
    try (rewrite
           (fleet_shape_alter _ r
              (fun i => set_current_connections i (current_connections i + 1)));
         done);
    try (intros k Hk; destruct (decide (r_region_id region = k)) as [<- | Hne];
         [rewrite lookup_insert_eq; eauto | by rewrite lookup_insert_ne]);
    try (by apply insert_succ_alter);
    try (eexists; repeat split; done);
    auto.
Qed.

(** *** The strategies *)

Lemma pymin_by_le {A : Type} (key : A -> Z) (x : A) (xs : list A) :
  forall y, In y (x :: xs) -> key (pymin_by key x xs) <= key y.
Proof.
  unfold pymin_by. revert x. induction xs as [| z zs IH]; intros x y.
  - intros [<- | []]. cbn. lia.
  - cbn [fold_left]. intros Hin.
    assert (Hinit : forall b, key (fold_left
                       (fun best y0 => if key y0 <? key best then y0 else best) zs b)
                     <= key b)
      by (intros b; apply (IH b b); by left).
    destruct (Z.ltb_spec (key z) (key x)) as [Hlt | Hge].
    + destruct Hin as [<- | [<- | Hin]].
      * specialize (Hinit z). lia.
      * apply Hinit.
      * apply IH. by right.
    + destruct Hin as [<- | [<- | Hin]].
      * apply Hinit.
      * specialize (Hinit x). lia.
      * apply IH. by right.
Qed.

(** X9.  [_least_connections] returns [None] only for the empty list;
    otherwise it returns one of the given instances, and no given instance
    has fewer connections than the one returned. *)
Theorem least_connections_minimal available :
  (_least_connections available = None <-> available = [])
  /\ forall r inst,
       _least_connections available = Some (r, inst) ->
       In (r, inst) available
       /\ forall ri, In ri available ->
            current_connections inst <= current_connections (snd ri).
Proof.
  destruct available as [| x xs]; cbn [_least_connections].
  - split; [done |]. discriminate.
  - split; [split; discriminate |]. intros r inst [= Hsel]. split.
    + rewrite <- Hsel. apply pymin_by_in.
    + intros ri Hin.
      pose proof (pymin_by_le (fun ri0 : nat * Instance => current_connections (snd ri0))
                    x xs ri Hin) as Hle.
      cbn beta in Hle. by rewrite Hsel in Hle.
Qed.

Lemma round_robin_member lb available :
  available <> [] ->
  exists ri,
    _round_robin lb available
    = (Some ri, with_round_robin_index lb (round_robin_index lb + 1))
    /\ available
         !! Z.to_nat (round_robin_index lb mod Z.of_nat (length available))
       = Some ri
    /\ In ri available.
Proof.
  intros Hne. unfold _round_robin. destruct available as [| x xs] eqn:Hav; [done |].
  rewrite <- Hav.
  assert (Hn : (Z.to_nat (round_robin_index lb mod Z.of_nat (length available))
                < length available)%nat).
  { rewrite Hav. cbn [length].
    pose proof (Z.mod_pos_bound (round_robin_index lb) (Z.of_nat (S (length xs)))).
    lia. }
  destruct (lookup_lt_is_Some_2 _ _ Hn) as [ri Hri]. exists ri. rewrite Hri.
  split; [done |]. split; [done |].
  apply list_elem_of_In. by eapply list_elem_of_lookup_2.
Qed.

(** X10.  [_round_robin] never indexes out of range: for a list that is not
    empty and any value of the cursor, a negative one included, it returns
    the instance at position [cursor mod len] of the list and advances the
    cursor by one. *)
Theorem round_robin_in_range lb available :
  available <> [] ->
  exists ri,
    _round_robin lb available
    = (Some ri, with_round_robin_index lb (round_robin_index lb + 1))
    /\ available
         !! Z.to_nat (round_robin_index lb mod Z.of_nat (length available))
       = Some ri
    /\ In ri available
    /\ 0 <= round_robin_index lb mod Z.of_nat (length available)
         < Z.of_nat (length available).
Proof.
  intros Hne. destruct (round_robin_member lb available Hne) as (ri & H1 & H2 & H3).
  exists ri. repeat split; try done;
    apply Z.mod_pos_bound; destruct available; [done | cbn [length]; lia | done |
                                                cbn [length]; lia].
Qed.

Lemma weighted_pick_member draw w available ri :
  weighted_pick draw w available = Some ri -> In ri available.
Proof.
  revert w. induction available as [| x xs IH]; intros w; [done |].
  cbn [weighted_pick]. destruct (fle draw _).
  - intros [= <-]. by left.
  - intros Hp. right. by eapply IH.
Qed.

Lemma last_some_member {A : Type} (x : A) (xs : list A) :
  exists y, List.last (map Some (x :: xs)) None = Some y /\ In y (x :: xs).
Proof.
  revert x. induction xs as [| z zs IH]; intros x.
  - exists x. split; [done | by left].
  - destruct (IH z) as (y & Hy & Hin). exists y. split; [exact Hy | by right].
Qed.

Lemma weighted_round_robin_member available draw :
  available <> [] ->
  exists ri, _weighted_round_robin available draw = Some ri /\ In ri available.
Proof.
  intros Hne. unfold _weighted_round_robin.
  destruct available as [| x xs] eqn:Hav; [done |].
  destruct (_ =? 0); [exists x; split; [done | by left] |].
  destruct (weighted_pick draw 0 (x :: xs)) as [ri |] eqn:Hp.
  - exists ri. split; [done | by eapply weighted_pick_member].
  - apply last_some_member.
Qed.

(** X11.  [_weighted_round_robin] always picks one of the given instances:
    for a list that is not empty it never returns [None], whatever the
    random draw and whatever the weights, zero or negative ones included. *)
Theorem weighted_round_robin_picks available draw :
  (_weighted_round_robin available draw = None <-> available = [])
  /\ forall ri, _weighted_round_robin available draw = Some ri -> In ri available.
Proof.
  destruct available as [| x xs] eqn:Hav.
  - split; [done | discriminate].
  - destruct (weighted_round_robin_member (x :: xs) draw) as (ri & Hri & Hin); [done |].
    rewrite Hri. split; [split; discriminate |]. by intros ri' [= <-].
Qed.

(** *** The selection inside [route_call] *)

Lemma session_aware_frame lb available (o : option string) now :
  let out := _session_aware lb available o now in
  instances (snd out) = instances lb
  /\ regions (snd out) = regions lb
  /\ lb_metrics (snd out) = lb_metrics lb
  /\ current_strategy (snd out) = current_strategy lb
  /\ round_robin_index (snd out) = round_robin_index lb
  /\ (session_manager (snd out) = session_manager lb
      \/ exists sid, o = Some sid /\ truthy sid = true
                     /\ session_manager (snd out)
                        = snd (get_session (session_manager lb) sid now)).
Proof.
  unfold _session_aware. destruct available as [| x xs]; [cbn; tauto |].
  destruct o as [sid |]; cbn [truthy_opt]; [| cbn; tauto].
  destruct (truthy sid) eqn:Htr; [| cbn; tauto].
  change (default "" (Some sid)) with sid.
  pose proof (get_instance_for_session_snd (session_manager lb) sid now) as Hsnd.
  destruct (get_instance_for_session (session_manager lb) sid now) as [bound sm'].
  cbn [snd] in Hsnd. subst sm'.
  assert (Hgoal : forall sel : option (nat * Instance (F := F)),
            let out := (sel, with_session_manager lb
                               (snd (get_session (session_manager lb) sid now))) in
            instances (snd out) = instances lb
            /\ regions (snd out) = regions lb
            /\ lb_metrics (snd out) = lb_metrics lb
            /\ current_strategy (snd out) = current_strategy lb
            /\ round_robin_index (snd out) = round_robin_index lb
            /\ (session_manager (snd out) = session_manager lb
                \/ exists sid0, Some sid = Some sid0 /\ truthy sid0 = true
                      /\ session_manager (snd out)
                         = snd (get_session (session_manager lb) sid0 now))).
  { intros sel. cbn. repeat split; try done. right. by exists sid. }
  destruct bound as [iid |]; [| apply Hgoal].
  destruct (if truthy iid then _ else _) as [[r inst] |]; [| apply Hgoal].
  destruct (_ && _); apply Hgoal.
Qed.

Lemma select_instance_frame lb available req env :
  let out := select_instance lb available req env in
  instances (snd out) = instances lb
  /\ regions (snd out) = regions lb
  /\ lb_metrics (snd out) = lb_metrics lb
  /\ current_strategy (snd out) = current_strategy lb
  /\ (session_manager (snd out) = session_manager lb
      \/ exists sid, req_session_id req = Some sid /\ truthy sid = true
                     /\ session_manager (snd out)
                        = snd (get_session (session_manager lb) sid (utcnow env))).
Proof.
  unfold select_instance.
  destruct (String.eqb (current_strategy lb) "geographic"); [cbn; tauto |].
  destruct (String.eqb (current_strategy lb) "session_aware").
  { pose proof (session_aware_frame lb available (req_session_id req) (utcnow env))
      as Hf.
    destruct (_session_aware lb available (req_session_id req) (utcnow env))
      as [sel lb']. cbn [snd] in *. tauto. }
  destruct (String.eqb (current_strategy lb) "round_robin").
  { unfold _round_robin. destruct available; cbn; tauto. }
  destruct (String.eqb (current_strategy lb) "least_connections"); [cbn; tauto |].
  destruct (String.eqb (current_strategy lb) "weighted_round_robin"); [cbn; tauto |].
  pose proof (session_aware_frame lb available None (utcnow env)) as Hf.
  destruct (_session_aware lb available None (utcnow env)) as [sel lb'].
  cbn [snd] in *. destruct Hf as (? & ? & ? & ? & _ & [? | (sid & ? & _)]);
    [tauto | done].
Qed.

(** Every strategy but the geographic one selects an available instance. *)
Lemma select_instance_member lb req env :
  String.eqb (current_strategy lb) "geographic" = false ->
  get_available_instances lb <> [] ->
  exists r inst,
    fst (select_instance lb (get_available_instances lb) req env) = Ok (Some (r, inst))
    /\ In (r, inst) (get_available_instances lb).
Proof.
  intros Hgeo Hne. unfold select_instance. rewrite Hgeo.
  assert (Hleast : exists r inst,
             _least_connections (get_available_instances lb) = Some (r, inst)
             /\ In (r, inst) (get_available_instances lb)).
  { destruct (least_connections_elem _ Hne) as ([r inst] & ? & ?). by exists r, inst. }
  assert (Haware : forall o, exists r inst,
             fst (_session_aware lb (get_available_instances lb) o (utcnow env))
             = Some (r, inst)
             /\ In (r, inst) (get_available_instances lb)).
  { intros o. unfold _session_aware.
    destruct (get_available_instances lb) as [| x xs] eqn:Hav; [done |].
    rewrite <- Hav in *.
    destruct (truthy_opt o); [| exact Hleast].
    destruct (get_instance_for_session _ _ _) as [[iid |] sm']; [| exact Hleast].
    destruct (truthy iid); [| exact Hleast].
    cbn [instances with_session_manager].
    destruct (dict_find (instances lb) iid 0) as [[r inst] |] eqn:Hfind;
      [| exact Hleast].
    destruct (ref_in r _ && _) eqn:Hcond; [| exact Hleast].
    apply andb_true_iff in Hcond as [_ Hh]. apply String.eqb_eq in Hh.
    exists r, inst. split; [done |].
    destruct (dict_find_lookup _ _ _ _ _ Hfind) as [Hlook _].
    rewrite Nat.sub_0_r in Hlook.
    unfold get_available_instances. apply filter_In. split.
    - apply (values_from_lookup 0 _ r iid inst Hlook).
    - apply is_available_spec. by left. }
  destruct (String.eqb (current_strategy lb) "session_aware").
  { destruct (Haware (req_session_id req)) as (r & inst & Hsel & Hin).
    destruct (_session_aware lb _ (req_session_id req) (utcnow env)) as [sel lb'].
    cbn [fst] in *. subst sel. by exists r, inst. }
  destruct (String.eqb (current_strategy lb) "round_robin").
  { destruct (round_robin_member lb _ Hne) as ([r inst] & -> & _ & Hin).
    by exists r, inst. }
  destruct (String.eqb (current_strategy lb) "least_connections").
  { destruct Hleast as (r & inst & -> & Hin). by exists r, inst. }
  destruct (String.eqb (current_strategy lb) "weighted_round_robin").
  { destruct (weighted_round_robin_member _ (random_uniform env) Hne)
      as ([r inst] & -> & Hin). by exists r, inst. }
  destruct (Haware None) as (r & inst & Hsel & Hin).
  destruct (_session_aware lb _ None (utcnow env)) as [sel lb'].
  cbn [fst] in *. subst sel. by exists r, inst.
Qed.

(** *** [route_call] as a whole *)

(** A success comes from a selection followed by the served statements. *)
Lemma route_call_success_inv lb req env env' routed lb' :
  route_call lb req env env' = (Success routed, lb') ->
  exists r inst lb1,
    select_instance lb (get_available_instances lb) req env
    = (Ok (Some (r, inst)), lb1)
    /\ serve lb1 r inst req env env' = (Ok routed, lb').
Proof.
  unfold route_call, route_call_try.
  destruct (negb (nonempty (get_available_instances lb))); [discriminate |].
  destruct (select_instance lb (get_available_instances lb) req env)
    as [[[[r inst] |] | e] lb1]; [| discriminate | discriminate].
  destruct (serve lb1 r inst req env env') as [[routed0 | e] lb2] eqn:Hserve;
    [| discriminate].
  intros [= <- <-]. by exists r, inst, lb1.
Qed.

Lemma keys_shape d d' :
  fleet_shape d' = fleet_shape d -> map fst d' = map fst d.
Proof.
  revert d. induction d' as [| [k' v'] d' IH]; intros [| [k v] d] Heq; try done.
  injection Heq as -> _ _ _ Hrest. cbn [map fst]. f_equal. by apply IH.
Qed.

Lemma wf_instances_shape lb lb' :
  fleet_shape (instances lb') = fleet_shape (instances lb) ->
  wf_instances lb -> wf_instances lb'.
Proof.
  intros Hs [Hnd Hk]. split; [by rewrite (keys_shape _ _ Hs) | by eapply keyed_shape].
Qed.

Lemma route_call_frame_all lb req env env' :
  let lb' := snd (route_call lb req env env') in
  fleet_shape (instances lb') = fleet_shape (instances lb)
  /\ regions lb' = regions lb
  /\ current_strategy lb' = current_strategy lb
  /\ (forall k, is_Some (requests_per_region (lb_metrics lb) !! k) ->
                is_Some (requests_per_region (lb_metrics lb') !! k)).
Proof.
  unfold route_call, route_call_try.
  destruct (negb (nonempty (get_available_instances lb))); [by cbn |].
  pose proof (select_instance_frame lb (get_available_instances lb) req env) as Hsel.
  destruct (select_instance lb (get_available_instances lb) req env) as [sel lb1].
  cbn [snd] in Hsel. destruct Hsel as (Hi & Hr & Hm & Hs & _).
  destruct sel as [[[r inst] |] | e];
    [| cbn; rewrite Hi, Hr, Hs, Hm; by repeat split
     | cbn; rewrite Hi, Hr, Hs, Hm; by repeat split].
  pose proof (serve_frame lb1 r inst req env env') as Hserve. cbn zeta in Hserve.
  destruct (serve lb1 r inst req env env') as [[routed | e] lb2];
    cbn [fst snd] in Hserve; destruct Hserve as (Hr2 & Hs2 & _ & Hsh2 & Hdom2 & _);
    cbn [snd instances regions current_strategy lb_metrics requests_per_region
         with_metrics with_regions_metrics set_error_rate];
    rewrite Hsh2, Hr2, Hs2, Hi, Hr, Hs; (repeat split; [done .. |]);
    intros k Hk; apply Hdom2; by rewrite Hm.
Qed.

(** X12.  [route_call] routes and counts; it never changes the fleet map.
    Whatever it returns, every instance keeps its key, id, region and health
    status, the regions, the strategy and the order of the available
    instances stay as they were, and the two invariants of a balancer built
    with [add_region] and [add_instance] are kept: unique keys that are the
    instances' ids, and a request counter for every registered region. *)
Theorem route_call_keeps_fleet lb req env env' :
  let lb' := snd (route_call lb req env env') in
  fleet_shape (instances lb') = fleet_shape (instances lb)
  /\ regions lb' = regions lb
  /\ current_strategy lb' = current_strategy lb
  /\ available_ids lb' = available_ids lb
  /\ (wf_instances lb -> wf_instances lb')
  /\ (counters_ok lb -> counters_ok lb').
Proof.
  intros lb'. destruct (route_call_frame_all lb req env env') as (Hsh & Hr & Hs & Hdom).
  fold lb' in Hsh, Hr, Hs, Hdom.
  split; [exact Hsh |]. split; [exact Hr |]. split; [exact Hs |].
  split; [by apply available_ids_shape |].
  split; [by apply wf_instances_shape |].
  intros Hok k region Hk. apply Hdom. rewrite Hr in Hk. by eapply Hok.
Qed.

(** X13.  [route_call] fails only for want of an instance, under the
    geographic strategy, or on a missing region counter: with any other
    strategy name, at least one available instance and a counter for every
    registered region, it returns a route to one of the available
    instances. *)
Theorem route_call_succeeds lb req env env' :
  current_strategy lb <> "geographic" ->
  counters_ok lb ->
  get_available_instances lb <> [] ->
  exists routed lb' r inst,
    route_call lb req env env' = (Success routed, lb')
    /\ In (r, inst) (get_available_instances lb)
    /\ ok_instance_id routed = instance_id inst
    /\ ok_region_id routed = region_id inst
    /\ ok_strategy_used routed = current_strategy lb.
Proof.
  intros Hgeo Hcount Hne.
  assert (Hgeo' : String.eqb (current_strategy lb) "geographic" = false)
    by (by apply String.eqb_neq).
  destruct (select_instance_member lb req env Hgeo' Hne) as (r & inst & Hsel & Hin).
  pose proof (select_instance_frame lb (get_available_instances lb) req env) as Hf.
  unfold route_call, route_call_try.
  destruct (get_available_instances lb) as [| x xs] eqn:Hav; [done |].
  cbn [nonempty negb]. rewrite <- Hav in *.
  destruct (select_instance lb (get_available_instances lb) req env) as [sel lb1].
  cbn [fst snd] in *. subst sel. destruct Hf as (_ & Hr & Hm & Hs & _).
  pose proof (serve_frame lb1 r inst req env env') as Hframe. cbn zeta in Hframe.
  destruct (serve_ok lb1 r inst req env env') as (routed & lb' & Hserve & _).
  { intros region Hregion. rewrite Hm. rewrite Hr in Hregion. by eapply Hcount. }
  rewrite Hserve in Hframe |- *. cbn [fst snd] in Hframe.
  destruct Hframe as (_ & _ & _ & _ & _ & _ & _ & Hid & Hrid & _ & Hst & _).
  exists routed, lb', r, inst. repeat split; try done. by rewrite Hst.
Qed.

(** X14.  The geographic strategy cannot route to an instance of a
    registered region: as soon as one available instance has its region in
    [regions], [_geographic] uses the instance as a dictionary key, which an
    [Instance] cannot be, and [route_call] returns the failure
    "unhashable type: 'Instance'".  Nothing but the error rate changes.
    Only when no available instance has a registered region is the first
    available instance selected. *)
Theorem geographic_routing_fails lb req env env' :
  current_strategy lb = "geographic" ->
  (exists r inst region,
      In (r, inst) (get_available_instances lb)
      /\ regions lb !! region_id inst = Some region) ->
  route_call lb req env env'
  = (Failure "unhashable type: 'Instance'" (elapsed_ms env),
     with_metrics lb
       (set_error_rate (lb_metrics lb)
          (pymin2 (of_Q 1) (fadd (error_rate (lb_metrics lb)) (of_Q (1 # 100)))))).
Proof.
  intros Hstrat (r & inst & region & Hin & Hreg).
  unfold route_call, route_call_try, select_instance, _geographic.
  rewrite Hstrat. cbn [String.eqb Ascii.eqb Bool.eqb andb].
  destruct (get_available_instances lb) as [| x xs] eqn:Hav; [done |].
  cbn [nonempty negb]. rewrite <- Hav in *.
  assert (Hex : existsb
                  (fun ri : nat * Instance =>
                     bool_decide (is_Some (regions lb !! region_id (snd ri))))
                  (get_available_instances lb) = true).
  { apply existsb_exists. exists (r, inst). split; [exact Hin |].
    apply bool_decide_eq_true. cbn [snd]. by rewrite Hreg. }
  rewrite Hex. reflexivity.
Qed.

(** X15.  A session id that the store does not know is echoed, not
    registered: when a request carries such an id and the call succeeds,
    under any strategy, the result names that id and the session store is
    left exactly as it was, so the next call with the same id finds no
    session either. *)
Theorem unknown_session_not_stored lb req env env' sid routed lb' :
  req_session_id req = Some sid ->
  sid <> "" ->
  sessions (session_manager lb) !! sid = None ->
  route_call lb req env env' = (Success routed, lb') ->
  ok_session_id routed = sid
  /\ session_manager lb' = session_manager lb
  /\ binding lb' sid = None.
Proof.
  intros Hreq Hsid Hmissing Hcall.
  destruct (route_call_success_inv _ _ _ _ _ _ Hcall) as (r & inst & lb1 & Hsel & Hserve).
  pose proof (select_instance_frame lb (get_available_instances lb) req env) as Hf.
  rewrite Hsel in Hf. cbn [snd] in Hf. destruct Hf as (_ & _ & _ & _ & Hsm).
  assert (Hsm1 : session_manager lb1 = session_manager lb).
  { destruct Hsm as [? | (sid' & Hsid' & _ & Hsm)]; [done |].
    rewrite Hreq in Hsid'. injection Hsid' as <-. rewrite Hsm.
    unfold get_session. by rewrite Hmissing. }
  pose proof (serve_frame lb1 r inst req env env') as Hframe. cbn zeta in Hframe.
  rewrite Hserve in Hframe. cbn [fst snd] in Hframe.
  destruct Hframe as (_ & _ & _ & _ & _ & _ & _ & _ & _ & Hs & _ & Hupd & _).
  unfold served_session in Hs, Hupd. rewrite Hreq in Hs, Hupd.
  cbn [truthy_opt] in Hs, Hupd. rewrite (truthy_nonempty sid Hsid) in Hs, Hupd.
  change (default "" (Some sid)) with sid in Hs, Hupd. cbn [fst snd] in Hs, Hupd.
  assert (Hlb' : session_manager lb' = session_manager lb).
  { rewrite Hupd, Hsm1. unfold update_session. by rewrite Hmissing. }
  split; [exact Hs |]. split; [exact Hlb' |].
  unfold binding. by rewrite Hlb', Hmissing.
Qed.

(** X16.  A request without session id gets a new session under every
    strategy: after a successful call the store holds, under the returned id
    ["session-" + hex], a session bound to the routed instance, created at
    the instant of the dispatch, last active at the instant of the
    completion, with the two turns of the exchange as its history; every
    other session is as before. *)
Theorem route_call_creates_session lb req env env' routed lb' :
  truthy_opt (req_session_id req) = false ->
  route_call lb req env env' = (Success routed, lb') ->
  ok_session_id routed = "session-" +:+ uuid_hex8 env
  /\ sessions (session_manager lb')
     = <[ok_session_id routed :=
           {| session_id := ok_session_id routed;
              s_call_id := call_id req; s_user_id := user_id req;
              s_instance_id := ok_instance_id routed;
              created_at := utcnow env; last_activity := utcnow env';
              context := [];
              conversation_history :=
                [ {| role := "user"; text := "Hello";
                     turn_timestamp := utcnow env' |};
                  {| role := "assistant"; text := "How can I help you?";
                     turn_timestamp := utcnow env' |} ] |}]>
         (sessions (session_manager lb))
  /\ session_timeout (session_manager lb') = session_timeout (session_manager lb).
Proof.
  intros Hnosid Hcall.
  destruct (route_call_success_inv _ _ _ _ _ _ Hcall) as (r & inst & lb1 & Hsel & Hserve).
  pose proof (select_instance_frame lb (get_available_instances lb) req env) as Hf.
  rewrite Hsel in Hf. cbn [snd] in Hf. destruct Hf as (_ & _ & _ & _ & Hsm).
  assert (Hsm1 : session_manager lb1 = session_manager lb).
  { destruct Hsm as [? | (sid' & Hsid' & Htr & _)]; [done |].
    rewrite Hsid' in Hnosid. cbn [truthy_opt] in Hnosid. congruence. }
  pose proof (serve_frame lb1 r inst req env env') as Hframe. cbn zeta in Hframe.
  rewrite Hserve in Hframe. cbn [fst snd] in Hframe.
  destruct Hframe as (_ & _ & _ & _ & _ & _ & _ & Hid & _ & Hs & _ & Hupd & _).
  unfold served_session in Hs, Hupd. rewrite Hnosid in Hs, Hupd.
  unfold create_session in Hs, Hupd. cbn [fst snd] in Hs, Hupd.
  split; [exact Hs |]. rewrite Hupd, Hs, Hid, Hsm1. unfold update_session.
  cbn [sessions with_sessions session_timeout]. rewrite lookup_insert_eq.
  cbn [sessions with_sessions session_timeout]. rewrite insert_insert_eq.
  split; reflexivity.
Qed.

(** X17.  The request counters of a successful call: [total_requests] grows
    by one, the counter of the routed instance's region grows by one when
    that region is registered, no other counter moves, and the error rate is
    left as it was (no success ever lowers it). *)
Theorem route_call_counts lb req env env' routed lb' :
  route_call lb req env env' = (Success routed, lb') ->
  total_requests (lb_metrics lb') = total_requests (lb_metrics lb) + 1
  /\ error_rate (lb_metrics lb') = error_rate (lb_metrics lb)
  /\ requests_per_region (lb_metrics lb')
     = match regions lb !! ok_region_id routed with
       | Some region =>
           alter (Z.add 1) (r_region_id region) (requests_per_region (lb_metrics lb))
       | None => requests_per_region (lb_metrics lb)
       end.
Proof.
  intros Hcall.
  destruct (route_call_success_inv _ _ _ _ _ _ Hcall) as (r & inst & lb1 & Hsel & Hserve).
  pose proof (select_instance_frame lb (get_available_instances lb) req env) as Hf.
  rewrite Hsel in Hf. cbn [snd] in Hf. destruct Hf as (_ & Hr & Hm & _).
  pose proof (serve_frame lb1 r inst req env env') as Hframe. cbn zeta in Hframe.
  rewrite Hserve in Hframe. cbn [fst snd] in Hframe.
  destruct Hframe as (_ & _ & _ & _ & _ & He & Ht & _ & Hrid & _ & _ & _ & Hc).
  rewrite Ht, He, Hc, Hrid, Hm, Hr. done.
Qed.

(** X18.  On the path without exception the connection count is released:
    when no count is negative, a successful [route_call] leaves every
    instance exactly as it found it, so the sum of [current_connections] is
    the same before and after. *)
Theorem route_call_restores_connections lb req env env' routed lb' :
  Forall (fun kv => 0 <= current_connections (snd kv)) (instances lb) ->
  route_call lb req env env' = (Success routed, lb') ->
  instances lb' = instances lb
  /\ total_connections lb' = total_connections lb.
Proof.
  intros Hall Hcall.
  destruct (route_call_success_inv _ _ _ _ _ _ Hcall) as (r & inst & lb1 & Hsel & Hserve).
  pose proof (select_instance_frame lb (get_available_instances lb) req env) as Hf.
  rewrite Hsel in Hf. cbn [snd] in Hf. destruct Hf as (Hi & _).
  assert (Heq : instances lb' = instances lb).
  { rewrite <- Hi. eapply serve_success_instances; [by rewrite Hi | exact Hserve]. }
  split; [exact Heq |]. unfold total_connections. by rewrite Heq.
Qed.

(** *** The session manager *)

(** X19.  A created session can be looked up: [create_session] returns the
    id ["session-" + hex], and until [session_timeout] has passed
    [get_instance_for_session] on that id returns the instance given at
    creation.  The sessions stored under other ids are untouched; a session
    already stored under the new id is replaced. *)
Theorem create_session_then_lookup sm (call user inst : string) (now : Z)
    (hex : string) (now' : Z) :
  now' - now < timedelta_seconds (session_timeout sm) ->
  let sid := fst (create_session sm call user inst now hex) in
  let sm' := snd (create_session sm call user inst now hex) in
  sid = "session-" +:+ hex
  /\ fst (get_instance_for_session sm' sid now') = Some inst
  /\ (s_call_id <$> fst (get_session sm' sid now')) = Some call
  /\ forall other, other <> sid -> sessions sm' !! other = sessions sm !! other.
Proof.
  intros Hlive sid sm'. subst sid sm'. unfold create_session. cbn [fst snd].
  set (sid := "session-" +:+ hex). set (session := {| session_id := sid |}).
  set (sm' := with_sessions sm _).
  assert (Hs : sessions sm' !! sid = Some session) by apply lookup_insert_eq.
  assert (Hl : now' - last_activity session < timedelta_seconds (session_timeout sm'))
    by exact Hlive.
  split; [done |]. unfold get_instance_for_session.
  rewrite (get_session_alive sm' sid session now' Hs Hl). cbn.
  repeat split. intros other Hne. by rewrite lookup_insert_ne.
Qed.

(** X20.  [update_session] does not look at the age of a session: on a
    stored session it applies the updates and sets [last_activity] to the
    instant of the update, however long the session has been expired, and a
    lookup within [session_timeout] of the update finds the session again.
    On an id that is not stored it does nothing. *)
Theorem update_session_revives sm sid s (updates : list SessionUpdate) (now now' : Z) :
  sessions sm !! sid = Some s ->
  now' - now < timedelta_seconds (session_timeout sm) ->
  (exists s',
      sessions (update_session sm sid updates now) !! sid = Some s'
      /\ last_activity s' = now
      /\ fst (get_session (update_session sm sid updates now) sid now')
         = Some (touch s' now'))
  /\ (forall other, other <> sid ->
         sessions (update_session sm sid updates now) !! other = sessions sm !! other)
  /\ (forall missing, sessions sm !! missing = None ->
         update_session sm missing updates now = sm).
Proof.
  intros Hs Hlive. split; [| split].
  - unfold update_session. rewrite Hs.
    set (s' := touch (fold_left apply_update updates s) now).
    set (sm' := with_sessions sm _).
    assert (Hs' : sessions sm' !! sid = Some s') by apply lookup_insert_eq.
    exists s'. split; [exact Hs' |]. split; [reflexivity |].
    by rewrite (get_session_alive sm' sid s' now' Hs' Hlive).
  - intros other Hne. unfold update_session. rewrite Hs.
    cbn [sessions with_sessions]. by rewrite lookup_insert_ne.
  - intros missing Hm. unfold update_session. by rewrite Hm.
Qed.

(** X21.  [cleanup_expired_sessions] deletes exactly the sessions whose last
    activity is more than [session_timeout] old and keeps every other one
    unchanged; a second clean-up at the same instant changes nothing. *)
Theorem cleanup_expired_sessions_spec sm (now : Z) sid :
  sessions (cleanup_expired_sessions sm now) !! sid
  = match sessions sm !! sid with
    | Some s =>
        if bool_decide (timedelta_seconds (session_timeout sm) < now - last_activity s)
        then None else Some s
    | None => None
    end
  /\ cleanup_expired_sessions (cleanup_expired_sessions sm now) now
     = cleanup_expired_sessions sm now
  /\ session_timeout (cleanup_expired_sessions sm now) = session_timeout sm.
Proof.
  unfold cleanup_expired_sessions. cbn [sessions with_sessions session_timeout].
  split; [| split; [| done]].
  - rewrite map_lookup_filter. destruct (sessions sm !! sid) as [s |]; [| done].
    cbn. case_bool_decide as Hexp; cbn [snd] in *.
    + by rewrite option_guard_False by tauto.
    + by rewrite option_guard_True.
  - unfold with_sessions. cbn [sessions session_timeout sticky_session_enabled].
    f_equal. rewrite map_filter_filter. apply map_filter_ext.
    intros k s _. cbn. tauto.
Qed.

(** X22.  The two expiry tests disagree on the boundary: a session whose last
    activity is exactly [session_timeout] old is refused by [get_session]
    (which wants strictly less) and kept by [cleanup_expired_sessions] (which
    deletes strictly more); it stays in the store, and in the session count,
    without being readable. *)
Theorem session_at_timeout_boundary sm sid s (now : Z) :
  sessions sm !! sid = Some s ->
  now - last_activity s = timedelta_seconds (session_timeout sm) ->
  fst (get_session sm sid now) = None
  /\ fst (get_instance_for_session sm sid now) = None
  /\ sessions (cleanup_expired_sessions sm now) !! sid = Some s
  /\ 1 <= fst (fst (get_session_stats sm now)).
Proof.
  intros Hs Hage.
  assert (Hg : get_session sm sid now = (None, sm))
    by (eapply get_session_expired; [eassumption | lia]).
  assert (Hkept : sessions (cleanup_expired_sessions sm now) !! sid = Some s).
  { unfold cleanup_expired_sessions. cbn [sessions with_sessions].
    apply map_lookup_filter_Some. split; [done |]. cbn [snd]. lia. }
  unfold get_instance_for_session. rewrite Hg. cbn [fst].
  repeat split; try done.
  unfold get_session_stats. cbn [fst].
  destruct (decide (size (sessions (cleanup_expired_sessions sm now)) = 0%nat))
    as [Hz | Hnz]; [| lia].
  apply map_size_empty_iff in Hz. rewrite Hz in Hkept. by rewrite lookup_empty in Hkept.
Qed.

(** *** The health checker and the metrics report *)

Lemma status_of_score_cases (x : F) :
  status_of_score x = "healthy" \/ status_of_score x = "degraded"
  \/ status_of_score x = "unhealthy".
Proof. unfold status_of_score. destruct (fgt _ _); [| destruct (fgt _ _)]; tauto. Qed.

Lemma is_available_status inst (status : string) (now : Z) :
  status = "healthy" \/ status = "degraded" \/ status = "unhealthy" ->
  negb (String.eqb status "unhealthy")
  = is_available (set_instance_health inst status now).
Proof. intros [-> | [-> | ->]]; reflexivity. Qed.

Lemma check_instance_health_frame inst (jitter : F) (now : Z) :
  let out := check_instance_health inst jitter now in
  fst out = is_available (snd out)
  /\ (health_status (snd out) = "healthy" \/ health_status (snd out) = "degraded"
      \/ health_status (snd out) = "unhealthy")
  /\ last_health_check (snd out) = now
  /\ instance_id (snd out) = instance_id inst
  /\ region_id (snd out) = region_id inst
  /\ current_connections (snd out) = current_connections inst
  /\ max_connections (snd out) = max_connections inst
  /\ cpu_utilization (snd out) = cpu_utilization inst
  /\ memory_utilization (snd out) = memory_utilization inst.
Proof.
  unfold check_instance_health. cbn zeta. cbn [fst snd].
  match goal with
  | |- context [status_of_score ?x] =>
      pose proof (status_of_score_cases x) as Hc; set (status := status_of_score x) in *
  end.
  split; [by apply is_available_status |]. repeat split; try done.
Qed.

(** X23.  The flag of a health check is the routing eligibility it leaves
    behind: [check_instance_health] sets the status to healthy, degraded or
    unhealthy, returns [True] exactly when the instance is then one that
    [get_available_instances] lists, stamps [last_health_check], and changes
    no other field of the instance. *)
Theorem check_instance_health_routable inst (jitter : F) (now : Z) :
  let out := check_instance_health inst jitter now in
  fst out = is_available (snd out)
  /\ (health_status (snd out) = "healthy" \/ health_status (snd out) = "degraded"
      \/ health_status (snd out) = "unhealthy")
  /\ last_health_check (snd out) = now
  /\ instance_id (snd out) = instance_id inst
  /\ region_id (snd out) = region_id inst
  /\ current_connections (snd out) = current_connections inst
  /\ max_connections (snd out) = max_connections inst
  /\ cpu_utilization (snd out) = cpu_utilization inst
  /\ memory_utilization (snd out) = memory_utilization inst.
Proof. apply check_instance_health_frame. Qed.

Lemma imap_keys d (g : nat -> Instance (F := F) -> Instance (F := F)) :
  map fst (imap (fun i kv => (fst kv, g i (snd kv))) d) = map fst d.
Proof.
  revert g. induction d as [| [k v] d IH]; intros g; [done |].
  cbn [imap map fst]. f_equal. apply (IH (fun i => g (S i))).
Qed.

Lemma imap_keyed d (g : nat -> Instance (F := F) -> Instance (F := F)) :
  (forall i v, instance_id (g i v) = instance_id v) ->
  keyed d -> keyed (imap (fun i kv => (fst kv, g i (snd kv))) d).
Proof.
  revert g. unfold keyed. induction d as [| [k v] d IH]; intros g Hg Hk; [done |].
  apply Forall_cons in Hk as [Hkv Hk]. cbn [imap]. constructor.
  - cbn [fst snd] in *. by rewrite Hg.
  - apply (IH (fun i => g (S i))); [intros i w; apply Hg | exact Hk].
Qed.

Lemma ref_in_available lb r k inst :
  instances lb !! r = Some (k, inst) ->
  ref_in r (get_available_instances lb) = is_available inst.
Proof.
  intros Hr. destruct (is_available inst) eqn:Hav.
  - by eapply available_of_lookup.
  - destruct (ref_in r (get_available_instances lb)) eqn:Href; [| done].
    unfold ref_in in Href. apply existsb_exists in Href as ([r' inst'] & Hin & Heq).
    apply Nat.eqb_eq in Heq. cbn [fst] in Heq. subst r'.
    destruct (available_elem lb r inst' Hin) as (Hav' & k' & Hk').
    rewrite Hr in Hk'. injection Hk' as _ <-. congruence.
Qed.

Lemma health_checks_wf lb
    (region_probe : string -> F * Z) (instance_probe : nat -> F * Z) :
  wf_instances lb ->
  wf_instances (perform_health_checks lb region_probe instance_probe).
Proof.
  intros [Hnd Hk]. unfold perform_health_checks.
  set (g := fun (i : nat) (v : Instance (F := F)) =>
              snd (check_instance_health v (fst (instance_probe i))
                     (snd (instance_probe i)))).
  split; cbn [instances].
  - by rewrite (imap_keys _ g).
  - apply (imap_keyed _ g); [| exact Hk]. intros i v. unfold g.
    by destruct (check_instance_health_frame v (fst (instance_probe i))
                   (snd (instance_probe i))) as (_ & _ & _ & -> & _).
Qed.

(** X24.  After [perform_health_checks] routing sees exactly the instances
    whose check returned [True]: the instance at each position of the
    dictionary is available afterwards if and only if its
    [check_instance_health] returned [True].  The round keeps every key and
    id, and with them the well-formedness of the dictionary, and touches
    neither the sessions nor the metrics nor the strategy nor the cursor. *)
Theorem health_checks_decide_availability lb
    (region_probe : string -> F * Z) (instance_probe : nat -> F * Z) :
  let lb' := perform_health_checks lb region_probe instance_probe in
  (forall i k inst,
      instances lb !! i = Some (k, inst) ->
      ref_in i (get_available_instances lb')
      = fst (check_instance_health inst (fst (instance_probe i))
               (snd (instance_probe i))))
  /\ map fst (instances lb') = map fst (instances lb)
  /\ (wf_instances lb -> wf_instances lb')
  /\ session_manager lb' = session_manager lb
  /\ lb_metrics lb' = lb_metrics lb
  /\ current_strategy lb' = current_strategy lb
  /\ round_robin_index lb' = round_robin_index lb.
Proof.
  intros lb'. subst lb'. unfold perform_health_checks.
  set (g := fun (i : nat) (v : Instance (F := F)) =>
              snd (check_instance_health v (fst (instance_probe i))
                     (snd (instance_probe i)))).
  split; [| split; [| split]]; try done.
  - intros i k inst Hi.
    erewrite ref_in_available.
    2:{ cbn [instances]. rewrite list_lookup_imap, Hi. reflexivity. }
    by destruct (check_instance_health_frame inst (fst (instance_probe i))
                   (snd (instance_probe i))) as [-> _].
  - apply (imap_keys _ g).
  - intros [Hnd Hk]. split; cbn [instances].
    + by rewrite (imap_keys _ g).
    + apply (imap_keyed _ g); [| exact Hk]. intros i v. unfold g.
      by destruct (check_instance_health_frame v (fst (instance_probe i))
                     (snd (instance_probe i))) as (_ & _ & _ & -> & _).
Qed.

Lemma filter_length_mono {A : Type} (p q : A -> bool) (l : list A) :
  (forall x, p x = true -> q x = true) ->
  (length (List.filter p l) <= length (List.filter q l) <= length l)%nat.
Proof.
  intros Hpq. induction l as [| x l IH]; cbn [List.filter length]; [lia |].
  destruct (p x) eqn:Hp.
  - rewrite (Hpq x Hp). cbn [length]. lia.
  - destruct (q x); cbn [length]; lia.
Qed.

Lemma available_count i d :
  length (List.filter (fun ri => is_available (snd ri)) (values_from i d))
  = length (List.filter (fun kv => is_available (snd kv)) d).
Proof.
  revert i. induction d as [| [k v] d IH]; intros i; [done |].
  cbn [values_from List.filter snd]. destruct (is_available v); cbn [length];
    by rewrite IH.
Qed.

Lemma get_metrics_frame lb (now : Z) :
  session_manager (snd (get_metrics lb now))
  = cleanup_expired_sessions (session_manager lb) now
  /\ instances (snd (get_metrics lb now)) = instances lb
  /\ regions (snd (get_metrics lb now)) = regions lb
  /\ lb_metrics (snd (get_metrics lb now)) = lb_metrics lb
  /\ current_strategy (snd (get_metrics lb now)) = current_strategy lb
  /\ round_robin_index (snd (get_metrics lb now)) = round_robin_index lb.
Proof. unfold get_metrics, get_session_stats. cbn. done. Qed.

(** X25.  [get_metrics] is not a pure read: it runs the clean-up, so the
    session store it leaves is the store without the expired sessions, and
    nothing else of the balancer changes.  In its report
    [active_sessions <= total_sessions], and [healthy_instances] counts the
    instances whose status is exactly healthy, which is at most the number
    of instances routing can use (degraded ones included) and at most
    [total_instances]. *)
Theorem get_metrics_report lb (now : Z) :
  let report := fst (get_metrics lb now) in
  let lb' := snd (get_metrics lb now) in
  session_manager lb' = cleanup_expired_sessions (session_manager lb) now
  /\ instances lb' = instances lb
  /\ regions lb' = regions lb
  /\ lb_metrics lb' = lb_metrics lb
  /\ current_strategy lb' = current_strategy lb
  /\ rep_total_sessions report = Z.of_nat (size (sessions (session_manager lb')))
  /\ 0 <= rep_active_sessions report <= rep_total_sessions report
  /\ rep_healthy_instances report <= Z.of_nat (length (get_available_instances lb))
  /\ Z.of_nat (length (get_available_instances lb)) <= rep_total_instances report
  /\ rep_requests_per_region report = requests_per_region (lb_metrics lb).
Proof.
  intros report lb'. subst report lb'.
  destruct (get_metrics_frame lb now) as (Hsm & Hi & Hr & Hm & Hs & _).
  do 5 (split; [done |]). unfold get_metrics, get_session_stats. cbn [fst snd].
  cbn [rep_total_sessions rep_active_sessions rep_healthy_instances
       rep_total_instances rep_requests_per_region session_manager
       with_session_manager].
  split; [done |]. split.
  - split; [lia |]. apply Nat2Z.inj_le, map_subseteq_size, map_filter_subseteq.
  - unfold get_available_instances. rewrite available_count.
    pose proof (filter_length_mono
                  (fun kv : string * Instance => String.eqb (health_status (snd kv)) "healthy")
                  (fun kv : string * Instance => is_available (snd kv))
                  (instances lb)) as Hmono.
    destruct Hmono as [H1 H2].
    { intros [k v] Hh. cbn [snd] in *. unfold is_available. by rewrite Hh. }
    repeat split; [lia | lia].
Qed.

(** *** Registration *)

Lemma dict_set_find {V : Type} (l : list (string * V)) (k : string) (v : V) (i : nat) :
  exists r,
    dict_find (dict_set l k v) k i = Some (r, v)
    /\ match dict_find l k i with
       | Some (r0, _) => r = r0 /\ length (dict_set l k v) = length l
       | None => r = (i + length l)%nat /\ length (dict_set l k v) = S (length l)
       end.
Proof.
  revert i. induction l as [| [k' v'] l IH]; intros i; cbn [dict_set dict_find].
  - rewrite String.eqb_refl. exists i. split; [done |]. cbn. split; [lia | done].
  - destruct (String.eqb_spec k' k) as [-> | Hne]; cbn [dict_find].
    + rewrite String.eqb_refl. exists i. by repeat split.
    + destruct (String.eqb_spec k' k) as [? | _]; [done |].
      destruct (IH (S i)) as (r & Hr & Hcase). exists r. split; [exact Hr |].
      destruct (dict_find l k (S i)) as [[r0 v0] |]; cbn [length];
        destruct Hcase as [-> Hlen]; split; lia.
Qed.

Lemma dict_set_find_ne {V : Type} (l : list (string * V)) (k k' : string) (v : V)
    (i : nat) :
  k' <> k -> dict_find (dict_set l k v) k' i = dict_find l k' i.
Proof.
  intros Hne. revert i. induction l as [| [k0 v0] l IH]; intros i;
    cbn [dict_set dict_find].
  - by destruct (String.eqb_spec k k').
  - destruct (String.eqb_spec k0 k) as [-> | Hne0]; cbn [dict_find].
    + destruct (String.eqb_spec k k'); [congruence | done].
    + destruct (String.eqb_spec k0 k'); [done | apply IH].
Qed.

(** X27.  Registration replaces in place.  [add_instance] stores the
    instance under its id: an id that is already a key keeps its position in
    the dictionary, and so in the order of the available list, and the
    number of instances stays the same, while a new id goes last; no other
    key is affected.  [add_region] stores the region and sets its request
    counter to 0, also for a region that was registered before, whose count
    is lost; no other region or counter is affected. *)
Theorem registration_replaces lb (region : Region) inst :
  (exists r,
      dict_find (instances (add_instance lb inst)) (instance_id inst) 0 = Some (r, inst)
      /\ match dict_find (instances lb) (instance_id inst) 0 with
         | Some (r0, _) =>
             r = r0 /\ length (instances (add_instance lb inst))
                       = length (instances lb)
         | None =>
             r = length (instances lb)
             /\ length (instances (add_instance lb inst))
                = S (length (instances lb))
         end)
  /\ (forall k, k <> instance_id inst ->
         dict_find (instances (add_instance lb inst)) k 0
         = dict_find (instances lb) k 0)
  /\ regions (add_region lb region) !! r_region_id region = Some region
  /\ requests_per_region (lb_metrics (add_region lb region)) !! r_region_id region
     = Some 0
  /\ (forall k, k <> r_region_id region ->
         regions (add_region lb region) !! k = regions lb !! k
         /\ requests_per_region (lb_metrics (add_region lb region)) !! k
            = requests_per_region (lb_metrics lb) !! k).
Proof.
  split; [| split; [| split; [| split]]].
  - unfold add_instance. cbn [instances with_instances].
    destruct (dict_set_find (instances lb) (instance_id inst) inst 0)
      as (r & Hr & Hcase).
    exists r. split; [exact Hr |].
    destruct (dict_find (instances lb) (instance_id inst) 0) as [[r0 v0] |];
      destruct Hcase as [-> Hlen]; split; (done || lia).
  - intros k Hk. unfold add_instance. cbn [instances with_instances].
    by apply dict_set_find_ne.
  - unfold add_region. cbn. apply lookup_insert_eq.
  - unfold add_region. cbn. apply lookup_insert_eq.
  - intros k Hk. unfold add_region. cbn. by rewrite !lookup_insert_ne.
Qed.

(** *** The invariants of every reachable balancer *)

Lemma counters_ok_health_checks lb
    (region_probe : string -> F * Z) (instance_probe : nat -> F * Z) :
  counters_ok lb ->
  counters_ok (perform_health_checks lb region_probe instance_probe).
Proof.
  intros Hok k region Hk. unfold perform_health_checks in *.
  cbn [regions lb_metrics] in *. rewrite map_lookup_imap in Hk.
  destruct (regions lb !! k) as [region0 |] eqn:Hk0; [| done].
  cbn in Hk. injection Hk as <-. cbn [r_region_id set_region_health snd
    check_region_health]. by eapply Hok.
Qed.

Lemma apply_operation_invariants lb (op : Operation) :
  wf_instances lb /\ counters_ok lb ->
  wf_instances (apply_operation lb op) /\ counters_ok (apply_operation lb op).
Proof.
  intros [Hwf Hok]. destruct op as [region | inst | req env env' | rp ip | now | st];
    cbn [apply_operation].
  - split; [exact Hwf | by apply counters_ok_add_region].
  - split; [by apply wf_instances_add_instance | by apply counters_ok_add_instance].
  - destruct (route_call_frame_all lb req env env') as (Hsh & Hr & _ & Hdom).
    split; [by eapply wf_instances_shape |].
    intros k region Hk. apply Hdom. rewrite Hr in Hk. by eapply Hok.
  - split; [| by apply counters_ok_health_checks].
    by apply (health_checks_wf lb rp ip).
  - destruct (get_metrics_frame lb now) as (_ & Hi & Hr & Hm & _).
    split.
    + destruct Hwf as [Hnd Hk]. split; by rewrite Hi.
    + intros k region Hk. rewrite Hm. rewrite Hr in Hk. by eapply Hok.
  - split; [exact Hwf | exact Hok].
Qed.

(** X26.  The two invariants the routing properties assume hold in every
    balancer a user can reach: starting from [GlobalLoadBalancer()], after
    any sequence of [add_region], [add_instance], [route_call],
    [perform_health_checks], [get_metrics] and changes of strategy, the
    instance dictionary has unique keys that are the instances' own ids, and
    every registered region has its request counter, so that no
    [route_call] of such a sequence has failed on a missing counter. *)
Theorem reachable_balancer_invariants (now : Z) (ops : list Operation) :
  wf_instances (run_operations (new_load_balancer now) ops)
  /\ counters_ok (run_operations (new_load_balancer now) ops).
Proof.
  unfold run_operations.
  assert (Hgen : forall lb, wf_instances lb /\ counters_ok lb ->
                   wf_instances (fold_left apply_operation ops lb)
                   /\ counters_ok (fold_left apply_operation ops lb)).
  { induction ops as [| op ops IH]; intros lb Hinv; [exact Hinv |].
    cbn [fold_left]. by apply IH, apply_operation_invariants. }
  apply Hgen. split; [apply wf_instances_new | apply counters_ok_new].
Qed.

End WithFloat.

(** *** The properties on the concrete runs *)

Lemma round_robin_in_range_witness :
  get_available_instances (with_round_robin_index round_robin_balancer (-1)) <> []
  /\ exists ri,
       fst (_round_robin (with_round_robin_index round_robin_balancer (-1))
              (get_available_instances
                 (with_round_robin_index round_robin_balancer (-1))))
       = Some ri
       /\ instance_id (snd ri) = "us-east-1-instance-3".
Proof.
  assert (Hne : get_available_instances
                  (with_round_robin_index round_robin_balancer (-1)) <> [])
    by (vm_compute; discriminate).
  split; [exact Hne |].
  destruct (round_robin_in_range (with_round_robin_index round_robin_balancer (-1))
              _ Hne) as (ri & Hrr & Hpos & _).
  exists ri. rewrite Hrr. split; [reflexivity |].
  vm_compute in Hpos. injection Hpos as <-. reflexivity.
Defined.

Lemma route_call_succeeds_witness :
  current_strategy round_robin_balancer <> "geographic"
  /\ get_available_instances round_robin_balancer <> []
  /\ exists routed lb',
       route_call round_robin_balancer (call "1" None) (env_at 0 "ab12cd34")
         (env_at 200000 "ab12cd34")
       = (Success routed, lb')
       /\ ok_strategy_used routed = "round_robin".
Proof.
  assert (H1 : current_strategy round_robin_balancer <> "geographic")
    by (vm_compute; discriminate).
  assert (H2 : get_available_instances round_robin_balancer <> [])
    by (vm_compute; discriminate).
  split; [exact H1 |]. split; [exact H2 |].
  destruct (route_call_succeeds round_robin_balancer (call "1" None)
              (env_at 0 "ab12cd34") (env_at 200000 "ab12cd34")
              H1 demo_balancer_counters H2)
    as (routed & lb' & r & inst & Hcall & _ & _ & _ & Hst).
  exists routed, lb'. split; [exact Hcall | exact Hst].
Defined.

Lemma geographic_routing_fails_witness :
  current_strategy (with_strategy demo_balancer "geographic") = "geographic"
  /\ (exists r inst region,
         In (r, inst) (get_available_instances (with_strategy demo_balancer "geographic"))
         /\ regions (with_strategy demo_balancer "geographic") !! region_id inst
            = Some region)
  /\ fst (route_call (with_strategy demo_balancer "geographic") (call "1" None)
            (env_at 0 "ab12cd34") (env_at 200000 "ab12cd34"))
     = Failure "unhashable type: 'Instance'" 200%Q.
Proof.
  assert (H1 : current_strategy (with_strategy demo_balancer "geographic")
               = "geographic") by reflexivity.
  assert (H2 : exists r inst region,
             In (r, inst)
                (get_available_instances (with_strategy demo_balancer "geographic"))
             /\ regions (with_strategy demo_balancer "geographic") !! region_id inst
                = Some region).
  { exists 0%nat, (instance_east "1" "10.0.1.1"), region_east.
    split; [vm_compute; by left | vm_compute; reflexivity]. }
  split; [exact H1 |]. split; [exact H2 |].
  by rewrite (geographic_routing_fails (with_strategy demo_balancer "geographic")
                (call "1" None) (env_at 0 "ab12cd34") (env_at 200000 "ab12cd34")
                H1 H2).
Defined.

Lemma unknown_session_not_stored_witness :
  sessions (session_manager demo_balancer) !! "session-1" = None
  /\ routed_session
       (fst (route_call demo_balancer (call "1" (Some "session-1"))
               (env_at 0 "ab12cd34") (env_at 200000 "ab12cd34")))
     = Some "session-1"
  /\ session_manager
       (snd (route_call demo_balancer (call "1" (Some "session-1"))
               (env_at 0 "ab12cd34") (env_at 200000 "ab12cd34")))
     = session_manager demo_balancer.
Proof.
  assert (Hm : sessions (session_manager demo_balancer) !! "session-1" = None)
    by (vm_compute; reflexivity).
  split; [exact Hm |].
  destruct (route_call demo_balancer (call "1" (Some "session-1"))
              (env_at 0 "ab12cd34") (env_at 200000 "ab12cd34"))
    as [[routed | err lat] lb'] eqn:Hcall; [| vm_compute in Hcall; discriminate].
  destruct (unknown_session_not_stored demo_balancer (call "1" (Some "session-1"))
              (env_at 0 "ab12cd34") (env_at 200000 "ab12cd34") "session-1"
              routed lb' eq_refl ltac:(discriminate) Hm Hcall) as (Hs & Hsm & _).
  cbn [fst snd routed_session]. split; [by rewrite Hs | exact Hsm].
Defined.

Lemma route_call_creates_session_witness :
  truthy_opt (req_session_id (call "1" None)) = false
  /\ first_call = (Success first_routed, snd first_call)
  /\ binding (snd first_call) "session-ab12cd34" = Some "us-east-1-instance-1"
  /\ session_timeout (session_manager (snd first_call)) = 3600.
Proof.
  assert (H1 : truthy_opt (req_session_id (call "1" None)) = false) by reflexivity.
  split; [exact H1 |]. split; [exact first_call_routed |].
  destruct (route_call_creates_session demo_balancer (call "1" None)
              (env_at 0 "ab12cd34") (env_at 200000 "ab12cd34")
              first_routed (snd first_call) H1 first_call_routed)
    as (_ & Hs & Ht).
  split; [| exact Ht]. unfold binding.
  change (route_call demo_balancer (call "1" None) (env_at 0 "ab12cd34")
            (env_at 200000 "ab12cd34")) with first_call in Hs.
  rewrite Hs. cbn [ok_session_id first_routed]. by rewrite lookup_insert_eq.
Defined.

Lemma route_call_counts_witness :
  first_call = (Success first_routed, snd first_call)
  /\ total_requests (lb_metrics (snd first_call)) = 1
  /\ requests_per_region (lb_metrics (snd first_call)) !! "us-east-1" = Some 1.
Proof.
  split; [exact first_call_routed |].
  destruct (route_call_counts demo_balancer (call "1" None)
              (env_at 0 "ab12cd34") (env_at 200000 "ab12cd34")
              first_routed (snd first_call) first_call_routed)
    as (Ht & _ & Hc).
  change (route_call demo_balancer (call "1" None) (env_at 0 "ab12cd34")
            (env_at 200000 "ab12cd34")) with first_call in Ht, Hc.
  split; [rewrite Ht; reflexivity |]. rewrite Hc. vm_compute. reflexivity.
Defined.

Lemma route_call_restores_connections_witness :
  Forall (fun kv => 0 <= current_connections (snd kv)) (instances demo_balancer)
  /\ first_call = (Success first_routed, snd first_call)
  /\ instances (snd first_call) = instances demo_balancer
  /\ total_connections (snd first_call) = 0.
Proof.
  assert (Hall : Forall (fun kv => 0 <= current_connections (snd kv))
                        (instances demo_balancer))
    by (vm_compute; repeat constructor; discriminate).
  split; [exact Hall |]. split; [exact first_call_routed |].
  destruct (route_call_restores_connections demo_balancer (call "1" None)
              (env_at 0 "ab12cd34") (env_at 200000 "ab12cd34")
              first_routed (snd first_call) Hall first_call_routed) as [Hi Ht].
  change (route_call demo_balancer (call "1" None) (env_at 0 "ab12cd34")
            (env_at 200000 "ab12cd34")) with first_call in Hi, Ht.
  split; [exact Hi |]. rewrite Ht. vm_compute. reflexivity.
Defined.

Lemma create_session_then_lookup_witness :
  timedelta_seconds 3599 - 0 < timedelta_seconds (session_timeout new_session_manager)
  /\ fst (get_instance_for_session stale_store "session-ab12cd34"
            (timedelta_seconds 3599))
     = Some "us-east-1-instance-1".
Proof.
  assert (Hl : timedelta_seconds 3599 - 0
               < timedelta_seconds (session_timeout new_session_manager))
    by (vm_compute; reflexivity).
  split; [exact Hl |].
  exact (proj1 (proj2 (create_session_then_lookup new_session_manager "call-1"
                         "user-1" "us-east-1-instance-1" 0 "ab12cd34"
                         (timedelta_seconds 3599) Hl))).
Defined.

Lemma update_session_revives_witness :
  fst (get_session stale_store "session-ab12cd34" (timedelta_seconds 7200)) = None
  /\ timedelta_seconds 7300 - timedelta_seconds 7200
     < timedelta_seconds (session_timeout stale_store)
  /\ exists s',
       fst (get_session
              (update_session stale_store "session-ab12cd34" []
                 (timedelta_seconds 7200))
              "session-ab12cd34" (timedelta_seconds 7300))
       = Some s'
       /\ s_instance_id s' = "us-east-1-instance-1".
Proof.
  assert (Hl : timedelta_seconds 7300 - timedelta_seconds 7200
               < timedelta_seconds (session_timeout stale_store))
    by (vm_compute; reflexivity).
  split; [vm_compute; reflexivity |]. split; [exact Hl |].
  destruct (update_session_revives stale_store "session-ab12cd34"
              {| session_id := "session-ab12cd34"; s_call_id := "call-1";
                 s_user_id := "user-1"; s_instance_id := "us-east-1-instance-1";
                 created_at := 0; last_activity := 0; context := [];
                 conversation_history := [] |}
              [] (timedelta_seconds 7200) (timedelta_seconds 7300))
    as [(s' & Hs' & _ & Hg) _]; [vm_compute; reflexivity | exact Hl |].
  eexists. split; [exact Hg |].
  vm_compute in Hs'. injection Hs' as <-. reflexivity.
Defined.

Lemma session_at_timeout_boundary_witness :
  timedelta_seconds 3600 - 0 = timedelta_seconds (session_timeout stale_store)
  /\ fst (get_session stale_store "session-ab12cd34" (timedelta_seconds 3600)) = None
  /\ sessions (cleanup_expired_sessions stale_store (timedelta_seconds 3600))
       !! "session-ab12cd34" <> None.
Proof.
  assert (Ha : timedelta_seconds 3600 - 0
               = timedelta_seconds (session_timeout stale_store))
    by (vm_compute; reflexivity).
  split; [exact Ha |].
  destruct (session_at_timeout_boundary stale_store "session-ab12cd34"
              {| session_id := "session-ab12cd34"; s_call_id := "call-1";
                 s_user_id := "user-1"; s_instance_id := "us-east-1-instance-1";
                 created_at := 0; last_activity := 0; context := [];
                 conversation_history := [] |}
              (timedelta_seconds 3600)) as (Hg & _ & Hk & _);
    [vm_compute; reflexivity | exact Ha |].
  split; [exact Hg |]. rewrite Hk. discriminate.
Defined.

End LoadBalancingExtra.

(** * Runs of the load balancer: concurrent calls and conversations *)

Module LoadBalancingRuns.
Import LoadBalancing LoadBalancingMore LoadBalancingProps LoadBalancingExtra.

Section WithFloat.
Context {F : Type} `{PyFloatMore F}.
Implicit Types (sm : SessionManager) (s : Session) (sid : string).
Implicit Types (lb : GlobalLoadBalancer (F := F)) (inst : Instance (F := F)).
Implicit Types (d : list (string * Instance (F := F))).
Implicit Types (req : CallRequest) (env : Env (F := F)).
Implicit Types (p : Pending (F := F)) (pending : list (Pending (F := F))).

(** *** The two halves of a call *)

(** [serve] is [serve_begin] followed by [serve_end]. *)
Lemma serve_split lb r inst req env env' :
  serve lb r inst req env env'
  = match serve_begin lb r inst req env with
    | (Raise e, lb1) => (Raise e, lb1)
    | (Ok sid, lb1) =>
        (Ok (fst (serve_end lb1 r inst sid env')), snd (serve_end lb1 r inst sid env'))
    end.
Proof.
  unfold serve, serve_begin, served_session.
  destruct (truthy_opt (req_session_id req)); cbn [create_session];
    match goal with
    | |- context [count_region_request ?l inst] =>
        destruct (count_region_request l inst) as [[[] | e] lb1]
    end; reflexivity.
Qed.

(** [route_call] is [route_call_begin], and for a call that reaches its
    [await], [route_call_end]. *)
Lemma route_call_split lb req env env' :
  route_call lb req env env'
  = match route_call_begin lb req env with
    | (Returned res, lb1) => (res, lb1)
    | (Suspended p, lb1) => route_call_end lb1 p env'
    end.
Proof.
  unfold route_call, route_call_try, route_call_begin, route_call_end,
    handle_exception.
  destruct (negb (nonempty (get_available_instances lb))); [reflexivity |].
  destruct (select_instance lb (get_available_instances lb) req env)
    as [[[[r inst] |] | e] lb1]; try reflexivity.
  rewrite serve_split.
  destruct (serve_begin lb1 r inst req env) as [[sid | e] lb2]; [| reflexivity].
  cbn [p_ref p_instance p_session_id].
  by destruct (serve_end lb2 r inst sid env').
Qed.

(** *** What each half does to the fleet *)

Lemma serve_begin_instances lb r inst req env :
  let out := serve_begin lb r inst req env in
  instances (snd out) = alter hold r (instances lb)
  /\ regions (snd out) = regions lb
  /\ (forall k, is_Some (requests_per_region (lb_metrics lb) !! k) ->
                is_Some (requests_per_region (lb_metrics (snd out)) !! k))
  /\ ((forall region,
          regions lb !! region_id inst = Some region ->
          is_Some (requests_per_region (lb_metrics lb) !! r_region_id region)) ->
      exists sid, fst out = Ok sid).
Proof.
  unfold serve_begin, served_session.
  destruct (truthy_opt (req_session_id req)); cbn [create_session];
    unfold count_region_request; cbn [regions lb_metrics requests_per_region
      acquire mutate with_instances with_session_manager with_metrics
      with_regions_metrics set_total_requests];
    (destruct (regions lb !! region_id inst) as [region |] eqn:Hreg;
     [ destruct (requests_per_region (lb_metrics lb) !! r_region_id region)
         as [n |] eqn:Hn | ]);
    cbn -[alter]; (split; [reflexivity |]); (split; [reflexivity |]).
  all: split.
  all: try (intros k Hk; destruct (decide (r_region_id region = k)) as [<- | Hne];
            [rewrite lookup_insert_eq; eauto | by rewrite lookup_insert_ne]).
  all: try done.
  all: try (intros _; by eexists).
  all: intros Hcount; destruct (Hcount region eq_refl) as [n' Hn']; congruence.
Qed.

Lemma serve_end_instances lb r inst sid env' :
  let out := serve_end lb r inst sid env' in
  instances (snd out)
  = alter (fun kv => (fst kv,
                      set_current_connections (snd kv)
                        (Z.max 0 (current_connections (snd kv) - 1)))) r
      (instances lb)
  /\ regions (snd out) = regions lb
  /\ requests_per_region (lb_metrics (snd out)) = requests_per_region (lb_metrics lb).
Proof. unfold serve_end. cbn -[alter]. done. Qed.

(** The instance a strategy selects is one of the dictionary. *)
Lemma select_instance_ref lb req env r inst lb1 :
  get_available_instances lb <> [] ->
  select_instance lb (get_available_instances lb) req env = (Ok (Some (r, inst)), lb1) ->
  (r < length (instances lb))%nat.
Proof.
  intros Hne Hsel.
  assert (Hin : In (r, inst) (get_available_instances lb)).
  { destruct (String.eqb (current_strategy lb) "geographic") eqn:Hgeo.
    - unfold select_instance in Hsel. rewrite Hgeo in Hsel. unfold _geographic in Hsel.
      destruct (get_available_instances lb) as [| first rest]; [done |].
      destruct (existsb _ _); [discriminate |]. injection Hsel as -> _. by left.
    - destruct (select_instance_member lb req env Hgeo Hne) as (r' & inst' & Hsel' & Hin).
      rewrite Hsel in Hsel'. cbn [fst] in Hsel'. by injection Hsel' as <- <-. }
  destruct (available_elem lb r inst Hin) as (_ & k & Hk).
  by eapply lookup_lt_Some.
Qed.

Lemma route_call_begin_spec lb req env :
  counters_ok lb ->
  let out := route_call_begin lb req env in
  regions (snd out) = regions lb
  /\ counters_ok (snd out)
  /\ match fst out with
     | Returned res =>
         instances (snd out) = instances lb /\ exists err lat, res = Failure err lat
     | Suspended p =>
         instances (snd out) = alter hold (p_ref p) (instances lb)
         /\ (p_ref p < length (instances lb))%nat
     end.
Proof.
  intros Hok. unfold route_call_begin, handle_exception.
  destruct (get_available_instances lb) as [| x xs] eqn:Hav.
  { cbn. split; [done |]. split; [exact Hok |]. split; [done | by eexists _, _]. }
  cbn [nonempty negb]. rewrite <- Hav.
  pose proof (select_instance_frame lb (get_available_instances lb) req env) as Hf.
  pose proof (select_instance_ref lb req env) as Href.
  destruct (select_instance lb (get_available_instances lb) req env) as [sel lb1].
  cbn [snd] in Hf. destruct Hf as (Hi & Hr & Hm & _).
  assert (Hok1 : counters_ok lb1).
  { intros k region Hk. rewrite Hm. rewrite Hr in Hk. by eapply Hok. }
  assert (Hfail : forall e,
            let out := (Returned (Failure (str_exn e) (elapsed_ms env)),
                        with_metrics lb1
                          (set_error_rate (lb_metrics lb1)
                             (pymin2 (of_Q 1)
                                (fadd (error_rate (lb_metrics lb1)) (of_Q (1 # 100)))))) in
            regions (snd out) = regions lb
            /\ counters_ok (snd out)
            /\ match fst out with
               | Returned res =>
                   instances (snd out) = instances lb
                   /\ exists err lat, res = Failure err lat
               | Suspended p =>
                   instances (snd out) = alter hold (p_ref p) (instances lb)
                   /\ (p_ref p < length (instances lb))%nat
               end).
  { intros e. cbn. split; [exact Hr |]. split; [exact Hok1 |].
    split; [exact Hi | by eexists _, _]. }
  destruct sel as [[[r inst] |] | e]; [| apply Hfail | apply Hfail].
  pose proof (serve_begin_instances lb1 r inst req env) as Hb. cbn zeta in Hb.
  destruct Hb as (Hbi & Hbr & Hbdom & Hbok).
  destruct Hbok as [sid Hsid].
  { intros region Hregion. by eapply Hok1. }
  destruct (serve_begin lb1 r inst req env) as [res lb2]. cbn [fst snd] in *.
  subst res. cbn [fst snd p_ref].
  split; [by rewrite Hbr |]. split.
  - intros k region Hk. apply Hbdom. rewrite Hbr in Hk. by eapply Hok1.
  - split; [by rewrite Hbi, Hi |]. apply (Href r inst lb1); [by rewrite Hav | done].
Qed.

Lemma route_call_end_spec lb p env' :
  let out := route_call_end lb p env' in
  instances (snd out)
  = alter (fun kv => (fst kv,
                      set_current_connections (snd kv)
                        (Z.max 0 (current_connections (snd kv) - 1)))) (p_ref p)
      (instances lb)
  /\ regions (snd out) = regions lb
  /\ requests_per_region (lb_metrics (snd out)) = requests_per_region (lb_metrics lb)
  /\ exists routed, fst out = Success routed.
Proof.
  unfold route_call_end.
  pose proof (serve_end_instances lb (p_ref p) (p_instance p) (p_session_id p) env')
    as Hend. cbn zeta in Hend.
  destruct (serve_end lb (p_ref p) (p_instance p) (p_session_id p) env')
    as [routed lb1]. cbn [fst snd] in *.
  destruct Hend as (Hi & Hr & Hc). repeat split; try done. by eexists.
Qed.

(** *** Counting the calls in flight *)

Lemma hold_commute d (i j : nat) :
  alter hold i (alter hold j d) = alter hold j (alter hold i d).
Proof.
  destruct (decide (i = j)) as [-> | Hne]; [done |]. by apply list_alter_alter_ne.
Qed.

Lemma with_calls_in_flight_hold d (refs : list nat) (r : nat) :
  with_calls_in_flight (alter hold r d) refs
  = alter hold r (with_calls_in_flight d refs).
Proof.
  unfold with_calls_in_flight. revert d.
  induction refs as [| r' refs IH]; intros d; [done |].
  cbn [fold_left]. rewrite hold_commute. apply IH.
Qed.

Lemma with_calls_in_flight_snoc d (refs : list nat) (r : nat) :
  with_calls_in_flight d (refs ++ [r]) = alter hold r (with_calls_in_flight d refs).
Proof. unfold with_calls_in_flight. by rewrite fold_left_app. Qed.

Lemma with_calls_in_flight_delete d (refs : list nat) (i r : nat) :
  refs !! i = Some r ->
  with_calls_in_flight d refs = alter hold r (with_calls_in_flight d (delete i refs)).
Proof.
  intros Hi. rewrite delete_take_drop.
  rewrite <- (take_drop_middle refs i r Hi) at 1.
  unfold with_calls_in_flight. rewrite !fold_left_app. cbn [fold_left].
  apply (with_calls_in_flight_hold _ (drop (S i) refs) r).
Qed.

Lemma with_calls_in_flight_nonneg d (refs : list nat) :
  Forall (fun kv => 0 <= current_connections (snd kv)) d ->
  Forall (fun kv => 0 <= current_connections (snd kv)) (with_calls_in_flight d refs).
Proof.
  unfold with_calls_in_flight. revert d.
  induction refs as [| r refs IH]; intros d Hall; [done |].
  cbn [fold_left]. apply IH. apply Forall_alter; [exact Hall |].
  intros [k v] _ Hv. cbn in *. lia.
Qed.

Lemma with_calls_in_flight_length d (refs : list nat) :
  length (with_calls_in_flight d refs) = length d.
Proof.
  unfold with_calls_in_flight. revert d.
  induction refs as [| r refs IH]; intros d; [done |].
  cbn [fold_left]. by rewrite IH, length_alter.
Qed.

Lemma fold_left_add_init (l : list Z) (a : Z) :
  fold_left Z.add l a = a + fold_left Z.add l 0.
Proof.
  revert a. induction l as [| x l IH]; intros a; cbn [fold_left]; [lia |].
  rewrite (IH (a + x)), (IH (0 + x)). lia.
Qed.

Lemma connections_hold d (r : nat) :
  (r < length d)%nat ->
  fold_left Z.add (map (fun kv => current_connections (snd kv)) (alter hold r d)) 0
  = fold_left Z.add (map (fun kv => current_connections (snd kv)) d) 0 + 1.
Proof.
  revert r. induction d as [| [k v] d IH]; intros r Hr; [cbn in Hr; lia |].
  destruct r as [| r]; cbn [alter list_alter map fold_left hold fst snd
                            current_connections set_current_connections].
  - rewrite (fold_left_add_init _ (0 + (current_connections v + 1))),
      (fold_left_add_init _ (0 + current_connections v)). lia.
  - rewrite (fold_left_add_init _ (0 + current_connections v)),
      (fold_left_add_init (map _ d) (0 + current_connections v)).
    rewrite IH by (cbn in Hr; lia). lia.
Qed.

Lemma connections_in_flight d (refs : list nat) :
  Forall (fun r => (r < length d)%nat) refs ->
  fold_left Z.add
    (map (fun kv => current_connections (snd kv)) (with_calls_in_flight d refs)) 0
  = fold_left Z.add (map (fun kv => current_connections (snd kv)) d) 0
    + Z.of_nat (length refs).
Proof.
  induction refs as [| r refs IH] using rev_ind; intros Hall; [cbn; lia |].
  apply Forall_app in Hall as [Hrefs Hr]. apply Forall_cons in Hr as [Hr _].
  rewrite with_calls_in_flight_snoc, connections_hold
    by (by rewrite with_calls_in_flight_length).
  rewrite IH by done. rewrite length_app. cbn [length]. lia.
Qed.

Lemma connections_nonneg d :
  Forall (fun kv => 0 <= current_connections (snd kv)) d ->
  0 <= fold_left Z.add (map (fun kv => current_connections (snd kv)) d) 0.
Proof.
  induction d as [| [k v] d IH]; intros Hall; [done |].
  apply Forall_cons in Hall as [Hv Hall]. cbn [map fold_left snd] in *.
  rewrite fold_left_add_init. specialize (IH Hall). lia.
Qed.

(** One event keeps the account: the counts are those of the start plus
    one per call in flight on each instance. *)
Lemma step_accounting (d0 : list (string * Instance (F := F)))
    (st : GlobalLoadBalancer (F := F) * list Pending) (ev : Event) :
  Forall (fun kv => 0 <= current_connections (snd kv)) d0 ->
  instances (fst st) = with_calls_in_flight d0 (map p_ref (snd st))
  /\ counters_ok (fst st)
  /\ Forall (fun p => (p_ref p < length d0)%nat) (snd st) ->
  instances (fst (step st ev)) = with_calls_in_flight d0 (map p_ref (snd (step st ev)))
  /\ counters_ok (fst (step st ev))
  /\ Forall (fun p => (p_ref p < length d0)%nat) (snd (step st ev)).
Proof.
  intros Hnonneg (Hinst & Hok & Hvalid). destruct st as [lb pending].
  cbn [fst snd] in *. destruct ev as [req env | i env']; cbn [step fst snd].
  - pose proof (route_call_begin_spec lb req env Hok) as Hb. cbn zeta in Hb.
    destruct (route_call_begin lb req env) as [[p | res] lb1]; cbn [fst snd] in *;
      destruct Hb as (_ & Hok1 & Hi & Hrest).
    + rewrite map_app. cbn [map]. rewrite with_calls_in_flight_snoc, <- Hinst.
      split; [exact Hi |]. split; [exact Hok1 |].
      apply Forall_app. split; [exact Hvalid |]. constructor; [| constructor].
      by rewrite Hinst, with_calls_in_flight_length in Hrest.
    + split; [by rewrite Hi |]. split; [exact Hok1 | exact Hvalid].
  - destruct (pending !! i) as [p |] eqn:Hp; cbn [fst snd]; [| done].
    pose proof (route_call_end_spec lb p env') as He. cbn zeta in He.
    destruct He as (Hi & Hr & Hc & _). split; [| split].
    + rewrite Hi, Hinst.
      change (map p_ref ?l) with (p_ref <$> l).
      rewrite list_fmap_delete.
      rewrite (with_calls_in_flight_delete d0 (p_ref <$> pending) i (p_ref p))
        by (by rewrite list_lookup_fmap, Hp).
      apply acquire_release_instances, with_calls_in_flight_nonneg, Hnonneg.
    + intros k region Hk. rewrite Hc. rewrite Hr in Hk. by eapply Hok.
    + rewrite delete_take_drop. apply Forall_app. split.
      * by apply Forall_take.
      * by apply Forall_drop.
Qed.

Lemma run_events_accounting lb (events : list Event) :
  counters_ok lb ->
  Forall (fun kv => 0 <= current_connections (snd kv)) (instances lb) ->
  let st := run_events (lb, []) events in
  instances (fst st) = with_calls_in_flight (instances lb) (map p_ref (snd st))
  /\ counters_ok (fst st)
  /\ Forall (fun p => (p_ref p < length (instances lb))%nat) (snd st).
Proof.
  intros Hok Hnonneg. unfold run_events.
  assert (Hgen : forall st,
            instances (fst st) = with_calls_in_flight (instances lb) (map p_ref (snd st))
            /\ counters_ok (fst st)
            /\ Forall (fun p => (p_ref p < length (instances lb))%nat) (snd st) ->
            instances (fst (fold_left step events st))
            = with_calls_in_flight (instances lb)
                (map p_ref (snd (fold_left step events st)))
            /\ counters_ok (fst (fold_left step events st))
            /\ Forall (fun p => (p_ref p < length (instances lb))%nat)
                      (snd (fold_left step events st))).
  { induction events as [| ev events IH]; intros st Hst; [exact Hst |].
    cbn [fold_left]. apply IH. by apply step_accounting. }
  apply Hgen. cbn. by repeat split.
Qed.

(** A call that runs from its arrival to its end without another event in
    between leaves every instance as it found it, whatever it returns. *)
Lemma route_call_instances lb req env env' :
  counters_ok lb ->
  Forall (fun kv => 0 <= current_connections (snd kv)) (instances lb) ->
  instances (snd (route_call lb req env env')) = instances lb.
Proof.
  intros Hok Hnonneg. rewrite route_call_split.
  pose proof (route_call_begin_spec lb req env Hok) as Hb. cbn zeta in Hb.
  destruct (route_call_begin lb req env) as [[p | res] lb1]; cbn [fst snd] in *;
    destruct Hb as (_ & _ & Hi & _); [| exact Hi].
  pose proof (route_call_end_spec lb1 p env') as He. cbn zeta in He.
  destruct He as (-> & _). rewrite Hi. by apply acquire_release_instances.
Qed.


(** *** Conversations *)

Lemma get_session_timeout sm sid now :
  session_timeout (snd (get_session sm sid now)) = session_timeout sm.
Proof.
  unfold get_session. destruct (sessions sm !! sid) as [s |]; [| done].
  by destruct (_ <? _).
Qed.

Lemma update_session_timeout sm sid (updates : list SessionUpdate) now :
  session_timeout (update_session sm sid updates now) = session_timeout sm.
Proof. unfold update_session. by destruct (sessions sm !! sid). Qed.

(** The session a call works on: creating it binds no other id. *)
Lemma served_session_binding lb inst req env (x : string) :
  truthy_opt (req_session_id req) = true \/ "session-" +:+ uuid_hex8 env <> x ->
  s_instance_id <$> sessions (snd (served_session lb inst req env)) !! x
  = s_instance_id <$> sessions (session_manager lb) !! x
  /\ session_timeout (snd (served_session lb inst req env))
     = session_timeout (session_manager lb).
Proof.
  intros Hkeep. unfold served_session.
  destruct (truthy_opt (req_session_id req)); [done |].
  destruct Hkeep as [? | Hfresh]; [done |].
  unfold create_session. cbn [snd sessions with_sessions session_timeout].
  by rewrite lookup_insert_ne.
Qed.

(** A call leaves every session bound as it was, unless it creates its
    session under that very id. *)
Lemma route_call_binding lb req env env' (x : string) :
  truthy_opt (req_session_id req) = true \/ "session-" +:+ uuid_hex8 env <> x ->
  binding (snd (route_call lb req env env')) x = binding lb x
  /\ session_timeout (session_manager (snd (route_call lb req env env')))
     = session_timeout (session_manager lb).
Proof.
  intros Hkeep. unfold route_call, route_call_try.
  destruct (negb (nonempty (get_available_instances lb))); [done |].
  pose proof (select_instance_frame lb (get_available_instances lb) req env) as Hsel.
  destruct (select_instance lb (get_available_instances lb) req env) as [sel lb1].
  cbn [snd] in Hsel. destruct Hsel as (_ & _ & _ & _ & Hsm).
  assert (H1 : binding lb1 x = binding lb x
               /\ session_timeout (session_manager lb1)
                  = session_timeout (session_manager lb)).
  { unfold binding. destruct Hsm as [-> | (sid & _ & _ & ->)]; [done |].
    by rewrite get_session_instance, get_session_timeout. }
  destruct H1 as [Hb1 Ht1].
  destruct sel as [[[r inst] |] | e]; [| done | done].
  pose proof (serve_frame lb1 r inst req env env') as Hframe. cbn zeta in Hframe.
  destruct (served_session_binding lb1 inst req env x Hkeep) as [Hb2 Ht2].
  destruct (serve lb1 r inst req env env') as [[routed | e] lb2];
    cbn [fst snd] in Hframe;
    destruct Hframe as (_ & _ & _ & _ & _ & _ & _ & Hrest);
    unfold binding in *;
    cbn [snd session_manager with_metrics with_regions_metrics].
  - destruct Hrest as (_ & _ & _ & _ & -> & _).
    by rewrite update_session_history_instance, update_session_timeout, Hb2, Ht2.
  - destruct Hrest as (-> & _). by rewrite Hb2, Ht2.
Qed.

(** One operation keeps a session that a clean-up does not find expired. *)
Lemma apply_operation_binding lb (op : Operation) (x iid : string) (T : Z) :
  binding lb x = Some iid ->
  session_timeout (session_manager lb) = T ->
  keeps_session_id x op ->
  (forall now s,
      op = OpGetMetrics now ->
      sessions (session_manager lb) !! x = Some s ->
      now - last_activity s <= timedelta_seconds T) ->
  binding (apply_operation lb op) x = Some iid
  /\ session_timeout (session_manager (apply_operation lb op)) = T.
Proof.
  intros Hb Ht Hkeep Hclean.
  destruct op as [region | inst | req env env' | rp ip | now | st];
    cbn [apply_operation keeps_session_id] in *; try done.
  - destruct (route_call_binding lb req env env' x Hkeep) as [-> ->]. done.
  - destruct (get_metrics_frame lb now) as (Hsm & _).
    unfold binding in *. rewrite Hsm.
    destruct (sessions (session_manager lb) !! x) as [s |] eqn:Hs; [| done].
    specialize (Hclean now s eq_refl eq_refl).
    unfold cleanup_expired_sessions. cbn [sessions with_sessions session_timeout].
    split; [| done].
    erewrite (proj2 (map_lookup_filter_Some _ _ x s)); [exact Hb |].
    split; [done |]. cbn [snd]. rewrite Ht. lia.
Qed.

Lemma run_operations_binding (ops : list Operation) (x iid : string) (T : Z) :
  forall lb,
    binding lb x = Some iid ->
    session_timeout (session_manager lb) = T ->
    Forall (keeps_session_id x) ops ->
    (forall k now s,
        ops !! k = Some (OpGetMetrics now) ->
        sessions (session_manager (run_operations lb (take k ops))) !! x = Some s ->
        now - last_activity s <= timedelta_seconds T) ->
    binding (run_operations lb ops) x = Some iid
    /\ session_timeout (session_manager (run_operations lb ops)) = T.
Proof.
  induction ops as [| op ops IH]; intros lb Hb Ht Hkeep Hclean; [done |].
  apply Forall_cons in Hkeep as [Hop Hkeep].
  destruct (apply_operation_binding lb op x iid T Hb Ht Hop) as [Hb1 Ht1].
  { intros now s -> Hs. by apply (Hclean 0%nat now s). }
  unfold run_operations. cbn [fold_left]. apply IH; try done.
  intros k now s Hk Hs. by apply (Hclean (S k) now s).
Qed.

Lemma run_operations_invariants (ops : list Operation) lb :
  wf_instances lb /\ counters_ok lb ->
  wf_instances (run_operations lb ops) /\ counters_ok (run_operations lb ops).
Proof.
  unfold run_operations. revert lb.
  induction ops as [| op ops IH]; intros lb Hinv; [exact Hinv |].
  cbn [fold_left]. by apply IH, apply_operation_invariants.
Qed.

(** The call that starts a conversation stores its session, bound to the
    instance it was routed to. *)
Lemma route_call_starts_session lb req env env' routed lb1 :
  truthy_opt (req_session_id req) = false ->
  route_call lb req env env' = (Success routed, lb1) ->
  ok_session_id routed = "session-" +:+ uuid_hex8 env
  /\ binding lb1 (ok_session_id routed) = Some (ok_instance_id routed)
  /\ session_timeout (session_manager lb1) = session_timeout (session_manager lb).
Proof.
  intros Hnosid Hcall.
  destruct (route_call_success_inv _ _ _ _ _ _ Hcall) as (r & inst & lb0 & Hsel & Hserve).
  pose proof (select_instance_frame lb (get_available_instances lb) req env) as Hf.
  rewrite Hsel in Hf. cbn [snd] in Hf. destruct Hf as (_ & _ & _ & _ & Hsm).
  assert (Hsm0 : session_manager lb0 = session_manager lb).
  { destruct Hsm as [? | (sid' & Hsid' & Htr & _)]; [done |].
    rewrite Hsid' in Hnosid. cbn [truthy_opt] in Hnosid. congruence. }
  pose proof (serve_frame lb0 r inst req env env') as Hframe. cbn zeta in Hframe.
  rewrite Hserve in Hframe. cbn [fst snd] in Hframe.
  destruct Hframe as (_ & _ & _ & _ & _ & _ & _ & Hid & _ & Hs & _ & Hupd & _).
  unfold served_session in Hs, Hupd. rewrite Hnosid in Hs, Hupd.
  unfold create_session in Hs, Hupd. cbn [fst snd] in Hs, Hupd.
  split; [exact Hs |]. unfold binding. rewrite Hupd, Hs, Hid, Hsm0.
  unfold update_session. cbn [sessions with_sessions session_timeout].
  rewrite lookup_insert_eq. cbn [sessions with_sessions session_timeout].
  by rewrite lookup_insert_eq.
Qed.

(** Under the session-aware strategy a call that carries the id of a live
    session goes to the instance the session is bound to, when that
    instance is healthy. *)
Lemma route_call_sticky lb req env env' sid s :
  current_strategy lb = "session_aware" ->
  wf_instances lb ->
  counters_ok lb ->
  req_session_id req = Some sid ->
  sid <> "" ->
  sessions (session_manager lb) !! sid = Some s ->
  s_instance_id s <> "" ->
  utcnow env - last_activity s
    < timedelta_seconds (session_timeout (session_manager lb)) ->
  status_of lb (s_instance_id s) = Some "healthy" ->
  exists routed lb',
    route_call lb req env env' = (Success routed, lb')
    /\ ok_instance_id routed = s_instance_id s
    /\ ok_session_id routed = sid
    /\ binding lb' sid = Some (s_instance_id s).
Proof.
  intros Hstrat [Hnodup Hkeyed] Hcount Hreq Hsid Hs Hiid Hlive Hstatus.
  pose proof (truthy_nonempty sid Hsid) as Htruthy.
  unfold status_of in Hstatus.
  destruct (dict_find (instances lb) (s_instance_id s) 0) as [[r inst] |] eqn:Hfind;
    [| done].
  injection Hstatus as Hhealthy. cbn [snd] in Hhealthy.
  destruct (dict_find_lookup _ _ _ _ _ Hfind) as [Hlook _].
  rewrite Nat.sub_0_r in Hlook.
  pose proof (keyed_lookup _ _ _ _ Hkeyed Hlook) as Hkey.
  assert (Hav : is_available inst = true) by (apply is_available_spec; by left).
  pose proof (available_of_lookup lb r _ inst Hlook Hav) as Href.
  unfold route_call, route_call_try, select_instance. rewrite Hstrat.
  cbn [String.eqb Ascii.eqb Bool.eqb andb].
  destruct (get_available_instances lb) as [| x xs] eqn:Havail; [done |].
  cbn [nonempty negb]. rewrite <- Havail. rewrite Hreq.
  rewrite (session_aware_sticky lb _ sid (utcnow env) s r inst); try done;
    [| by apply truthy_nonempty].
  set (lb1 := with_session_manager lb _).
  destruct (serve_ok lb1 r inst req env env') as
    (routed & lb' & Hserve & Hid & Hsid2 & _ & _ & _ & _ & _ & Hsm).
  { intros region Hregion. exact (Hcount _ _ Hregion). }
  rewrite Hserve. exists routed, lb'. split; [reflexivity |].
  split; [by rewrite Hid, <- Hkey |].
  rewrite Hreq in Hsid2, Hsm. cbn [truthy_opt] in Hsid2, Hsm.
  rewrite Htruthy in Hsid2, Hsm. change (default "" (Some sid)) with sid in Hsid2, Hsm.
  split; [exact Hsid2 |].
  unfold binding. rewrite Hsm, update_session_history_instance.
  unfold lb1. cbn [session_manager with_session_manager].
  by rewrite get_session_instance, Hs.
Qed.

(** C4.  Session affinity.  A call without a session id is routed to
    instance [I] and returns the new session id [S].  Then anything the
    balancer offers may happen, in any order and any number of times: other
    calls, with and without session ids, further calls of session [S]
    itself, registrations, rounds of health checks, reads of the metrics
    with their clean-up, changes of strategy.  No later call draws the
    UUID of [S] again, and no clean-up runs while [S] is expired.  If then
    the session-aware strategy is active, the instance stored under [I] is
    healthy, and a call carries [S] before the session has expired, that
    call is routed to [I], under the same session id; the session has been
    bound to [I] all along and still is after the call.  (The balancer is
    one built by [add_region] and [add_instance], and [I] is not the empty
    string, which the code reads as no binding.) *)
Theorem session_affinity lb req env env' routed lb1 (ops : list Operation)
    req2 env2 env2' :
  wf_instances lb ->
  counters_ok lb ->
  truthy_opt (req_session_id req) = false ->
  route_call lb req env env' = (Success routed, lb1) ->
  ok_instance_id routed <> "" ->
  Forall (keeps_session_id (ok_session_id routed)) ops ->
  (forall k now s,
      ops !! k = Some (OpGetMetrics now) ->
      sessions (session_manager (run_operations lb1 (take k ops)))
        !! ok_session_id routed = Some s ->
      now - last_activity s
        <= timedelta_seconds (session_timeout (session_manager lb))) ->
  (forall s,
      sessions (session_manager (run_operations lb1 ops)) !! ok_session_id routed
        = Some s ->
      utcnow env2 - last_activity s
        < timedelta_seconds (session_timeout (session_manager lb))) ->
  current_strategy (run_operations lb1 ops) = "session_aware" ->
  status_of (run_operations lb1 ops) (ok_instance_id routed) = Some "healthy" ->
  req_session_id req2 = Some (ok_session_id routed) ->
  binding lb1 (ok_session_id routed) = Some (ok_instance_id routed)
  /\ binding (run_operations lb1 ops) (ok_session_id routed)
     = Some (ok_instance_id routed)
  /\ exists routed2 lb3,
       route_call (run_operations lb1 ops) req2 env2 env2' = (Success routed2, lb3)
       /\ ok_instance_id routed2 = ok_instance_id routed
       /\ ok_session_id routed2 = ok_session_id routed
       /\ binding lb3 (ok_session_id routed) = Some (ok_instance_id routed).
Proof.
  intros Hwf Hcount Hnosid Hcall Hiid Hkeep Hclean Hlive Hstrat Hstatus Hreq2.
  destruct (route_call_starts_session lb req env env' routed lb1 Hnosid Hcall)
    as (Hsid & Hb1 & Ht1).
  destruct (apply_operation_invariants lb (OpRouteCall req env env') (conj Hwf Hcount))
    as [Hwf1 Hcount1].
  cbn [apply_operation] in Hwf1, Hcount1. rewrite Hcall in Hwf1, Hcount1.
  cbn [snd] in Hwf1, Hcount1.
  destruct (run_operations_invariants ops lb1 (conj Hwf1 Hcount1)) as [Hwf2 Hcount2].
  destruct (run_operations_binding ops (ok_session_id routed) (ok_instance_id routed)
              (session_timeout (session_manager lb)) lb1 Hb1 Ht1 Hkeep Hclean)
    as [Hb2 Ht2].
  split; [exact Hb1 |]. split; [exact Hb2 |].
  unfold binding in Hb2.
  destruct (sessions (session_manager (run_operations lb1 ops))
              !! ok_session_id routed) as [s |] eqn:Hs; [| done].
  injection Hb2 as Hsi.
  destruct (route_call_sticky (run_operations lb1 ops) req2 env2 env2'
              (ok_session_id routed) s) as (routed2 & lb3 & Hcall2 & Hid2 & Hsid2 & Hb3);
    try done.
  - by rewrite Hsid.
  - by rewrite Hsi.
  - rewrite Ht2. by apply Hlive.
  - by rewrite Hsi.
  - exists routed2, lb3. rewrite <- Hsi. done.
Qed.

End WithFloat.
(** *** The properties on the concrete runs *)

Lemma busy_balancer_invariants :
  wf_instances busy_balancer /\ counters_ok busy_balancer.
Proof.
  exact (apply_operation_invariants round_robin_balancer
           (OpRouteCall (call "1" None) (env_at 0 "00000001")
              (env_at 200000 "00000001"))
           (conj demo_balancer_wf demo_balancer_counters)).
Qed.

Lemma second_conversation_routed :
  route_call busy_balancer (call "2" None)
    (env_at 300000 "ab12cd34") (env_at 500000 "ab12cd34")
  = (Success second_routed, snd second_conversation).
Proof. vm_compute. reflexivity. Qed.

Lemma session_affinity_witness :
  route_call busy_balancer (call "2" None)
    (env_at 300000 "ab12cd34") (env_at 500000 "ab12cd34")
  = (Success second_routed, snd second_conversation)
  /\ current_strategy (run_operations (snd second_conversation) between_calls)
     = "session_aware"
  /\ status_of (run_operations (snd second_conversation) between_calls)
       "us-east-1-instance-2" = Some "healthy"
  /\ (fun ri => instance_id (snd ri))
       <$> _least_connections
             (get_available_instances
                (run_operations (snd second_conversation) between_calls))
     = Some "us-east-1-instance-1"
  /\ exists routed2 lb3,
       route_call (run_operations (snd second_conversation) between_calls)
         (call "5" (Some "session-ab12cd34"))
         (env_at 60000000 "00000005") (env_at 60200000 "00000005")
       = (Success routed2, lb3)
       /\ ok_instance_id routed2 = "us-east-1-instance-2"
       /\ ok_session_id routed2 = "session-ab12cd34"
       /\ binding lb3 "session-ab12cd34" = Some "us-east-1-instance-2".
Proof.
  assert (Hstrat : current_strategy
                     (run_operations (snd second_conversation) between_calls)
                   = "session_aware") by (vm_compute; reflexivity).
  assert (Hstatus : status_of (run_operations (snd second_conversation) between_calls)
                      "us-east-1-instance-2" = Some "healthy")
    by (vm_compute; reflexivity).
  split; [exact second_conversation_routed |]. split; [exact Hstrat |].
  split; [exact Hstatus |]. split; [vm_compute; reflexivity |].
  destruct (session_affinity busy_balancer (call "2" None)
              (env_at 300000 "ab12cd34") (env_at 500000 "ab12cd34")
              second_routed (snd second_conversation) between_calls
              (call "5" (Some "session-ab12cd34"))
              (env_at 60000000 "00000005") (env_at 60200000 "00000005"))
    as (_ & _ & routed2 & lb3 & Hcall & Hid & Hsid & Hb).
  - exact (proj1 busy_balancer_invariants).
  - exact (proj2 busy_balancer_invariants).
  - reflexivity.
  - exact second_conversation_routed.
  - discriminate.
  - constructor; [right; vm_compute; discriminate |].
    constructor; [exact I |]. constructor; [exact I |]. constructor; [exact I |].
    constructor; [left; reflexivity | constructor].
  - intros k now s Hk Hs.
    destruct k as [| [| [| [| [| k]]]]]; vm_compute in Hk; try discriminate Hk.
    injection Hk as <-. vm_compute in Hs. injection Hs as <-.
    vm_compute. discriminate.
  - intros s Hs. vm_compute in Hs. injection Hs as <-. vm_compute. reflexivity.
  - exact Hstrat.
  - exact Hstatus.
  - reflexivity.
  - exists routed2, lb3. repeat split; assumption.
Defined.


End LoadBalancingRuns.
